(** * JiraAutomator: CSV rows pushed to an issue tracker

    A shallow embedding of [ColumnUpdater.py], [Importer.py],
    [DependencyUpdater.py] and [Runner.py].  A Python string is a
    [string] whose characters stand for the code points below 256; a
    row of the CSV file is a finite map from column names to strings
    (for the Importer, which reads cells with [row[k]], to strings or
    [None]); the remote tracker is an interface whose answers are
    arbitrary, so what is proved holds for every tracker.  Pauses
    ([time.sleep]) are left out. *)

From Stdlib Require Import ZArith Ascii String List Bool Lia.
From stdpp Require Import gmap strings list.

(** ** Python [str] helpers *)

Module Text.

Local Open Scope N_scope.

Definition code (c : ascii) : N := N_of_ascii c.

(** [str.isspace] on one character (code points below 256). *)
Definition isspace (c : ascii) : bool :=
  let n := code c in
  ((9 <=? n) && (n <=? 13)) || ((28 <=? n) && (n <=? 32))
  || (n =? 133) || (n =? 160).

(** [str.lower] on one character: A-Z and the Latin-1 capitals. *)
Definition lower_char (c : ascii) : ascii :=
  let n := code c in
  if ((65 <=? n) && (n <=? 90))
     || ((192 <=? n) && (n <=? 222) && negb (n =? 215))
  then ascii_of_N (n + 32) else c.

Fixpoint lower (s : string) : string :=
  match s with
  | EmptyString => EmptyString
  | String c r => String (lower_char c) (lower r)
  end.

Fixpoint lstrip (s : string) : string :=
  match s with
  | EmptyString => EmptyString
  | String c r => if isspace c then lstrip r else s
  end.

Fixpoint rstrip (s : string) : string :=
  match s with
  | EmptyString => EmptyString
  | String c r =>
      match rstrip r with
      | EmptyString => if isspace c then EmptyString else String c EmptyString
      | r' => String c r'
      end
  end.

(** [s.strip()] *)
Definition strip (s : string) : string := rstrip (lstrip s).

(** A string that ends with a character other than white space. *)
Fixpoint ends_nonspace (s : string) : bool :=
  match s with
  | EmptyString => false
  | String c EmptyString => negb (isspace c)
  | String _ r => ends_nonspace r
  end.

(** Truth value of a Python string: non-empty. *)
Definition truthy (s : string) : bool := negb (s =? "")%string.

(** [s.split(",")]: always at least one piece. *)
Fixpoint split_comma (s : string) : list string :=
  match s with
  | EmptyString => [EmptyString]
  | String c r =>
      if (c =? ",")%char then EmptyString :: split_comma r
      else match split_comma r with
           | h :: t => String c h :: t
           | [] => [String c EmptyString]
           end
  end.

(** [[x.strip() for x in s.split(",") if x.strip()]] *)
Definition tokens (s : string) : list string :=
  List.filter truthy (List.map strip (split_comma s)).

(** [x if x else None]: a value that passes an [if x:] test. *)
Definition nonempty (o : option string) : option string :=
  match o with
  | Some x => if truthy x then Some x else None
  | None => None
  end.

(** [a or b] on optional strings ([None] and [""] are falsy). *)
Definition py_or (a b : option string) : option string :=
  match a with
  | Some x => if truthy x then a else b
  | None => b
  end.

End Text.

(** ** Dates: [datetime.strptime], [strftime] and [normalize_date] *)

Module Dates.
Import Text.
Local Open Scope N_scope.

Definition is_leap (y : N) : bool :=
  (y mod 4 =? 0) && (negb (y mod 100 =? 0) || (y mod 400 =? 0)).

Definition days_in_month (y m : N) : N :=
  match m with
  | 2 => if is_leap y then 29 else 28
  | 4 | 6 | 9 | 11 => 30
  | _ => 31
  end.

(** The range check of the [datetime] constructor (MINYEAR = 1,
    MAXYEAR = 9999). *)
Definition valid_date (y m d : N) : bool :=
  (1 <=? y) && (y <=? 9999) && (1 <=? m) && (m <=? 12)
  && (1 <=? d) && (d <=? days_in_month y m).

(** A [datetime] value, reduced to its calendar date.  As in Python, a
    value of this type only exists for a date the constructor accepts. *)
Record date := mkdate {
  year : N;
  month : N;
  day : N;
  date_ok : valid_date year month day = true
}.

Definition make_date (y m d : N) : option date :=
  match bool_dec (valid_date y m d) true with
  | left H => Some (mkdate y m d H)
  | right _ => None
  end.

Definition is_digit (c : ascii) : bool :=
  (48 <=? code c) && (code c <=? 57).

Definition digit_val (c : ascii) : N := code c - 48.

Definition in_range (lo hi : N) (c : ascii) : bool :=
  is_digit c && (lo <=? digit_val c) && (digit_val c <=? hi).

(** The pieces a format string is compiled to by [_strptime.TimeRE]:
    a directive, a literal character, or a run of white space (which
    matches one or more white-space characters). *)
Inductive piece :=
  | PY | Pm | Pd | Pb | PB
  | Lit (c : ascii)
  | Ws.

Fixpoint compile_format (f : string) : option (list piece) :=
  match f with
  | EmptyString => Some []
  | String "%" (String k r) =>
      match (if (k =? "Y")%char then Some PY
             else if (k =? "m")%char then Some Pm
             else if (k =? "d")%char then Some Pd
             else if (k =? "b")%char then Some Pb
             else if (k =? "B")%char then Some PB
             else None), compile_format r with
      | Some p, Some ps => Some (p :: ps)
      | _, _ => None
      end
  | String c r =>
      match compile_format r with
      | Some ps =>
          if isspace c
          then match ps with
               | Ws :: _ => Some ps
               | _ => Some (Ws :: ps)
               end
          else Some (Lit c :: ps)
      | None => None
      end
  end.

(** Remainders left by [\s+], the longest match first. *)
Fixpoint ws_alts (s : string) : list string :=
  match s with
  | String c r => if isspace c then ws_alts r ++ [r] else []
  | EmptyString => []
  end.

(** [(?P<Y>\d\d\d\d)] *)
Definition alts_Y (s : string) : list (N * string) :=
  match s with
  | String a (String b (String c (String d r))) =>
      if is_digit a && is_digit b && is_digit c && is_digit d
      then [(1000 * digit_val a + 100 * digit_val b
             + 10 * digit_val c + digit_val d, r)]
      else []
  | _ => []
  end.

(** One alternative made of two characters, the first one fixed by a
    range too. *)
Definition two_chars (lo1 hi1 lo2 hi2 : N) (s : string)
  : list (N * string) :=
  match s with
  | String a (String b r) =>
      if in_range lo1 hi1 a && in_range lo2 hi2 b
      then [(10 * digit_val a + digit_val b, r)] else []
  | _ => []
  end.

Definition one_char (lo hi : N) (s : string) : list (N * string) :=
  match s with
  | String a r => if in_range lo hi a then [(digit_val a, r)] else []
  | _ => []
  end.

(** [(?P<m>1[0-2]|0[1-9]|[1-9])] *)
Definition alts_m (s : string) : list (N * string) :=
  two_chars 1 1 0 2 s ++ two_chars 0 0 1 9 s ++ one_char 1 9 s.

(** [(?P<d>3[0-1]|[1-2]\d|0[1-9]|[1-9]| [1-9])] *)
Definition alts_d (s : string) : list (N * string) :=
  two_chars 3 3 0 1 s ++ two_chars 1 2 0 9 s ++ two_chars 0 0 1 9 s
  ++ one_char 1 9 s
  ++ match s with
     | String " " r => one_char 1 9 r
     | _ => []
     end.

(** Case-insensitive match of a lower-case word at the head of [s]. *)
Fixpoint match_word (w s : string) : option string :=
  match w, s with
  | EmptyString, _ => Some s
  | String a w', String c s' =>
      if (lower_char c =? a)%char then match_word w' s' else None
  | String _ _, EmptyString => None
  end.

Definition a_month : list string :=
  ["jan"; "feb"; "mar"; "apr"; "may"; "jun";
   "jul"; "aug"; "sep"; "oct"; "nov"; "dec"].

Definition f_month : list string :=
  ["january"; "february"; "march"; "april"; "may"; "june"; "july";
   "august"; "september"; "october"; "november"; "december"].

(** The alternation of the month names as [TimeRE] orders it (longest
    names first), each with its month number. *)
Definition b_order : list N := [1; 2; 3; 4; 5; 6; 7; 8; 9; 10; 11; 12].
Definition B_order : list N := [9; 2; 11; 12; 1; 10; 8; 3; 4; 6; 7; 5].

Definition alts_names (names : list string) (order : list N) (s : string)
  : list (N * string) :=
  List.flat_map
    (fun k => match match_word (List.nth (N.to_nat (k - 1)) names EmptyString) s with
              | Some r => [(k, r)]
              | None => []
              end) order.

(** What has been read so far; [_strptime] starts from 1900-01-01. *)
Record found := mkfound { fY : N; fm : N; fd : N }.

Definition found0 : found := mkfound 1900 1 1.

Definition alts (p : piece) (s : string) (f : found) : list (found * string) :=
  match p with
  | PY => List.map (fun '(v, r) => (mkfound v (fm f) (fd f), r)) (alts_Y s)
  | Pm => List.map (fun '(v, r) => (mkfound (fY f) v (fd f), r)) (alts_m s)
  | Pd => List.map (fun '(v, r) => (mkfound (fY f) (fm f) v, r)) (alts_d s)
  | Pb => List.map (fun '(v, r) => (mkfound (fY f) v (fd f), r))
            (alts_names a_month b_order s)
  | PB => List.map (fun '(v, r) => (mkfound (fY f) v (fd f), r))
            (alts_names f_month B_order s)
  | Lit c =>
      match s with
      | String c' r => if (c' =? c)%char then [(f, r)] else []
      | EmptyString => []
      end
  | Ws => List.map (fun r => (f, r)) (ws_alts s)
  end.

Fixpoint first_some {A B : Type} (k : A -> option B) (l : list A) : option B :=
  match l with
  | [] => None
  | x :: l' => match k x with Some y => Some y | None => first_some k l' end
  end.

(** [re.match]: depth-first search, the first alternative that lets the
    rest of the pattern match wins. *)
Fixpoint re_match (ps : list piece) (s : string) (f : found)
  : option (found * string) :=
  match ps with
  | [] => Some (f, s)
  | p :: ps' => first_some (fun '(f', r) => re_match ps' r f') (alts p s f)
  end.

(** [datetime.strptime(s, fmt)]; [None] stands for [ValueError]. *)
Definition strptime (s fmt : string) : option date :=
  match compile_format fmt with
  | Some ps =>
      match re_match ps s found0 with
      | Some (f, EmptyString) => make_date (fY f) (fm f) (fd f)
      | _ => None
      end
  | None => None
  end.

Definition digit_char (n : N) : ascii := ascii_of_N (48 + n).

Definition pad2 (n : N) : string :=
  String (digit_char (n / 10)) (String (digit_char (n mod 10)) EmptyString).

Definition pad4 (n : N) : string :=
  String (digit_char (n / 1000)) (String (digit_char (n / 100 mod 10))
    (pad2 (n mod 100))).

(** What differs between platforms.  [strftime] hands [%Y] to the C
    library: some write the year on four digits, zero-filled (0999),
    others write its digits only (glibc under CPython 3.11 gives 999
    for the year 999). *)
Class Platform := zero_filled_year : bool.

(** The digits of a year (1 to 9999) without leading zeros. *)
Definition unfilled (n : N) : string :=
  if n <? 10 then String (digit_char n) EmptyString
  else if n <? 100 then pad2 n
  else if n <? 1000 then String (digit_char (n / 100)) (pad2 (n mod 100))
  else pad4 n.

(** What [%Y] writes. *)
Definition year_text `{Platform} (y : N) : string :=
  if zero_filled_year then pad4 y else unfilled y.

(** [dt.strftime(fmt)] for the directives used here. *)
Fixpoint strftime `{Platform} (dt : date) (fmt : string) : string :=
  match fmt with
  | EmptyString => EmptyString
  | String "%" (String k r) =>
      (if (k =? "Y")%char then year_text (year dt)
       else if (k =? "m")%char then pad2 (month dt)
       else if (k =? "d")%char then pad2 (day dt)
       else String "%" (String k EmptyString)) +:+ strftime dt r
  | String c r => String c (strftime dt r)
  end.

(** The part of the standard library that is left open:
    [datetime.fromisoformat], whose accepted inputs vary between Python
    versions.  Whatever it accepts, it returns a [datetime]. *)
Class IsoParser := fromisoformat : string -> option date.

Definition DATE_FMT : string := "%Y-%m-%d".

Definition fmts : list string :=
  ["%Y-%m-%d"; "%d/%m/%Y"; "%d-%m-%Y"; "%m/%d/%Y"; "%m-%d-%Y";
   "%d %b %Y"; "%d %B %Y"; "%b %d %Y"; "%B %d %Y";
   "%Y/%m/%d"].

Definition absent_words : list string := ["nan"; "none"; "null"].

(** [normalize_date] (ColumnUpdater.py, lines 57-78): the formats are
    tried in order, then [fromisoformat]; every exception is caught. *)
Definition normalize_date `{Platform} `{IsoParser} (s : string)
  : option string :=
  if negb (truthy s) || (strip s =? "")%string
     || bool_decide (lower (strip s) ∈ absent_words)
  then None
  else
    let s := strip s in
    match first_some (strptime s) fmts with
    | Some dt => Some (strftime dt DATE_FMT)
    | None =>
        match fromisoformat s with
        | Some dt => Some (strftime dt DATE_FMT)
        | None => None
        end
    end.

(** The shape [yyyy-mm-dd]: ten characters, digits around two dashes. *)
Definition is_yyyy_mm_dd (s : string) : bool :=
  match s with
  | String a (String b (String c (String d (String h1
      (String e (String f (String h2 (String g (String h EmptyString)))))))))
    => is_digit a && is_digit b && is_digit c && is_digit d
       && (h1 =? "-")%char && is_digit e && is_digit f
       && (h2 =? "-")%char && is_digit g && is_digit h
  | _ => false
  end.

(** The dates whose year [strftime] writes on four digits: all of them
    on a platform that zero-fills, those from the year 1000 on
    elsewhere. *)
Definition full_year `{Platform} (dt : date) : bool :=
  zero_filled_year || (1000 <=? year dt).

(** A parser for the witness and the examples: it accepts nothing. *)
Definition no_iso : IsoParser := fun _ => None.

(** The two kinds of platform. *)
Definition glibc : Platform := false.
Definition zero_filling : Platform := true.

End Dates.

(** ** A monad for runs: state, exceptions and a log of what was done *)

Module Run.

Inductive outcome (E A : Type) :=
  | Ok (a : A)
  | Raise (e : E).
Arguments Ok {E A} a.
Arguments Raise {E A} e.

Section Monad.
Context {S Ev E : Type}.

(** A computation reads and changes the state, appends to the log the
    events it causes, and returns a value or raises an exception. *)
Definition M (A : Type) : Type := S -> outcome E A * S * list Ev.

Definition ret {A} (a : A) : M A := fun s => (Ok a, s, []).

Definition bind {A B} (m : M A) (k : A -> M B) : M B := fun s =>
  match m s with
  | (Ok a, s1, l1) =>
      match k a s1 with
      | (r, s2, l2) => (r, s2, l1 ++ l2)
      end
  | (Raise e, s1, l1) => (Raise e, s1, l1)
  end.

Definition raise {A} (e : E) : M A := fun s => (Raise e, s, []).

Definition tell (ev : Ev) : M unit := fun s => (Ok tt, s, [ev]).

Definition gets {A} (f : S -> A) : M A := fun s => (Ok (f s), s, []).

Definition modify (f : S -> S) : M unit := fun s => (Ok tt, f s, []).

(** [try: m except Exception as e: h e] *)
Definition try_except {A} (m : M A) (h : E -> M A) : M A := fun s =>
  match m s with
  | (Ok a, s1, l1) => (Ok a, s1, l1)
  | (Raise e, s1, l1) =>
      match h e s1 with
      | (r, s2, l2) => (r, s2, l1 ++ l2)
      end
  end.

(** [for x in xs: acc = body x acc] *)
Fixpoint for_each {A B} (body : A -> B -> M B) (xs : list A) (acc : B) : M B :=
  match xs with
  | [] => ret acc
  | x :: xs' => bind (body x acc) (for_each body xs')
  end.

Definition result_of {A} (r : outcome E A * S * list Ev) : outcome E A := r.1.1.
Definition state_of {A} (r : outcome E A * S * list Ev) : S := r.1.2.
Definition log_of {A} (r : outcome E A * S * list Ev) : list Ev := r.2.

(** Every event that [m] logs satisfies [P], from any state. *)
Definition emits {A} (P : Ev -> Prop) (m : M A) : Prop :=
  forall s, Forall P (log_of (m s)).

(** [m] always returns: it never raises. *)
Definition total {A} (m : M A) : Prop :=
  forall s, exists a, result_of (m s) = Ok a.


End Monad.

Arguments M : clear implicits.

Module Notations.
Notation "x <- m ;; k" := (bind m (fun x => k))
  (at level 100, m at next level, right associativity).
Notation "m ;;; k" := (bind m (fun _ => k))
  (at level 100, right associativity).
End Notations.

End Run.

(** ** JSON values that occur in issue fields *)

Inductive jvalue :=
  | JStr (s : string)                       (* "s" *)
  | JRef (member value : string)            (* {member: value} *)
  | JStrs (l : list string)                 (* ["a", "b"] *)
  | JRefs (member : string) (l : list string) (* [{member: a}, ...] *)
  | JAdf (text : string)                    (* the document of [to_adf] *)
  | JNull.                                  (* null, for [None] *)

(** ** Importer.py *)

Module Importer.
Import Text Run Run.Notations.

(** Importer.py, line 13. *)
Definition MAX_RETRIES : nat := 1.

(** [clean_date] (lines 31-35): the trimmed value when it has the shape
    of [DATE_RE]. *)
Definition clean_date (val : option string) : option string :=
  match val with
  | None => None
  | Some v =>
      if negb (truthy v) then None
      else if Dates.is_yyyy_mm_dd (strip v) then Some (strip v) else None
  end.

(** [to_adf] (lines 119-133). *)
Definition to_adf (text : option string) : jvalue :=
  let safe := strip (default "" text) in
  JAdf (if truthy safe then safe else " ").

(** The JSON bodies that are posted. *)
Inductive payload :=
  | Fields (fields : gmap string jvalue)  (* {"fields": fields} *)
  | Link (inward_key outward_key : string).
      (* {"type": {"name": "Blocks"}, "inwardIssue": .., "outwardIssue": ..} *)

(** The body of an answer, as far as it is read: of an object the
    member ["key"], if it has one (a string); an empty text is read as
    the empty object, [Json None]. *)
Inductive body :=
  | NotJson                       (* [r.json()] raises *)
  | NotObject                     (* JSON, but no object *)
  | Json (key : option string).

(** What a call on the HTTP session gives: a response, with its status
    and its body, or a [requests.exceptions.RequestException] (the
    request failed in transport). *)
Inductive http_result :=
  | Response (status_code : Z) (b : body)
  | RequestException.

Inductive method := GET | POST | DELETE.

(** The remote side: it answers every request as it likes and may
    change while doing so. *)
Class Session (S : Type) :=
  session_request : method -> string -> option payload -> S -> http_result * S.

Inductive exn :=
  | SystemExit (msg : string)
  | RequestError          (* a RequestException that was not handled *)
  | JSONDecodeError       (* raised by [r.json()]; a RequestException too *)
  | AttributeError        (* [resp.get] on a value that is no object *)
  | KeyError (k : string)
  | TypeError.

(** The log: every request that went out, with its answer, and the
    lines printed instead of a request in a dry run. *)
Inductive event :=
  | Sent (m : method) (path : string) (json : option payload) (r : http_result)
  | DryRunPost (path : string) (json : payload)
  | DryRunDelete (path : string)
  | Warning (depends_on summary : string).

(** The path an event posts to, if it is a post: sent, or only printed
    in a dry run. *)
Definition post_path (ev : event) : option string :=
  match ev with
  | Sent POST path _ _ => Some path
  | DryRunPost path _ => Some path
  | _ => None
  end.


Definition created_status (code : Z) : bool :=
  (code =? 200)%Z || (code =? 201)%Z.

(** The key of the issue that the last event of a log reports as
    created: the ["key"] of a 200 or 201 answer, or the key a dry run
    makes up. *)
Definition key_of (ev : event) : option string :=
  match ev with
  | Sent POST _ _ (Response code (Json key)) =>
      if created_status code then nonempty key else None
  | DryRunPost _ _ => Some "DRY-KEY"
  | _ => None
  end.

(** An answer on which [jira_post] returns: a response whose body
    [r.json()] reads.  On the others, a failure in transport or a body
    that is no JSON, it ends in its [except] branch. *)
Definition readable (r : http_result) : bool :=
  match r with
  | Response _ NotJson => false
  | Response _ _ => true
  | RequestException => false
  end.

(** What [jira_post] does at its last attempt. *)
Definition last_attempt (r : http_result) : Run.outcome exn (Z * body) :=
  match r with
  | Response code NotJson => Run.Raise JSONDecodeError
  | Response code b => Run.Ok (code, b)
  | RequestException => Run.Raise RequestError
  end.

Fixpoint returned_key (log : list event) : option string :=
  match log with
  | [] => None
  | [ev] => key_of ev
  | _ :: l => returned_key l
  end.

Section Program.
Context {S : Type} `{Session S}.

Local Abbreviation M := (Run.M S event exn).

Definition send (m : method) (path : string) (json : option payload)
  : M http_result := fun s =>
  let '(r, s') := session_request m path json s in
  (Ok r, s', [Sent m path json r]).

(** The [for attempt in range(MAX_RETRIES + 1)] loop of [jira_post].
    The body is read by [r.json()] inside the [try], and the
    [JSONDecodeError] that requests raises for a text that is no JSON
    is a [RequestException]: such an answer is handled like a failure
    in transport. *)
Fixpoint jira_post_attempts (attempts : list nat) (path : string) (json : payload)
  : M (Z * body) :=
  match attempts with
  | [] => raise TypeError
  | attempt :: rest =>
      r <- send POST path (Some json) ;;
      match r with
      | Response code NotJson =>
          if (attempt <? MAX_RETRIES)%nat
          then jira_post_attempts rest path json
          else raise JSONDecodeError
      | Response code b => ret (code, b)
      | RequestException =>
          if (attempt <? MAX_RETRIES)%nat
          then jira_post_attempts rest path json
          else raise RequestError
      end
  end.

(** [jira_post] (lines 42-62). *)
Definition jira_post (path : string) (json : payload) (dry_run : bool)
  : M (Z * body) :=
  if dry_run then
    tell (DryRunPost path json) ;;;
    ret (200%Z, Json (Some "DRY-KEY"))
  else jira_post_attempts (seq 0 (MAX_RETRIES + 1)) path json.

(** [jira_get] (lines 64-69) and [jira_delete] (lines 71-79): one
    request, no [try]. *)
Definition jira_get (path : string) : M (Z * body) :=
  r <- send GET path None ;;
  match r with
  | Response code NotJson => raise JSONDecodeError
  | Response code b => ret (code, b)
  | RequestException => raise RequestError
  end.

Definition jira_delete (path : string) (dry_run : bool) : M Z :=
  if dry_run then
    tell (DryRunDelete path) ;;;
    ret 204%Z
  else
    r <- send DELETE path None ;;
    match r with
    | Response code _ => ret code
    | RequestException => raise RequestError
    end.

(** [create_issue] (lines 135-139) and [link_issue] (lines 141-148). *)
Definition create_issue (fields : gmap string jvalue) (dry_run : bool)
  : M (option string) :=
  r <- jira_post "/rest/api/3/issue" (Fields fields) dry_run ;;
  let '(code, resp) := r in
  if created_status code then
    match resp with
    | Json key => ret key
    | _ => raise AttributeError
    end
  else ret None.

Definition link_issue (inward_key outward_key : string) (dry_run : bool)
  : M bool :=
  r <- jira_post "/rest/api/3/issueLink"
         (Link inward_key outward_key) dry_run ;;
  let '(code, _) := r in
  ret (created_status code).

(** Command line and environment. *)
Record args := {
  project_key : string;
  dry_run : bool;
  JIRA_START_DATE_FIELD : option string
}.

(** A row as [csv.DictReader] gives it: a cell is a string, or [None]
    when the line is shorter than the header. *)
Definition row : Type := gmap string (option string).

(** The variables of [main] that live across rows.  A summary that is
    [None] is a key of [created] like any other. *)
Record vars := {
  created : gmap (option string) string;
  pending_links : list (string * string);
  current_parent : option string
}.

Definition vars0 : vars :=
  {| created := ∅; pending_links := []; current_parent := None |}.

(** [row[k]] *)
Definition getitem (r : row) (k : string) : M (option string) :=
  match r !! k with
  | Some v => ret v
  | None => raise (KeyError k)
  end.

(** [row.get(k)] *)
Definition get (r : row) (k : string) : option string :=
  default None (r !! k).

(** A cell in an f-string, and as a JSON value. *)
Definition py_str (o : option string) : string := default "None" o.

Definition json_of (o : option string) : jvalue :=
  match o with
  | Some s => JStr s
  | None => JNull
  end.

(** [issue_type == t] *)
Definition is_type (issue_type : option string) (t : string) : bool :=
  match issue_type with
  | Some s => (s =? t)%string
  | None => false
  end.

(** The date members added to [fields]. *)
Definition with_dates (a : args) (start_date due_date : option string)
    (fields : gmap string jvalue) : gmap string jvalue :=
  let fields :=
    match clean_date due_date with
    | Some d => <["duedate" := JStr d]> fields
    | None => fields
    end in
  match JIRA_START_DATE_FIELD a with
  | Some f =>
      if truthy f then
        match clean_date start_date with
        | Some d => <[f := JStr d]> fields
        | None => fields
        end
      else fields
  | None => fields
  end.

(** One turn of the loop over the rows (lines 180-247). *)
Definition import_row (a : args) (r : row) (v : vars) : M vars :=
  summary <- getitem r "Summary" ;;
  let description := to_adf (default (Some "") (r !! "Description")) in
  issue_type <- getitem r "Issue Type" ;;
  let start_date := get r "Start date" in
  let due_date := get r "Due date" in
  let depends_on := strip (default "" (get r "Depends on")) in
  if is_type issue_type "Task" then
    let fields :=
      with_dates a start_date due_date
        (<["description" := description]>
         (<["issuetype" := JRef "name" "Task"]>
          (<["project" := JRef "key" (project_key a)]>
           (<["summary" := json_of summary]> ∅)))) in
    key <- create_issue fields (dry_run a) ;;
    match nonempty key with
    | Some k =>
        ret {| created := <[summary := k]> (created v);
               pending_links := pending_links v;
               current_parent := summary |}
    | None =>
        raise (SystemExit ("Failed to create task '" +:+ py_str summary +:+ "'"))
    end
  else if is_type issue_type "Sub-task" then
    match nonempty (current_parent v) with
    | Some parent =>
        match created v !! Some parent with
        | Some parent_key =>
            let fields :=
              with_dates a start_date due_date
                (<["parent" := JRef "key" parent_key]>
                 (<["description" := description]>
                  (<["issuetype" := JRef "name" "Sub-task"]>
                   (<["project" := JRef "key" (project_key a)]>
                    (<["summary" := json_of summary]> ∅))))) in
            key <- create_issue fields (dry_run a) ;;
            match nonempty key with
            | Some k =>
                let created' :=
                  <[Some (parent +:+ ":" +:+ py_str summary) := k]> (created v) in
                if truthy depends_on then
                  let dep_key :=
                    py_or (created' !! Some depends_on)
                      (py_or (created' !! Some (depends_on +:+ ":Design"))
                             (created' !! Some (depends_on +:+ ":Approval"))) in
                  match nonempty dep_key with
                  | Some d =>
                      ret {| created := created';
                             pending_links := pending_links v ++ [(d, k)];
                             current_parent := current_parent v |}
                  | None =>
                      tell (Warning depends_on (py_str summary)) ;;;
                      ret {| created := created';
                             pending_links := pending_links v;
                             current_parent := current_parent v |}
                  end
                else
                  ret {| created := created';
                         pending_links := pending_links v;
                         current_parent := current_parent v |}
            | None =>
                raise (SystemExit ("Failed to create subtask '"
                                   +:+ py_str summary
                                   +:+ "' for parent '" +:+ parent +:+ "'"))
            end
        | None =>
            raise (SystemExit ("Subtask '" +:+ py_str summary
                               +:+ "' found without a valid parent task"))
        end
    | None =>
        raise (SystemExit ("Subtask '" +:+ py_str summary
                           +:+ "' found without a valid parent task"))
    end
  else ret v.

(** The first loop of [main] (lines 174-247): one issue per row. *)
Definition create_all (a : args) (rows : list row) : M vars :=
  for_each (import_row a) rows vars0.

(** The second loop of [main] (lines 249-256): one link per pending
    pair. *)
Definition link_all (a : args) (links : list (string * string)) : M unit :=
  for_each (fun '(dep_key, tgt_key) _ =>
              link_issue dep_key tgt_key (dry_run a) ;;; ret tt)
           links tt.

(** [main], from the point where the rows have been read and the
    project has been wiped or kept. *)
Definition main (a : args) (rows : list row) : M unit :=
  v <- create_all a rows ;;
  link_all a (pending_links v).

End Program.

End Importer.

(** ** ColumnUpdater.py *)

Module ColumnUpdater.
Import Text Run Run.Notations.

(** An entry of the ["issues"] member of a search result. *)
Record hit := { hit_key : string; hit_summary : string }.

(** A component or a version of a project, as the tracker describes it. *)
Record entity := { ent_id : string; ent_name : string }.

(** The calls the program makes on the REST interface. *)
Inductive request :=
  | SearchIssues (jql : string) (maxResults : nat) (fields : list string)
      (* POST /rest/api/3/search *)
  | UserSearch (query : string)
      (* GET /rest/api/3/user/search *)
  | ListVersions (project_id : string)
      (* GET /rest/api/3/project/{id}/versions *)
  | CreateVersion (name project_id : string)
      (* POST /rest/api/3/version *)
  | ListComponents (project_id : string)
      (* GET /rest/api/3/project/{id}/components *)
  | CreateComponent (name project_id : string)
      (* POST /rest/api/3/component *)
  | GetProject (project_key : string)
      (* GET /rest/api/3/project/{key} *)
  | UpdateIssue (issue_key : string) (fields : gmap string jvalue)
      (* PUT /rest/api/3/issue/{key} *)
  | CreateLink (inward_key outward_key : string).
      (* POST /rest/api/3/issueLink, type Blocks *)

(** The body of a response, as far as the program reads it. *)
Inductive body :=
  | NoBody                       (* empty text *)
  | NotJson                      (* text that [r.json()] rejects *)
  | Issues (l : list hit)        (* an object, with its "issues" *)
  | Users (l : list string)      (* a list of users: their "accountId" *)
  | Entities (l : list entity)   (* a list of components or versions *)
  | Entity (e : entity)          (* one component or version *)
  | Project (id : string)        (* a project, with its "id" *)
  | OtherJson.                   (* any other JSON object *)

Inductive reply :=
  | Unreachable                        (* the session raises *)
  | Status (status_code : Z) (b : body).

(** The tracker: any answer to any request, and it may change. *)
Class Tracker (T : Type) := answer : request -> T -> reply * T.

Inductive exn :=
  | RuntimeError (status_code : Z)   (* raised by [_check] *)
  | ConnectionError
  | JSONDecodeError
  | LookupError.                     (* KeyError, TypeError, AttributeError *)

Inductive message :=
  | SkipNoKey (i : Z)
  | SkipNoMatch (i : Z) (summary : string)
  | UpdatedThrough (updated : Z) (key : string)
  | ErrorUpdating (i : Z) (key : string) (e : exn)
  | ErrorLinking (i : Z) (key dep : string) (e : exn)
  | Done (updated linked skipped : Z) (dry_run : bool)
  | NoChangesMade.

Inductive event :=
  | Called (r : request) (a : reply)
  | Printed (m : message).

(** The [Jira] object: the remote side and the three caches. *)
Record jira (T : Type) := {
  remote : T;
  user_cache : gmap string (option string);
  version_cache : gmap string (gmap string entity);
  component_cache : gmap string (gmap string entity)
}.
Arguments remote {T} _.
Arguments user_cache {T} _.
Arguments version_cache {T} _.
Arguments component_cache {T} _.

Inductive direction := blocked_by | blocks.

Record args := {
  project_key : string;
  startdate_field : option string;
  dry_run : bool;
  max : option Z;
  dependencies_direction : direction;
  EPIC_LINK_FIELD : option string      (* the environment variable *)
}.

(** What [update_issue_fields] and [add_issue_link_is_blocked_by] return:
    the body of the answer, or in a dry run the payload itself. *)
Inductive done :=
  | Answered (b : body)
  | DryRunUpdate (issue : string) (fields : gmap string jvalue)
  | DryRunLink (inward_key outward_key : string).

(** [select]: the choice made among the issues of a search result. *)
Definition same_summary (summary : string) (it : hit) : bool :=
  (lower (strip (hit_summary it)) =? lower (strip summary))%string.

Definition select_issue (issues : list hit) (summary : string) : option string :=
  match List.find (same_summary summary) issues with
  | Some it => Some (hit_key it)
  | None =>
      match issues with
      | it :: _ => Some (hit_key it)
      | [] => None
      end
  end.

Definition dq : string := String (ascii_of_nat 34) EmptyString.

Definition search_request (project_key summary : string) : request :=
  SearchIssues ("project = " +:+ dq +:+ project_key +:+ dq +:+ " AND summary ~ "
          +:+ dq +:+ dq +:+ summary +:+ dq +:+ dq +:+ " ORDER BY created DESC")
         5 ["summary"; "issuetype"].

(** The requests of a log, in the order they were made. *)
Definition requests_of (log : list event) : list request :=
  List.flat_map (fun ev => match ev with
                           | Called r _ => [r]
                           | Printed _ => []
                           end) log.

(** The requests that change an issue: the update and the link. *)
Definition is_write (r : request) : bool :=
  match r with
  | UpdateIssue _ _ | CreateLink _ _ => true
  | _ => false
  end.

(** The components a log shows being created, each as the project and
    the lower-cased name under which the cache files it. *)
Definition component_creations (log : list event) : list (string * string) :=
  List.flat_map (fun r => match r with
                          | CreateComponent name project_id =>
                              [(project_id, lower name)]
                          | _ => []
                          end) (requests_of log).

(** An event that is no update and no link request. *)
Definition no_write (ev : event) : Prop :=
  match ev with
  | Called r _ => is_write r = false
  | Printed _ => True
  end.


(** The link asked for a dependency of the issue [key]. *)
Definition link_request (a : args) (key dep : string) : request :=
  match dependencies_direction a with
  | blocked_by => CreateLink key dep
  | blocks => CreateLink dep key
  end.



Section Program.
Context `{Dates.Platform} `{Dates.IsoParser} {T : Type} `{Tracker T}.

Local Abbreviation M := (Run.M (jira T) event exn).

(** [get], [post] and [put] (lines 94-122): send, then [_check]. *)
Definition call (r : request) : M body := fun s =>
  let '(a, t) := answer r (remote s) in
  let s' := {| remote := t; user_cache := user_cache s;
               version_cache := version_cache s;
               component_cache := component_cache s |} in
  match a with
  | Unreachable => (Raise ConnectionError, s', [Called r a])
  | Status code b =>
      if (code <? 400)%Z then (Ok b, s', [Called r a])
      else (Raise (RuntimeError code), s', [Called r a])
  end.

(** [r.json()] *)
Definition json (b : body) : M body :=
  match b with
  | NoBody | NotJson => raise JSONDecodeError
  | _ => ret b
  end.

(** [search_issue_by_summary] (lines 125-135). *)
Definition search_issue_by_summary (project_key summary : string)
  : M (option string) :=
  b <- call (search_request project_key summary) ;;
  j <- json b ;;
  issues <- match j with
            | Issues l => ret l
            | Users _ | Entities _ => raise LookupError
            | _ => ret []
            end ;;
  ret (select_issue issues summary).

Definition set_user_cache (email : string) (acct : option string) : M unit :=
  modify (fun s => {| remote := remote s;
                      user_cache := <[email := acct]> (user_cache s);
                      version_cache := version_cache s;
                      component_cache := component_cache s |}).

Definition set_versions (project_id : string) (m : gmap string entity) : M unit :=
  modify (fun s => {| remote := remote s;
                      user_cache := user_cache s;
                      version_cache := <[project_id := m]> (version_cache s);
                      component_cache := component_cache s |}).

Definition set_components (project_id : string) (m : gmap string entity) : M unit :=
  modify (fun s => {| remote := remote s;
                      user_cache := user_cache s;
                      version_cache := version_cache s;
                      component_cache := <[project_id := m]> (component_cache s) |}).

(** [resolve_user_account_id] (lines 137-145). *)
Definition resolve_user_account_id (email : string) : M (option string) :=
  cache <- gets user_cache ;;
  match cache !! email with
  | Some acct => ret acct
  | None =>
      b <- call (UserSearch email) ;;
      j <- json b ;;
      users <- match j with
               | Users l => ret l
               | _ => raise LookupError
               end ;;
      let acct := List.head users in
      set_user_cache email acct ;;;
      ret acct
  end.

Definition as_entities (j : body) : M (list entity) :=
  match j with
  | Entities l => ret l
  | _ => raise LookupError
  end.

Definition as_entity (j : body) : M entity :=
  match j with
  | Entity e => ret e
  | _ => raise LookupError
  end.

(** [get_or_create_version] (lines 147-163). *)
Definition get_or_create_version (project_id name : string) : M entity :=
  cache <- gets version_cache ;;
  (match cache !! project_id with
   | Some _ => ret tt
   | None => set_versions project_id ∅
   end) ;;;
  cache <- gets version_cache ;;
  let known := default ∅ (cache !! project_id) in
  match known !! name with
  | Some v => ret v
  | None =>
      b <- call (ListVersions project_id) ;;
      j <- json b ;;
      versions <- as_entities j ;;
      match List.find (fun v => (lower (strip (ent_name v))
                                 =? lower (strip name))%string) versions with
      | Some v =>
          set_versions project_id (<[name := v]> known) ;;;
          ret v
      | None =>
          b <- call (CreateVersion name project_id) ;;
          j <- json b ;;
          v <- as_entity j ;;
          set_versions project_id (<[name := v]> known) ;;;
          ret v
      end
  end.

(** [list_project_components] (lines 165-171). *)
Definition list_project_components (project_id : string)
  : M (gmap string entity) :=
  cache <- gets component_cache ;;
  match cache !! project_id with
  | Some comps => ret comps
  | None =>
      b <- call (ListComponents project_id) ;;
      j <- json b ;;
      l <- as_entities j ;;
      let comps :=
        List.fold_left (fun m c => <[lower (strip (ent_name c)) := c]> m) l ∅ in
      set_components project_id comps ;;;
      ret comps
  end.

(** [get_project_meta] (lines 173-175).  The project is kept as the
    ["id"] member of the answer, if it has one. *)
Definition get_project_meta (project_key : string) : M (option string) :=
  b <- call (GetProject project_key) ;;
  j <- json b ;;
  match j with
  | Project id => ret (Some id)
  | _ => ret None
  end.

(** [project["id"]] *)
Definition project_id (project : option string) : M string :=
  match project with
  | Some id => ret id
  | None => raise LookupError
  end.

(** [update_issue_fields] (lines 178-182). *)
Definition update_issue_fields (issue_key : string)
    (fields : gmap string jvalue) (dry_run : bool) : M done :=
  if dry_run then ret (DryRunUpdate issue_key fields)
  else
    b <- call (UpdateIssue issue_key fields) ;;
    match b with
    | NoBody => ret (Answered OtherJson)     (* {"ok": True} *)
    | _ => j <- json b ;; ret (Answered j)
    end.

(** [add_issue_link_is_blocked_by] (lines 184-192). *)
Definition add_issue_link_is_blocked_by (issue_key depends_on_key : string)
    (dry_run : bool) : M done :=
  if dry_run then ret (DryRunLink issue_key depends_on_key)
  else
    b <- call (CreateLink issue_key depends_on_key) ;;
    j <- json b ;;
    ret (Answered j).

(** [isinstance(x, str) and x.strip()] for a cell of the row. *)
Definition present (cell : option string) : option string :=
  match cell with
  | Some x => if truthy (strip x) then Some x else None
  | None => None
  end.

(** The loop over the component names (lines 225-233).  [comp_map] is
    the dictionary that the cache holds for the project, not a copy of
    it: what is stored in it is seen by every later row. *)
Fixpoint components_loop (project_id : string) (names : list string)
    (ids : list string) : M (list string) :=
  match names with
  | [] => ret ids
  | name :: rest =>
      cache <- gets component_cache ;;
      let comp_map := default ∅ (cache !! project_id) in
      match comp_map !! lower name with
      | Some c => components_loop project_id rest (ids ++ [ent_id c])
      | None =>
          b <- call (CreateComponent name project_id) ;;
          j <- json b ;;
          created <- as_entity j ;;
          set_components project_id (<[lower name := created]> comp_map) ;;;
          components_loop project_id rest (ids ++ [ent_id created])
      end
  end.

Fixpoint versions_loop (project_id : string) (names : list string)
    (ids : list string) : M (list string) :=
  match names with
  | [] => ret ids
  | vname :: rest =>
      v <- get_or_create_version project_id vname ;;
      versions_loop project_id rest (ids ++ [ent_id v])
  end.

(** [build_fields] (lines 194-263). *)
Definition build_fields (row : gmap string string)
    (startdate_field : option string) (epic_link_field : option string)
    (project : option string) : M (gmap string jvalue) :=
  let fields : gmap string jvalue := ∅ in
  (* Dates *)
  let start := Dates.normalize_date (default "" (row !! "StartDate")) in
  let due := Dates.normalize_date (default "" (row !! "DueDate")) in
  let fields :=
    match nonempty startdate_field, nonempty start with
    | Some f, Some d => <[f := JStr d]> fields
    | _, _ => fields
    end in
  let fields :=
    match nonempty due with
    | Some d => <["duedate" := JStr d]> fields
    | None => fields
    end in
  (* Description *)
  let fields :=
    match present (row !! "Description") with
    | Some desc => <["description" := JStr desc]> fields
    | None => fields
    end in
  (* Priority *)
  let fields :=
    match present (row !! "Priority") with
    | Some prio => <["priority" := JRef "name" (strip prio)]> fields
    | None => fields
    end in
  (* Labels *)
  let fields :=
    match present (row !! "Labels") with
    | Some labels => <["labels" := JStrs (tokens labels)]> fields
    | None => fields
    end in
  (* Components *)
  fields <-
    match present (row !! "Components") with
    | Some comps =>
        pid <- project_id project ;;
        list_project_components pid ;;;
        ids <- components_loop pid (tokens comps) [] ;;
        ret (<["components" := JRefs "id" ids]> fields)
    | None => ret fields
    end ;;
  (* FixVersions *)
  fields <-
    match present (row !! "FixVersions") with
    | Some vers =>
        pid <- project_id project ;;
        ids <- versions_loop pid (tokens vers) [] ;;
        ret (<["fixVersions" := JRefs "id" ids]> fields)
    | None => ret fields
    end ;;
  (* Assignee *)
  fields <-
    match present (row !! "AssigneeEmail") with
    | Some ass_email =>
        acct <- resolve_user_account_id (strip ass_email) ;;
        match nonempty acct with
        | Some a => ret (<["assignee" := JRef "accountId" a]> fields)
        | None => ret fields
        end
    | None => ret fields
    end ;;
  (* Epic link *)
  let fields :=
    match present (row !! "EpicKey") with
    | Some epic_key =>
        <[default "customfield_10014" epic_link_field := JStr (strip epic_key)]>
          fields
    | None => fields
    end in
  (* Parent *)
  let fields :=
    match present (row !! "ParentKey") with
    | Some parent_key => <["parent" := JRef "key" (strip parent_key)]> fields
    | None => fields
    end in
  ret fields.

(** The counters of [main]. *)
Record counters := { updated : Z; linked : Z; skipped : Z }.

Definition counters0 : counters := {| updated := 0; linked := 0; skipped := 0 |}.

Definition skip (c : counters) : counters :=
  {| updated := updated c; linked := linked c; skipped := skipped c + 1 |}.

(** [args.max and updated >= args.max] *)
Definition cap_reached (a : args) (c : counters) : bool :=
  match max a with
  | Some n => negb (n =? 0)%Z && (n <=? updated c)%Z
  | None => false
  end.

(** The [try] around [update_issue_fields] (lines 316-322). *)
Definition try_update (a : args) (i : Z) (key : string)
    (fields : gmap string jvalue) (c : counters) : M counters :=
  try_except
    (update_issue_fields key fields (dry_run a) ;;;
     let c' := {| updated := updated c + 1; linked := linked c;
                  skipped := skipped c |} in
     (if (updated c' mod 10 =? 0)%Z
      then tell (Printed (UpdatedThrough (updated c') key))
      else ret tt) ;;;
     ret c')
    (fun e => tell (Printed (ErrorUpdating i key e)) ;;; ret c).

(** The [try] around one link (lines 329-337). *)
Definition try_link (a : args) (i : Z) (key dep : string) (c : counters)
  : M counters :=
  try_except
    (match dependencies_direction a with
     | blocked_by => add_issue_link_is_blocked_by key dep (dry_run a)
     | blocks => add_issue_link_is_blocked_by dep key (dry_run a)
     end ;;;
     ret {| updated := updated c; linked := linked c + 1;
            skipped := skipped c |})
    (fun e => tell (Printed (ErrorLinking i key dep e)) ;;; ret c).

Definition dependencies (row : gmap string string) : list string :=
  match present (row !! "Dependencies") with
  | Some deps_raw => tokens deps_raw
  | None => []
  end.

(** The body of the loop once the key is known (lines 314-337):
    fields, update, links. *)
Definition update_row (a : args) (project : option string) (i : Z)
    (row : gmap string string) (key : string) (c : counters) : M counters :=
  fields <- build_fields row (startdate_field a) (EPIC_LINK_FIELD a) project ;;
  c <- try_update a i key fields c ;;
  for_each (try_link a i key) (dependencies row) c.

(** The body of the loop over the rows (lines 299-337). *)
Definition process_row (a : args) (project : option string) (i : Z)
    (row : gmap string string) (c : counters) : M counters :=
  let key := strip (default "" (row !! "IssueKey")) in
  let summary := strip (default "" (row !! "Summary")) in
  if truthy key then update_row a project i row key c
  else if negb (truthy summary) then
    tell (Printed (SkipNoKey i)) ;;;
    ret (skip c)
  else
    found <- search_issue_by_summary (project_key a) summary ;;
    match nonempty found with
    | Some k => update_row a project i row k c
    | None => tell (Printed (SkipNoMatch i summary)) ;;; ret (skip c)
    end.

(** [for i, row in enumerate(rows, start=1)], with its [break]
    (lines 295-297). *)
Fixpoint rows_loop (a : args) (project : option string)
    (rows : list (gmap string string)) (i : Z) (c : counters) : M counters :=
  match rows with
  | [] => ret c
  | row :: rest =>
      if cap_reached a c then ret c
      else
        c' <- process_row a project i row c ;;
        rows_loop a project rest (i + 1) c'
  end.

(** [main] (lines 283-341), from the point where the arguments have
    been checked; the rows are those read from the CSV file. *)
Definition main (a : args) (rows : list (gmap string string)) : M counters :=
  project <- get_project_meta (project_key a) ;;
  c <- rows_loop a project rows 1 counters0 ;;
  tell (Printed (Done (updated c) (linked c) (skipped c) (dry_run a))) ;;;
  (if dry_run a then tell (Printed NoChangesMade) else ret tt) ;;;
  ret c.

(** The [Jira] object as its constructor leaves it. *)
Definition new_jira (t : T) : jira T :=
  {| remote := t; user_cache := ∅; version_cache := ∅; component_cache := ∅ |}.

End Program.

(** *** What the cache of components holds, against the log *)

Section Cache.
Context {T : Type}.

Local Abbreviation M := (Run.M (jira T) event exn).

(** The component [pk] (project, lower-cased name) is in the cache. *)
Definition filed (j : jira T) (pk : string * string) : Prop :=
  exists m c, component_cache j !! pk.1 = Some m /\ m !! pk.2 = Some c.

(** Every component that the history [h] shows being created is in the
    cache, and none was created twice. *)
Definition consistent (h : list event) (j : jira T) : Prop :=
  NoDup (component_creations h)
  /\ forall pk, pk ∈ component_creations h -> filed j pk.

(** [m] keeps the cache consistent with the history; where it raises,
    the history still shows no component created twice. *)
Definition keeps {A} (m : M A) : Prop :=
  forall h j, consistent h j ->
    match result_of (m j) with
    | Ok _ => consistent (h ++ log_of (m j)) (state_of (m j))
    | Raise _ => NoDup (component_creations (h ++ log_of (m j)))
    end.

(** [m] does not touch the cache of components and creates none. *)
Definition aside {A} (m : M A) : Prop :=
  forall j, component_cache (state_of (m j)) = component_cache j
            /\ component_creations (log_of (m j)) = [].

End Cache.

End ColumnUpdater.

(** ** Concrete sessions, trackers and rows for the examples *)

Module Examples.

(** *** Importer *)

(** Every request is answered 201, with a key numbered after the count
    of requests answered so far. *)
Definition steady : Importer.Session nat :=
  fun _ _ _ n =>
    (Importer.Response 201
       (Importer.Json (Some ("K-" +:+ Dates.pad2 (N.of_nat n)))), S n).


(** Every request is refused with status 400. *)
Definition refusing : Importer.Session nat :=
  fun _ _ _ n => (Importer.Response 400 (Importer.Json None), S n).

Definition live_import : Importer.args :=
  {| Importer.project_key := "FS";
     Importer.dry_run := false;
     Importer.JIRA_START_DATE_FIELD := None |}.

Definition task (summary : string) : Importer.row :=
  <["Issue Type" := Some "Task"]> (<["Summary" := Some summary]> ∅).

Definition subtask (summary depends_on : string) : Importer.row :=
  <["Depends on" := Some depends_on]>
    (<["Issue Type" := Some "Sub-task"]> (<["Summary" := Some summary]> ∅)).



(** The paths posted to, each with the answer; a dry-run line counts
    as a post without an answer. *)
Definition posts (log : list Importer.event)
  : list (string * option Importer.http_result) :=
  List.flat_map (fun ev => match ev with
                           | Importer.Sent _ path _ r => [(path, Some r)]
                           | Importer.DryRunPost path _ => [(path, None)]
                           | _ => []
                           end) log.

(** *** ColumnUpdater *)

(** A tracker without memory: the answer depends on the request only. *)
Definition stateless (f : ColumnUpdater.request -> ColumnUpdater.reply)
  : ColumnUpdater.Tracker unit :=
  fun r t => (f r, t).

(** A project without components and without issues that answers every
    request with success. *)
Definition agreeable (r : ColumnUpdater.request) : ColumnUpdater.reply :=
  match r with
  | ColumnUpdater.SearchIssues _ _ _ =>
      ColumnUpdater.Status 200 (ColumnUpdater.Issues [])
  | ColumnUpdater.UserSearch _ =>
      ColumnUpdater.Status 200 (ColumnUpdater.Users [])
  | ColumnUpdater.ListVersions _ | ColumnUpdater.ListComponents _ =>
      ColumnUpdater.Status 200 (ColumnUpdater.Entities [])
  | ColumnUpdater.CreateVersion name _ | ColumnUpdater.CreateComponent name _ =>
      ColumnUpdater.Status 201
        (ColumnUpdater.Entity
           {| ColumnUpdater.ent_id := "id-" +:+ name;
              ColumnUpdater.ent_name := name |})
  | ColumnUpdater.GetProject _ =>
      ColumnUpdater.Status 200 (ColumnUpdater.Project "10000")
  | ColumnUpdater.UpdateIssue _ _ =>
      ColumnUpdater.Status 204 ColumnUpdater.NoBody
  | ColumnUpdater.CreateLink _ _ =>
      ColumnUpdater.Status 201 ColumnUpdater.OtherJson
  end.

(** The same project, except that every update is refused. *)
Definition no_update (r : ColumnUpdater.request) : ColumnUpdater.reply :=
  match r with
  | ColumnUpdater.UpdateIssue _ _ =>
      ColumnUpdater.Status 400 ColumnUpdater.OtherJson
  | _ => agreeable r
  end.

(** The same project, except that the search cannot be reached. *)
Definition no_search (r : ColumnUpdater.request) : ColumnUpdater.reply :=
  match r with
  | ColumnUpdater.SearchIssues _ _ _ => ColumnUpdater.Unreachable
  | _ => agreeable r
  end.

(** A search that finds two issues, the second one under the summary
    asked for, in other letter case and with blanks around. *)
Definition two_hits (r : ColumnUpdater.request) : ColumnUpdater.reply :=
  match r with
  | ColumnUpdater.SearchIssues _ _ _ =>
      ColumnUpdater.Status 200
        (ColumnUpdater.Issues
           [ {| ColumnUpdater.hit_key := "T-1";
                ColumnUpdater.hit_summary := "Build bridge deck" |};
             {| ColumnUpdater.hit_key := "T-2";
                ColumnUpdater.hit_summary := " build BRIDGE " |} ])
  | _ => agreeable r
  end.

Definition settings (dry : bool) (cap : option Z) : ColumnUpdater.args :=
  {| ColumnUpdater.project_key := "FS";
     ColumnUpdater.startdate_field := None;
     ColumnUpdater.dry_run := dry;
     ColumnUpdater.max := cap;
     ColumnUpdater.dependencies_direction := ColumnUpdater.blocked_by;
     ColumnUpdater.EPIC_LINK_FIELD := None |}.

Definition keyed (key : string) : gmap string string :=
  <["IssueKey" := key]> ∅.

Definition keyed_with (key column value : string) : gmap string string :=
  <[column := value]> (<["IssueKey" := key]> ∅).

Definition named (summary : string) : gmap string string :=
  <["Summary" := summary]> ∅.

(** A request in a few words (the fields of an update are left out). *)
Definition brief (r : ColumnUpdater.request) : string :=
  match r with
  | ColumnUpdater.SearchIssues _ _ _ => "search"
  | ColumnUpdater.UserSearch q => "user " +:+ q
  | ColumnUpdater.ListVersions p => "versions of " +:+ p
  | ColumnUpdater.CreateVersion n _ => "new version " +:+ n
  | ColumnUpdater.ListComponents p => "components of " +:+ p
  | ColumnUpdater.CreateComponent n _ => "new component " +:+ n
  | ColumnUpdater.GetProject k => "project " +:+ k
  | ColumnUpdater.UpdateIssue k _ => "update " +:+ k
  | ColumnUpdater.CreateLink a b => "link " +:+ a +:+ " " +:+ b
  end.

(** The requests of a log, in order. *)
Definition requests (log : list ColumnUpdater.event) : list string :=
  List.flat_map (fun ev => match ev with
                           | ColumnUpdater.Called r _ => [brief r]
                           | ColumnUpdater.Printed _ => []
                           end) log.

(** The lines printed, in order. *)
Definition printed (log : list ColumnUpdater.event) : list ColumnUpdater.message :=
  List.flat_map (fun ev => match ev with
                           | ColumnUpdater.Called _ _ => []
                           | ColumnUpdater.Printed m => [m]
                           end) log.

End Examples.

(** ** Importer.py: the wipe of the project *)

Module Wipe.
Import Text Run Run.Notations.

(** The body of an answer, as far as it is read: of an object the
    members ["issues"] (each issue with its ["key"], if it has one) and
    ["total"], with the defaults of [resp.get]; an empty text is read
    as the empty object, [Json [] 0]. *)
Inductive body :=
  | NotJson                                        (* [r.json()] raises *)
  | NotObject                                      (* JSON, but no object *)
  | Json (issues : list (option string)) (total : Z).

Inductive response :=
  | Response (status_code : Z) (b : body)
  | RequestException.

Inductive request :=
  | SearchPage (jql : string) (startAt maxResults : nat) (fields : string)
      (* GET /rest/api/3/search *)
  | Delete (path : string).

(** The remote side: any answer to any request, and it may change. *)
Class Site (S : Type) := site_answer : request -> S -> response * S.

Inductive exn :=
  | SystemExit (msg : string)
  | RequestError
  | JSONDecodeError
  | AttributeError
  | KeyError (k : string)
  | OutOfFuel.      (* the loop of [search_issues] has not ended yet *)

Inductive message :=
  | GetError (status_code : Z)
  | DeleteError (status_code : Z)
  | Searching (project_key : string)
  | NoIssuesFound
  | Deleting (total : nat) (project_key : string)
  | Progress (i total : nat) (key : string) (ok : bool) (status_code : Z)
  | WipeComplete.

Inductive event :=
  | Sent (r : request) (a : response)
  | DryRunDelete (path : string)
  | Printed (m : message).

(** The paths of the DELETE requests of a log, in order. *)
Definition deletes_of (log : list event) : list string :=
  List.flat_map (fun ev => match ev with
                           | Sent (Delete path) _ => [path]
                           | _ => []
                           end) log.

(** The answers that the searches of a log got, in order. *)
Definition pages_of (log : list event) : list response :=
  List.flat_map (fun ev => match ev with
                           | Sent (SearchPage _ _ _ _) a => [a]
                           | _ => []
                           end) log.

(** The paths a dry run prints instead of deleting, in order. *)
Definition dry_run_deletes (log : list event) : list string :=
  List.flat_map (fun ev => match ev with
                           | DryRunDelete path => [path]
                           | _ => []
                           end) log.

Definition delete_path (key : string) : string :=
  "/rest/api/3/issue/" +:+ key +:+ "?deleteSubtasks=true".

(** [code in (200, 202, 204)] *)
Definition deleted_status (code : Z) : bool :=
  (code =? 200)%Z || (code =? 202)%Z || (code =? 204)%Z.

Section Program.
Context {S : Type} `{Site S}.

Local Abbreviation M := (Run.M S event exn).

Definition send (r : request) : M response := fun s =>
  let '(a, s') := site_answer r s in
  (Ok a, s', [Sent r a]).

(** [jira_get] (lines 64-69), with the parameters of the search. *)
Definition jira_get (r : request) : M (Z * body) :=
  a <- send r ;;
  match a with
  | RequestException => raise RequestError
  | Response code b =>
      (if (400 <=? code)%Z then tell (Printed (GetError code)) else ret tt) ;;;
      match b with
      | NotJson => raise JSONDecodeError
      | _ => ret (code, b)
      end
  end.

(** [jira_delete] (lines 71-79). *)
Definition jira_delete (path : string) (dry_run : bool) : M Z :=
  if dry_run then
    tell (DryRunDelete path) ;;;
    ret 204%Z
  else
    a <- send (Delete path) ;;
    match a with
    | RequestException => raise RequestError
    | Response code _ =>
        (if (400 <=? code)%Z then tell (Printed (DeleteError code)) else ret tt) ;;;
        ret code
    end.

(** The [while True] loop of [search_issues] (lines 84-99); [fuel]
    bounds the number of pages asked for. *)
Fixpoint search_loop (fuel : nat) (jql fields : string) (max_per_page : nat)
    (start_at : nat) (issues : list (option string))
  : M (list (option string)) :=
  match fuel with
  | O => raise OutOfFuel
  | Datatypes.S fuel' =>
      r <- jira_get (SearchPage jql start_at max_per_page fields) ;;
      let '(code, resp) := r in
      if negb (code =? 200)%Z then
        raise (SystemExit ("Failed to search issues with JQL: " +:+ jql))
      else
        match resp with
        | Json batch total =>
            match batch with
            | [] => ret issues
            | _ =>
                let issues := issues ++ batch in
                if (total <=? Z.of_nat (start_at + length batch))%Z
                then ret issues
                else search_loop fuel' jql fields max_per_page
                       (start_at + length batch) issues
            end
        | _ => raise AttributeError
        end
  end.

(** [search_issues] (lines 81-100). *)
Definition search_issues (fuel : nat) (jql fields : string)
    (max_per_page : nat) : M (list (option string)) :=
  search_loop fuel jql fields max_per_page 0 [].

(** One turn of the loop of [wipe_project] (lines 110-116); [i] counts
    from 1. *)
Definition delete_issue (dry_run : bool) (total : nat)
    (issue : option string) (i : nat) : M nat :=
  key <- match issue with
         | Some k => ret k
         | None => raise (KeyError "key")
         end ;;
  code <- jira_delete (delete_path key) dry_run ;;
  (if (i =? 1)%nat || (i mod 10 =? 0)%nat || (i =? total)%nat
   then tell (Printed (Progress i total key (deleted_status code) code))
   else ret tt) ;;;
  ret (Datatypes.S i).

(** [wipe_project] (lines 102-117). *)
Definition wipe_project (fuel : nat) (project_key : string) (dry_run : bool)
  : M unit :=
  tell (Printed (Searching project_key)) ;;;
  issues <- search_issues fuel ("project = " +:+ project_key) "key" 100 ;;
  match issues with
  | [] => tell (Printed NoIssuesFound)
  | _ =>
      let total := length issues in
      tell (Printed (Deleting total project_key)) ;;;
      for_each (delete_issue dry_run total) issues 1%nat ;;;
      tell (Printed WipeComplete)
  end.

End Program.

End Wipe.

(** ** DependencyUpdater.py *)

Module DependencyUpdater.
Import Text Run Run.Notations.

(** The calls the program makes on the REST interface. *)
Inductive request :=
  | SearchIssues (jql : string) (maxResults : nat) (fields : list string)
      (* POST /rest/api/3/search *)
  | CreateLink (inward_key outward_key : string).
      (* POST /rest/api/3/issueLink, type Blocks *)

(** A JSON body, as far as the program reads it: of an object its
    ["issues"], each with its ["key"] if it has one. *)
Inductive value :=
  | Issues (l : list (option string))   (* an object with "issues" *)
  | Object                              (* an object without "issues" *)
  | Array.                              (* a list *)

(** The text of a response. *)
Inductive body :=
  | Empty                  (* no text *)
  | Blank                  (* white space only *)
  | NotJson                (* other text that [r.json()] rejects *)
  | Json (v : value).

Inductive reply :=
  | Unreachable                        (* the session raises *)
  | Status (status_code : Z) (b : body).

(** The tracker: any answer to any request, and it may change. *)
Class Tracker (T : Type) := answer : request -> T -> reply * T.

Inductive exn :=
  | RuntimeError (status_code : Z)   (* raised by [_check] *)
  | ConnectionError
  | JSONDecodeError
  | KeyError
  | IndexError
  | TypeError.

Inductive message :=
  | CouldNotFindKeys (src_sum dep_sum : string)
  | Progress (link_counter : Z) (src_key dep_key : string)
  | ErrorLinking (src_key dep_key : string) (e : exn)
  | FinalSummary (processed linked : Z).

Inductive event :=
  | Called (r : request) (a : reply)
  | Printed (m : message).

(** What [link_is_blocked_by] returns. *)
Inductive done :=
  | DryRunLink (inward_key outward_key : string)  (* {"dry_run": True, ..} *)
  | OkStatus (status_code : Z)                    (* {"ok": True, "status": ..} *)
  | Parsed (v : value)                            (* [r.json()] *)
  | Unparsed (status_code : Z) (b : body).        (* {"ok": .., "status": .., "text": ..} *)

Definition dq : string := String (ascii_of_nat 34) EmptyString.

(** The payload of [search_by_summary] (lines 36-37). *)
Definition search_request (project_key summary : string) : request :=
  SearchIssues ("project = " +:+ dq +:+ project_key +:+ dq +:+ " AND summary ~ "
                +:+ dq +:+ summary +:+ dq)
               10 ["summary"].

(** The requests of a log, in the order they were made. *)
Definition requests_of (log : list event) : list request :=
  List.flat_map (fun ev => match ev with
                           | Called r _ => [r]
                           | Printed _ => []
                           end) log.

Record args := {
  project_key : string;
  dry_run : bool
}.

(** The counters of [main]. *)
Record counters := { processed : Z; linked : Z; link_counter : Z }.

Definition counters0 : counters :=
  {| processed := 0; linked := 0; link_counter := 0 |}.

(** A row that names an issue and what it depends on
    ([if not dep_sum or not src_sum: continue]). *)
Definition has_dependency (r : gmap string string) : bool :=
  match nonempty (r !! "Depends on"), nonempty (r !! "Summary") with
  | Some _, Some _ => true
  | _, _ => false
  end.

(** The two searches made for a row that has a dependency. *)
Definition searches_of (project_key : string) (r : gmap string string)
  : list request :=
  match nonempty (r !! "Depends on"), nonempty (r !! "Summary") with
  | Some dep_sum, Some src_sum =>
      [search_request project_key src_sum; search_request project_key dep_sum]
  | _, _ => []
  end.

Section Program.
Context {T : Type} `{Tracker T}.

Local Abbreviation M := (Run.M T event exn).

(** [post] (lines 29-33): send, then [_check]; the status comes back
    with the text. *)
Definition post (r : request) : M (Z * body) := fun t =>
  let '(a, t') := answer r t in
  match a with
  | Unreachable => (Raise ConnectionError, t', [Called r a])
  | Status code b =>
      if (code <? 400)%Z then (Ok (code, b), t', [Called r a])
      else (Raise (RuntimeError code), t', [Called r a])
  end.

(** [r.json()] *)
Definition json (b : body) : M value :=
  match b with
  | Json v => ret v
  | _ => raise JSONDecodeError
  end.

(** [search_by_summary] (lines 35-39). *)
Definition search_by_summary (project_key summary : string) : M value :=
  r <- post (search_request project_key summary) ;;
  json r.2.

(** [link_is_blocked_by] (lines 41-56). *)
Definition link_is_blocked_by (issue_key depends_on_key : string) (dry : bool)
  : M done :=
  if dry then ret (DryRunLink issue_key depends_on_key)
  else
    r <- post (CreateLink issue_key depends_on_key) ;;
    let '(code, b) := r in
    let no_text := match b with Empty | Blank => true | _ => false end in
    if ((code =? 200)%Z || (code =? 201)%Z || (code =? 204)%Z) && no_text
    then ret (OkStatus code)
    else
      match b with
      | Json v => ret (Parsed v)
      | _ => ret (Unparsed code b)
      end.

(** [results['issues'][0]['key']] *)
Definition first_key (results : value) : M string :=
  match results with
  | Issues (Some key :: _) => ret key
  | Issues (None :: _) => raise KeyError
  | Issues [] => raise IndexError
  | Object => raise KeyError
  | Array => raise TypeError
  end.

(** One turn of the loop over the rows (lines 79-104). *)
Definition process_row (a : args) (r : gmap string string) (c : counters)
  : M counters :=
  let src_sum := r !! "Summary" in
  let dep_sum := r !! "Depends on" in
  match nonempty dep_sum, nonempty src_sum with
  | Some dep_sum, Some src_sum =>
      let c := {| processed := processed c + 1; linked := linked c;
                  link_counter := link_counter c |} in
      src_results <- search_by_summary (project_key a) src_sum ;;
      dep_results <- search_by_summary (project_key a) dep_sum ;;
      keys <- try_except
                (src_key <- first_key src_results ;;
                 dep_key <- first_key dep_results ;;
                 ret (Some (src_key, dep_key)))
                (fun e =>
                   match e with
                   | KeyError | IndexError =>
                       tell (Printed (CouldNotFindKeys src_sum dep_sum)) ;;;
                       ret None
                   | _ => raise e
                   end) ;;
      match keys with
      | None => ret c
      | Some (src_key, dep_key) =>
          try_except
            (link_is_blocked_by src_key dep_key (dry_run a) ;;;
             let c' := {| processed := processed c; linked := linked c + 1;
                          link_counter := link_counter c + 1 |} in
             (if (link_counter c' mod 10 =? 0)%Z
              then tell (Printed (Progress (link_counter c') src_key dep_key))
              else ret tt) ;;;
             ret c')
            (fun e => tell (Printed (ErrorLinking src_key dep_key e)) ;;; ret c)
      end
  | _, _ => ret c
  end.

(** [main] (lines 75-106), from the point where the rows have been
    read. *)
Definition main (a : args) (rows : list (gmap string string)) : M counters :=
  c <- for_each (process_row a) rows counters0 ;;
  tell (Printed (FinalSummary (processed c) (linked c))) ;;;
  ret c.

End Program.

End DependencyUpdater.

(** ** Runner.py *)

Module Runner.
Import Run Run.Notations.

(** [subprocess.run(command, check=True, text=True)]: the command runs
    to its end and gives its return code. *)
Class Shell (S : Type) := subprocess_run : list string -> S -> Z * S.

Inductive exn :=
  | SystemExit (code : Z).

Inductive message :=
  | Running (script_name : string)
  | Succeeded (script_name : string)
  | ErrorRunning (script_name : string) (returncode : Z)
  | AllDone.

Inductive event :=
  | Ran (script_name : string) (args : list string) (returncode : Z)
  | Printed (m : message).

(** The scripts a log shows started, each with its arguments and its
    return code, in order. *)
Definition ran (log : list event) : list (string * list string * Z) :=
  List.flat_map (fun ev => match ev with
                           | Ran script_name args code => [(script_name, args, code)]
                           | Printed _ => []
                           end) log.

Definition csv_file : string := "FS_EV_Gantt_Chart.csv".
Definition project_key : string := "FS_EV".

Section Program.
Context {S : Type} `{Shell S}.
(** [sys.executable] *)
Context (executable : string).

Local Abbreviation M := (Run.M S event exn).

(** [run_script] (lines 5-13). *)
Definition run_script (script_name : string) (args : list string) : M unit :=
  fun s =>
    let command := executable :: script_name :: args in
    let '(code, s') := subprocess_run command s in
    if (code =? 0)%Z
    then (Ok tt, s', [Ran script_name args code; Printed (Succeeded script_name)])
    else (Raise (SystemExit 1), s',
          [Ran script_name args code; Printed (ErrorRunning script_name code)]).

(** [main] (lines 15-50). *)
Definition main (dry_run : bool) : M unit :=
  let dry_run_flag := if dry_run then ["--dry-run"] else [] in
  tell (Printed (Running "Importer.py")) ;;;
  run_script "Importer.py"
    (["--csv"; csv_file; "--project-key"; project_key] ++ dry_run_flag) ;;;
  tell (Printed (Running "ColumnUpdater.py")) ;;;
  run_script "ColumnUpdater.py"
    (["--csv"; csv_file; "--project-key"; project_key;
      "--startdate-field"; "customfield_12345"] ++ dry_run_flag) ;;;
  tell (Printed (Running "DependencyUpdater.py")) ;;;
  run_script "DependencyUpdater.py"
    (["--csv"; csv_file; "--project-key"; project_key] ++ dry_run_flag) ;;;
  tell (Printed AllDone).

End Program.

End Runner.

(** ** More ways to read a run *)

Module Views.
Import Run.

Section Monad.
Context {S Ev E : Type}.

(** [m] leaves the state as it is and logs only events that satisfy
    [P]. *)
Definition still {A} (P : Ev -> Prop) (m : M S Ev E A) : Prop :=
  forall s, state_of (m s) = s /\ Forall P (log_of (m s)).

(** What [m] returns satisfies [Q], whenever it returns. *)
Definition returns {A} (Q : A -> Prop) (m : M S Ev E A) : Prop :=
  forall s, match result_of (m s) with
            | Ok a => Q a
            | Raise _ => True
            end.

End Monad.

(** An event of the Importer that is no request. *)
Definition not_sent (ev : Importer.event) : Prop :=
  match ev with
  | Importer.Sent _ _ _ _ => False
  | _ => True
  end.


(** The links of a log whose post got an answer that was read (a
    response whose body [jira_post] reads), or a line in a dry run:
    each as (inward key, outward key). *)
Definition answered_links (log : list Importer.event) : list (string * string) :=
  List.flat_map
    (fun ev => match ev with
               | Importer.Sent Importer.POST _ (Some (Importer.Link a b)) r =>
                   if Importer.readable r then [(a, b)] else []
               | Importer.DryRunPost _ (Importer.Link a b) => [(a, b)]
               | _ => []
               end) log.

(** The links of a log whose post got no answer that could be read:
    the request failed in transport, or the body was no JSON. *)
Definition unread_links (log : list Importer.event) : list (string * string) :=
  List.flat_map
    (fun ev => match ev with
               | Importer.Sent Importer.POST _ (Some (Importer.Link a b)) r =>
                   if Importer.readable r then [] else [(a, b)]
               | _ => []
               end) log.

(** The fields of an update for which the row of the ColumnUpdater has
    a value: a date that can be normalised, or a cell with more than
    blanks in it. *)
Definition filled `{Dates.Platform} `{Dates.IsoParser} (row : gmap string string)
    (startdate_field epic_link_field : option string) (k : string) : Prop :=
  (Text.nonempty startdate_field = Some k
   /\ is_Some (Dates.normalize_date (default "" (row !! "StartDate"))))
  \/ (k = "duedate"
      /\ is_Some (Dates.normalize_date (default "" (row !! "DueDate"))))
  \/ (k = "description" /\ is_Some (ColumnUpdater.present (row !! "Description")))
  \/ (k = "priority" /\ is_Some (ColumnUpdater.present (row !! "Priority")))
  \/ (k = "labels" /\ is_Some (ColumnUpdater.present (row !! "Labels")))
  \/ (k = "components" /\ is_Some (ColumnUpdater.present (row !! "Components")))
  \/ (k = "fixVersions" /\ is_Some (ColumnUpdater.present (row !! "FixVersions")))
  \/ (k = "assignee" /\ is_Some (ColumnUpdater.present (row !! "AssigneeEmail")))
  \/ (k = default "customfield_10014" epic_link_field
      /\ is_Some (ColumnUpdater.present (row !! "EpicKey")))
  \/ (k = "parent" /\ is_Some (ColumnUpdater.present (row !! "ParentKey"))).

(** Every member of [fields] is a field for which the row has a value. *)
Definition only_filled `{Dates.Platform} `{Dates.IsoParser} (row : gmap string string)
    (startdate_field epic_link_field : option string)
    (fields : gmap string jvalue) : Prop :=
  forall k, is_Some (fields !! k) -> filled row startdate_field epic_link_field k.

(** *** What a cache of the ColumnUpdater holds, against the log *)

Section Marks.
Context {T K : Type}.
(** [marks ev]: what the event [ev] asks the tracker for, among the
    things that a cache is there to ask for once; [held j k]: the cache
    of [j] has an entry for [k]. *)
Context (marks : ColumnUpdater.event -> list K).
Context (held : ColumnUpdater.jira T -> K -> Prop).

Local Abbreviation M := (Run.M (ColumnUpdater.jira T) ColumnUpdater.event
                           ColumnUpdater.exn).

Definition marks_of (log : list ColumnUpdater.event) : list K :=
  List.flat_map marks log.

(** Nothing was asked for twice in the history [h], and the cache has
    an entry for everything that was asked for. *)
Definition in_step (h : list ColumnUpdater.event) (j : ColumnUpdater.jira T)
  : Prop :=
  NoDup (marks_of h) /\ forall k, k ∈ marks_of h -> held j k.

(** [m] keeps the cache in step with the history; where it raises, the
    history still shows nothing asked for twice. *)
Definition keeps_step {A} (m : M A) : Prop :=
  forall h j, in_step h j ->
    match result_of (m j) with
    | Ok _ => in_step (h ++ log_of (m j)) (state_of (m j))
    | Raise _ => NoDup (marks_of (h ++ log_of (m j)))
    end.

(** [m] asks for nothing of the kind and drops no entry of the cache. *)
Definition beside {A} (m : M A) : Prop :=
  forall j, (forall k, held j k -> held (state_of (m j)) k)
            /\ marks_of (log_of (m j)) = [].

End Marks.

(** The addresses looked up, and the cache of users. *)
Definition user_lookups (ev : ColumnUpdater.event) : list string :=
  match ev with
  | ColumnUpdater.Called (ColumnUpdater.UserSearch query) _ => [query]
  | _ => []
  end.

Definition user_held {T : Type} (j : ColumnUpdater.jira T) (email : string)
  : Prop :=
  is_Some (ColumnUpdater.user_cache j !! email).

(** The versions created, each as (project, name), and the cache of
    versions. *)
Definition version_creations (ev : ColumnUpdater.event)
  : list (string * string) :=
  match ev with
  | ColumnUpdater.Called (ColumnUpdater.CreateVersion name project_id) _ =>
      [(project_id, name)]
  | _ => []
  end.

Definition version_held {T : Type} (j : ColumnUpdater.jira T)
    (pn : string * string) : Prop :=
  exists m v, ColumnUpdater.version_cache j !! pn.1 = Some m /\ m !! pn.2 = Some v.

(** The searches by summary, each as its JQL text. *)
Definition summary_searches (ev : ColumnUpdater.event) : list string :=
  match ev with
  | ColumnUpdater.Called (ColumnUpdater.SearchIssues jql _ _) _ => [jql]
  | _ => []
  end.

(** Nothing is required of the caches: only the log is looked at. *)
Definition any_state {T : Type} (j : ColumnUpdater.jira T) (k : string) : Prop :=
  True.

(** The components of a project as a row finds them: what the cache
    holds for the project, after it has been filled from the listing of
    the tracker if it held nothing. *)
Definition known_components {T : Type} `{ColumnUpdater.Tracker T}
    (project_id : string) (j : ColumnUpdater.jira T)
  : gmap string ColumnUpdater.entity :=
  default ∅
    (ColumnUpdater.component_cache
       (state_of (ColumnUpdater.list_project_components project_id j))
     !! project_id).

(** A row of the ColumnUpdater that names no issue key. *)
Definition keyless (row : gmap string string) : bool :=
  negb (Text.truthy (Text.strip (default "" (row !! "IssueKey")))).

End Views.

(** ** More concrete sites, trackers and rows *)

Module Cases.

(** The 25th of March 2025. *)
Definition lady_day : Dates.date := Dates.mkdate 2025 3 25 eq_refl.

(** A project that holds the issues [all] and lists them by pages of
    at most [cap] issues; every DELETE is answered with [status]. *)
Definition listing (all : list (option string)) (cap : nat) (status : Z)
  : Wipe.Site unit :=
  fun r s =>
    match r with
    | Wipe.SearchPage _ start maxResults _ =>
        (Wipe.Response 200
           (Wipe.Json (take (Nat.min maxResults cap) (drop start all))
                      (Z.of_nat (length all))), s)
    | Wipe.Delete _ => (Wipe.Response status (Wipe.Json [] 0), s)
    end.

Definition three_issues : list (option string) :=
  [Some "FS-1"; Some "FS-2"; Some "FS-3"].

(** A project of three issues whose second page cannot be had. *)
Definition broken_listing : Wipe.Site unit :=
  fun r s =>
    match r with
    | Wipe.SearchPage _ O _ _ =>
        (Wipe.Response 200 (Wipe.Json [Some "FS-1"; Some "FS-2"] 3), s)
    | Wipe.SearchPage _ _ _ _ => (Wipe.Response 500 (Wipe.Json [] 0), s)
    | Wipe.Delete _ => (Wipe.Response 204 (Wipe.Json [] 0), s)
    end.

(** A tracker that counts the requests it has answered: a search finds
    the issue numbered after that count and then the issue FS-99, and
    every link is created: 201, without a body. *)
Definition two_found : DependencyUpdater.Tracker nat :=
  fun r n =>
    match r with
    | DependencyUpdater.SearchIssues _ _ _ =>
        (DependencyUpdater.Status 200
           (DependencyUpdater.Json
              (DependencyUpdater.Issues
                 [Some ("FS-" +:+ Dates.pad2 (N.of_nat n)); Some "FS-99"])), S n)
    | DependencyUpdater.CreateLink _ _ =>
        (DependencyUpdater.Status 201 DependencyUpdater.Empty, S n)
    end.

(** A tracker that refuses every search with status 503. *)
Definition no_searching : DependencyUpdater.Tracker unit :=
  fun r t =>
    match r with
    | DependencyUpdater.SearchIssues _ _ _ =>
        (DependencyUpdater.Status 503 DependencyUpdater.Empty, t)
    | DependencyUpdater.CreateLink _ _ =>
        (DependencyUpdater.Status 201 DependencyUpdater.Empty, t)
    end.

Definition depends (summary depends_on : string) : gmap string string :=
  <["Depends on" := depends_on]> (<["Summary" := summary]> ∅).

Definition run_of (dry : bool) : DependencyUpdater.args :=
  {| DependencyUpdater.project_key := "FS"; DependencyUpdater.dry_run := dry |}.

(** The agreeable project, except that a link is answered 201 without
    a body. *)
Definition silent_links (r : ColumnUpdater.request) : ColumnUpdater.reply :=
  match r with
  | ColumnUpdater.CreateLink _ _ =>
      ColumnUpdater.Status 201 ColumnUpdater.NoBody
  | _ => Examples.agreeable r
  end.

(** The first answer has a body that is no JSON; the later requests are
    refused with status 400 and an empty body. *)
Definition garbled_once : Importer.Session nat :=
  fun _ _ _ n =>
    (match n with
     | O => Importer.Response 201 Importer.NotJson
     | _ => Importer.Response 400 (Importer.Json None)
     end, S n).




(** One row, and the loop over rows, of a live run in the project
    10000 on the tracker that refuses every update. *)
Definition refused_row (row : gmap string string) (i : Z)
    (c : ColumnUpdater.counters)
  : Run.outcome ColumnUpdater.exn ColumnUpdater.counters
    * ColumnUpdater.jira unit * list ColumnUpdater.event :=
  @ColumnUpdater.process_row Dates.glibc Dates.no_iso unit
    (Examples.stateless Examples.no_update) (Examples.settings false None)
    (Some "10000") i row c (ColumnUpdater.new_jira tt).

Definition refused_loop (rows : list (gmap string string)) (i : Z)
    (c : ColumnUpdater.counters)
  : Run.M (ColumnUpdater.jira unit) ColumnUpdater.event ColumnUpdater.exn
      ColumnUpdater.counters :=
  @ColumnUpdater.rows_loop Dates.glibc Dates.no_iso unit
    (Examples.stateless Examples.no_update) (Examples.settings false None)
    (Some "10000") rows i c.

Definition dry_import : Importer.args :=
  {| Importer.project_key := "FS";
     Importer.dry_run := true;
     Importer.JIRA_START_DATE_FIELD := None |}.

(** The agreeable project with one component, Chassis. *)
Definition with_chassis (r : ColumnUpdater.request) : ColumnUpdater.reply :=
  match r with
  | ColumnUpdater.ListComponents _ =>
      ColumnUpdater.Status 200
        (ColumnUpdater.Entities
           [{| ColumnUpdater.ent_id := "10010";
               ColumnUpdater.ent_name := " Chassis" |}])
  | _ => Examples.agreeable r
  end.

End Cases.

(** * Proofs *)

(** ** The run monad *)

Section RunFacts.
Import Run Run.Notations.
Context {S Ev E : Type}.
Local Abbreviation M := (Run.M S Ev E).

Lemma bind_run {A B} (m : M A) (k : A -> M B) s :
  bind m k s
  = match m s with
    | (Ok a, s1, l1) => (result_of (k a s1), state_of (k a s1), l1 ++ log_of (k a s1))
    | (Raise e, s1, l1) => (Raise e, s1, l1)
    end.
Proof.
  unfold bind, result_of, state_of, log_of.
  destruct (m s) as [[[a|e] s1] l1]; [|done].
  by destruct (k a s1) as [[r s2] l2].
Qed.

Lemma emits_ret {A} P (a : A) : emits P (ret a : M A).
Proof. intros s. constructor. Qed.

Lemma emits_raise {A} P e : emits P (raise e : M A).
Proof. intros s. constructor. Qed.

Lemma emits_gets {A} P (f : S -> A) : emits P (gets f : M A).
Proof. intros s. constructor. Qed.

Lemma emits_modify P (f : S -> S) : emits P (modify f : M unit).
Proof. intros s. constructor. Qed.

Lemma emits_tell (P : Ev -> Prop) ev : P ev -> emits P (tell ev : M unit).
Proof. intros HP s. by repeat constructor. Qed.

Lemma emits_bind {A B} P (m : M A) (k : A -> M B) :
  emits P m -> (forall a, emits P (k a)) -> emits P (bind m k).
Proof.
  intros Hm Hk s. rewrite bind_run. specialize (Hm s).
  unfold log_of in *. destruct (m s) as [[[a|e] s1] l1]; cbn in *; [|done].
  apply Forall_app. split; [done | apply Hk].
Qed.


Lemma emits_for_each {A B} P (body : A -> B -> M B) xs acc :
  (forall x b, emits P (body x b)) -> emits P (for_each body xs acc).
Proof.
  intros Hb. revert acc. induction xs as [|x xs IH]; intros acc; cbn.
  - apply emits_ret.
  - apply emits_bind; [apply Hb | apply IH].
Qed.

Lemma emits_weaken {A} (P Q : Ev -> Prop) (m : M A) :
  (forall ev, P ev -> Q ev) -> emits P m -> emits Q m.
Proof. intros HPQ Hm s. eapply Forall_impl; [apply Hm | done]. Qed.

Lemma total_ret {A} (a : A) : total (ret a : M A).
Proof. intros s. by exists a. Qed.

Lemma total_tell ev : total (tell ev : M unit).
Proof. intros s. by exists tt. Qed.

Lemma total_bind {A B} (m : M A) (k : A -> M B) :
  total m -> (forall a, total (k a)) -> total (bind m k).
Proof.
  intros Hm Hk s. rewrite bind_run. destruct (Hm s) as [a Ha].
  unfold result_of in *. destruct (m s) as [[[a'|e] s1] l1]; cbn in *; [|done].
  apply Hk.
Qed.

Lemma total_try_except {A} (m : M A) (h : E -> M A) :
  (forall e, total (h e)) -> total (try_except m h).
Proof.
  intros Hh s. unfold try_except, result_of.
  destruct (m s) as [[[a|e] s1] l1]; cbn; [by exists a|].
  destruct (Hh e s1) as [a Ha]. unfold result_of in Ha.
  destruct (h e s1) as [[r s2] l2]; cbn in *. by exists a.
Qed.

Lemma total_for_each {A B} (body : A -> B -> M B) xs acc :
  (forall x b, total (body x b)) -> total (for_each body xs acc).
Proof.
  intros Hb. revert acc. induction xs as [|x xs IH]; intros acc; cbn.
  - apply total_ret.
  - apply total_bind; [apply Hb | apply IH].
Qed.

Lemma bind_ext {A B} (m : M A) (k k' : A -> M B) s :
  (forall a s1, k a s1 = k' a s1) -> bind m k s = bind m k' s.
Proof.
  intros Hk. unfold bind. destruct (m s) as [[[a|e] s1] l1]; [|done].
  by rewrite Hk.
Qed.

Lemma bind_assoc {A B C} (m : M A) (k : A -> M B) (k' : B -> M C) s :
  bind (bind m k) k' s = bind m (fun a => bind (k a) k') s.
Proof.
  unfold bind. destruct (m s) as [[[a|e] s1] l1]; [|done].
  destruct (k a s1) as [[[b|e] s2] l2]; [|done].
  destruct (k' b s2) as [[r s3] l3]. by rewrite app_assoc.
Qed.

Lemma ret_bind {A B} (a : A) (k : A -> M B) s : bind (ret a) k s = k a s.
Proof. unfold bind, ret. by destruct (k a s) as [[r s2] l2]. Qed.

Lemma bind_ok_inv {A B} (m : M A) (k : A -> M B) s b s2 l :
  bind m k s = (Ok b, s2, l) ->
  exists a s1 l1 l2,
    m s = (Ok a, s1, l1) /\ k a s1 = (Ok b, s2, l2) /\ l = l1 ++ l2.
Proof.
  unfold bind. destruct (m s) as [[[a|e] s1] l1]; [|done].
  destruct (k a s1) as [[r s2'] l2] eqn:Hk. intros [= -> -> <-].
  by exists a, s1, l1, l2.
Qed.

Lemma bind_raise_inv {A B} (m : M A) (k : A -> M B) s e :
  result_of (bind m k s) = Raise e ->
  result_of (m s) = Raise e
  \/ exists a s1 l1, m s = (Ok a, s1, l1) /\ result_of (k a s1) = Raise e.
Proof.
  rewrite bind_run. unfold result_of.
  destruct (m s) as [[[a|e'] s1] l1]; cbn [fst snd].
  - intros Hk. right. exists a, s1, l1. split; [reflexivity | exact Hk].
  - intros [= ->]. by left.
Qed.




Lemma for_each_app {A B} (body : A -> B -> M B) xs ys acc s :
  for_each body (xs ++ ys) acc s
  = bind (for_each body xs acc) (for_each body ys) s.
Proof.
  revert acc s. induction xs as [|x xs IH]; intros acc s.
  - change (for_each body [] acc) with (@ret S Ev E B acc).
    by rewrite ret_bind.
  - change (for_each body ((x :: xs) ++ ys) acc s)
      with (bind (body x acc) (for_each body (xs ++ ys)) s).
    change (for_each body (x :: xs) acc)
      with (bind (body x acc) (for_each body xs)).
    rewrite bind_assoc. apply bind_ext. intros b s1. apply IH.
Qed.

End RunFacts.

(** ** Dates *)

Section DateFacts.
Import Text Dates.
Local Open Scope N_scope.

Lemma append_cons c s r : String c s +:+ r = String c (s +:+ r).
Proof. reflexivity. Qed.

Lemma append_empty r : EmptyString +:+ r = r.
Proof. reflexivity. Qed.

Lemma code_digit_char n : n < 10 -> code (digit_char n) = 48 + n.
Proof.
  intros Hn. unfold code, digit_char. apply N_ascii_embedding. lia.
Qed.

Lemma is_digit_digit_char n : n < 10 -> is_digit (digit_char n) = true.
Proof.
  intros Hn. unfold is_digit. rewrite code_digit_char by done.
  apply andb_true_intro; split; apply N.leb_le; lia.
Qed.

Lemma digit_val_digit_char n : n < 10 -> digit_val (digit_char n) = n.
Proof.
  intros Hn. unfold digit_val. rewrite code_digit_char by done. lia.
Qed.

Lemma isspace_digit_char n : n < 10 -> isspace (digit_char n) = false.
Proof.
  intros Hn. unfold isspace. rewrite code_digit_char by done.
  repeat match goal with
         | |- context [?a <=? ?b] => destruct (N.leb_spec a b)
         | |- context [?a =? ?b] => destruct (N.eqb_spec a b)
         end; try reflexivity; lia.
Qed.

Lemma rstrip_fixed s : ends_nonspace s = true -> rstrip s = s.
Proof.
  induction s as [|c r IH]; [done|].
  destruct r as [|c' r'].
  - cbn. intros H. destruct (isspace c); [done | reflexivity].
  - intros H. change (ends_nonspace (String c' r') = true) in H.
    specialize (IH H).
    change (rstrip (String c (String c' r')))
      with (match rstrip (String c' r') with
            | EmptyString => if isspace c then EmptyString else String c EmptyString
            | r0 => String c r0
            end).
    rewrite IH. reflexivity.
Qed.

Lemma lower_length s : String.length (lower s) = String.length s.
Proof. induction s as [|c r IH]; cbn; congruence. Qed.

Lemma make_date_valid (dt : date) :
  exists dt', make_date (year dt) (month dt) (day dt) = Some dt'
    /\ year dt' = year dt /\ month dt' = month dt /\ day dt' = day dt.
Proof.
  unfold make_date.
  destruct (bool_dec (valid_date (year dt) (month dt) (day dt)) true) as [H|H].
  - eexists. split; [reflexivity | done].
  - destruct H. apply date_ok.
Qed.

Lemma date_bounds (dt : date) :
  1 <= year dt <= 9999 /\ 1 <= month dt <= 12 /\ 1 <= day dt <= 31.
Proof.
  pose proof (date_ok dt) as H. unfold valid_date in H.
  repeat (apply andb_prop in H; destruct H as [H ?]).
  repeat match goal with
         | X : (_ <=? _) = true |- _ => apply N.leb_le in X
         end.
  assert (days_in_month (year dt) (month dt) <= 31).
  { unfold days_in_month.
    repeat match goal with
           | |- context [match ?x with _ => _ end] => destruct x
           end; lia. }
  lia.
Qed.

Lemma alts_Y_pad4 y r :
  y <= 9999 -> alts_Y (pad4 y +:+ r) = [(y, r)].
Proof.
  intros Hy. unfold pad4, pad2. rewrite !append_cons, append_empty.
  unfold alts_Y.
  assert (y / 1000 < 10) by (apply N.Div0.div_lt_upper_bound; lia).
  assert (y / 100 mod 10 < 10) by (apply N.mod_lt; lia).
  assert (y mod 100 / 10 < 10)
    by (apply N.Div0.div_lt_upper_bound; pose proof (N.mod_lt y 100 ltac:(lia)); lia).
  assert (y mod 100 mod 10 < 10) by (apply N.mod_lt; lia).
  rewrite !is_digit_digit_char, !digit_val_digit_char by done.
  cbn [andb]. do 2 f_equal.
  pose proof (N.Div0.div_mod y 1000). pose proof (N.Div0.div_mod y 100).
  pose proof (N.Div0.div_mod (y / 100) 10).
  pose proof (N.Div0.div_mod (y mod 100) 10).
  pose proof (N.Div0.div_div y 100 10).
  change (100 * 10) with 1000 in *.
  lia.
Qed.

Ltac enum_N m :=
  destruct m as [|m]; [lia|];
  repeat (destruct m as [m|m|]; try lia).

Lemma alts_m_pad2 m r :
  1 <= m <= 12 ->
  exists tl, alts_m (pad2 m +:+ r) = (m, r) :: tl.
Proof.
  intros Hm. enum_N m; vm_compute; eauto.
Qed.

Lemma alts_d_pad2 d r :
  1 <= d <= 31 ->
  exists tl, alts_d (pad2 d +:+ r) = (d, r) :: tl.
Proof.
  intros Hd. enum_N d; vm_compute; eauto.
Qed.

Lemma pad2_digits n :
  n <= 99 ->
  exists a b, a < 10 /\ b < 10
    /\ pad2 n = String (digit_char a) (String (digit_char b) EmptyString).
Proof.
  intros Hn. exists (n / 10), (n mod 10). repeat split.
  - apply N.Div0.div_lt_upper_bound; lia.
  - apply N.mod_lt; lia.
Qed.

Lemma pad4_digits n :
  n <= 9999 ->
  exists a b c d, a < 10 /\ b < 10 /\ c < 10 /\ d < 10
    /\ pad4 n = String (digit_char a) (String (digit_char b)
                  (String (digit_char c) (String (digit_char d) EmptyString))).
Proof.
  intros Hn. unfold pad4.
  destruct (pad2_digits (n mod 100)) as (c & d & Hc & Hd & ->).
  { pose proof (N.mod_lt n 100 ltac:(lia)). lia. }
  exists (n / 1000), (n / 100 mod 10), c, d. repeat split; try done.
  - apply N.Div0.div_lt_upper_bound; lia.
  - apply N.mod_lt; lia.
Qed.

Context `{Platform}.

Lemma year_text_full dt : full_year dt = true -> year_text (year dt) = pad4 (year dt).
Proof.
  unfold full_year, year_text. destruct zero_filled_year; [done|].
  cbn [orb]. intros Hy. apply N.leb_le in Hy. unfold unfilled.
  destruct (N.ltb_spec (year dt) 10); [lia|].
  destruct (N.ltb_spec (year dt) 100); [lia|].
  destruct (N.ltb_spec (year dt) 1000); [lia|]. reflexivity.
Qed.

(** The year of a date that is not written in full has one, two or
    three digits. *)
Lemma year_text_short dt :
  full_year dt = false ->
  exists c r, (String.length r <= 2)%nat /\ year_text (year dt) = String c r.
Proof.
  unfold full_year, year_text. destruct zero_filled_year; [done|].
  cbn [orb]. intros Hy. apply N.leb_gt in Hy. unfold unfilled.
  destruct (N.ltb_spec (year dt) 10).
  { do 2 eexists. split; [|reflexivity]. cbn; lia. }
  destruct (N.ltb_spec (year dt) 100).
  { do 2 eexists. split; [|reflexivity]. cbn; lia. }
  destruct (N.ltb_spec (year dt) 1000); [|lia].
  do 2 eexists. split; [|reflexivity]. cbn; lia.
Qed.

Lemma strftime_DATE_FMT dt :
  strftime dt DATE_FMT
  = year_text (year dt)
    +:+ String "-" (pad2 (month dt) +:+ String "-" (pad2 (day dt))).
Proof.
  unfold DATE_FMT. cbn.
  destruct (pad2_digits (day dt)) as (a & b & _ & _ & ->).
  { pose proof (date_bounds dt). lia. }
  reflexivity.
Qed.

Lemma strftime_full dt :
  full_year dt = true ->
  strftime dt DATE_FMT
  = pad4 (year dt) +:+ String "-" (pad2 (month dt) +:+ String "-" (pad2 (day dt))).
Proof. intros Hy. by rewrite strftime_DATE_FMT, year_text_full. Qed.

(** [strftime] reads the fields of the date only. *)
Lemma strftime_fields dt dt' :
  year dt' = year dt -> month dt' = month dt -> day dt' = day dt ->
  strftime dt' DATE_FMT = strftime dt DATE_FMT.
Proof. intros Hy Hm Hd. rewrite !strftime_DATE_FMT. congruence. Qed.

Lemma strptime_strftime dt :
  full_year dt = true ->
  exists dt', strptime (strftime dt DATE_FMT) "%Y-%m-%d" = Some dt'
    /\ strftime dt' DATE_FMT = strftime dt DATE_FMT.
Proof.
  intros Hfull.
  destruct (make_date_valid dt) as (dt' & Hmk & Hy & Hm & Hd).
  pose proof (date_bounds dt) as (By & Bm & Bd).
  exists dt'. split.
  - rewrite strftime_full by done. unfold strptime.
    change (compile_format "%Y-%m-%d") with (Some [PY; Lit "-"; Pm; Lit "-"; Pd]).
    cbn [re_match alts].
    rewrite alts_Y_pad4 by lia. cbn [List.map first_some].
    cbn [re_match alts]. rewrite Ascii.eqb_refl. cbn [first_some].
    destruct (alts_m_pad2 (month dt) (String "-" (pad2 (day dt))) Bm) as [tl ->].
    cbn [List.map first_some re_match alts]. rewrite Ascii.eqb_refl.
    cbn [first_some].
    destruct (alts_d_pad2 (day dt) EmptyString Bd) as [tl' Hd'].
    replace (pad2 (day dt)) with (pad2 (day dt) +:+ EmptyString).
    2:{ destruct (pad2_digits (day dt)) as (a & b & _ & _ & ->); [lia | done]. }
    rewrite Hd'. cbn [List.map first_some re_match fY fm fd]. exact Hmk.
  - by apply strftime_fields.
Qed.

Lemma strftime_shape dt :
  full_year dt = true ->
  exists a b c d e f g h,
    a < 10 /\ b < 10 /\ c < 10 /\ d < 10 /\ e < 10 /\ f < 10 /\ g < 10 /\ h < 10
    /\ strftime dt DATE_FMT
       = String (digit_char a) (String (digit_char b) (String (digit_char c)
          (String (digit_char d) (String "-" (String (digit_char e)
          (String (digit_char f) (String "-" (String (digit_char g)
          (String (digit_char h) EmptyString))))))))).
Proof.
  intros Hfull.
  pose proof (date_bounds dt) as (By & Bm & Bd).
  rewrite strftime_full by done.
  destruct (pad4_digits (year dt)) as (a & b & c & d & ? & ? & ? & ? & ->); [lia|].
  destruct (pad2_digits (month dt)) as (e & f & ? & ? & ->); [lia|].
  destruct (pad2_digits (day dt)) as (g & h & ? & ? & ->); [lia|].
  exists a, b, c, d, e, f, g, h. repeat split; done.
Qed.

Lemma is_yyyy_mm_dd_strftime dt :
  full_year dt = true -> is_yyyy_mm_dd (strftime dt DATE_FMT) = true.
Proof.
  intros Hfull.
  destruct (strftime_shape dt Hfull)
    as (a & b & c & d & e & f & g & h & ? & ? & ? & ? & ? & ? & ? & ? & ->).
  unfold is_yyyy_mm_dd. rewrite !is_digit_digit_char by done. reflexivity.
Qed.

(** A year written on fewer than four digits gives a text that is too
    short for the shape. *)
Lemma is_yyyy_mm_dd_short dt :
  full_year dt = false -> is_yyyy_mm_dd (strftime dt DATE_FMT) = false.
Proof.
  intros Hshort.
  pose proof (date_bounds dt) as (By & Bm & Bd).
  rewrite strftime_DATE_FMT.
  destruct (year_text_short dt Hshort) as (c & r & Hr & ->).
  destruct (pad2_digits (month dt)) as (e & f & ? & ? & ->); [lia|].
  destruct (pad2_digits (day dt)) as (g & h & ? & ? & ->); [lia|].
  destruct r as [|c1 [|c2 [|c3 r]]]; cbn in Hr; try lia; reflexivity.
Qed.

Lemma normalize_date_strftime `{IsoParser} dt :
  full_year dt = true ->
  normalize_date (strftime dt DATE_FMT) = Some (strftime dt DATE_FMT).
Proof.
  intros Hfull.
  destruct (strptime_strftime dt Hfull) as (dt' & Hp & Hf).
  destruct (strftime_shape dt Hfull)
    as (a & b & c & d & e & f & g & h & ? & ? & ? & ? & ? & ? & ? & ? & Hs).
  assert (Hstrip : strip (strftime dt DATE_FMT) = strftime dt DATE_FMT).
  { rewrite Hs. unfold strip. cbn [lstrip].
    rewrite isspace_digit_char by done.
    apply rstrip_fixed. cbn. rewrite isspace_digit_char by done. reflexivity. }
  unfold normalize_date. rewrite Hstrip.
  assert (Hne : (strftime dt DATE_FMT =? "")%string = false)
    by (rewrite Hs; reflexivity).
  unfold truthy. rewrite Hne. cbn [negb orb].
  rewrite bool_decide_eq_false_2.
  2:{ intros Hin. unfold absent_words in Hin.
      assert (Hlen : String.length (lower (strftime dt DATE_FMT)) = 10%nat)
        by (rewrite lower_length, Hs; reflexivity).
      set_unfold in Hin.
      destruct Hin as [Hin|[Hin|[Hin|Hin]]]; try done;
        rewrite Hin in Hlen; discriminate Hlen. }
  unfold fmts. cbn [first_some]. rewrite Hp. by rewrite Hf.
Qed.

(** What [normalize_date] returns is the text of a date. *)
Lemma normalize_date_writes `{IsoParser} s o :
  normalize_date s = Some o -> exists dt, o = strftime dt DATE_FMT.
Proof.
  unfold normalize_date. destruct (_ || _); [discriminate|].
  destruct (first_some _ _) as [dt|].
  - intros [= <-]. by exists dt.
  - destruct (fromisoformat _) as [dt|]; [|discriminate].
    intros [= <-]. by exists dt.
Qed.

Lemma normalize_date_absent `{IsoParser} s :
  strip s = "" \/ lower (strip s) ∈ absent_words -> normalize_date s = None.
Proof.
  intros Hs. unfold normalize_date. destruct Hs as [-> | Hin].
  - by rewrite orb_true_r.
  - rewrite bool_decide_eq_true_2 by done. by rewrite !orb_true_r.
Qed.

End DateFacts.

(** C6.  The claim fails on a platform whose [strftime] leaves the year
    unfilled: there the date 01/01/0999 is normalised to 999-01-01,
    which has not the shape yyyy-mm-dd and which [normalize_date] itself
    does not read, so that normalising twice gives nothing where
    normalising once gave a text (where [strftime] zero-fills the year,
    the same date gives 0999-01-01).  Everywhere else the claim holds: on
    every platform, with any [fromisoformat], what [normalize_date]
    returns is the text of a date of the calendar; when the year of that
    date is written in full (always on a platform that zero-fills, from
    the year 1000 on elsewhere) the text has the shape yyyy-mm-dd and is
    normalised to itself, and otherwise it has not the shape; an input
    that is empty, or is "nan", "none" or "null" in any case once
    trimmed, gives nothing (no exception: the function is total). *)
Theorem normalize_date_unfilled_year :
  (@Dates.normalize_date Dates.glibc Dates.no_iso "01/01/0999"
   = Some "999-01-01"
   /\ Dates.is_yyyy_mm_dd "999-01-01" = false
   /\ @Dates.normalize_date Dates.glibc Dates.no_iso "999-01-01" = None
   /\ @Dates.normalize_date Dates.zero_filling Dates.no_iso "01/01/0999"
      = Some "0999-01-01")
  /\ forall (P : Dates.Platform) (I : Dates.IsoParser) (s : string),
       (forall o, Dates.normalize_date s = Some o ->
          exists dt, o = Dates.strftime dt Dates.DATE_FMT
            /\ if Dates.full_year dt
               then Dates.is_yyyy_mm_dd o = true /\ Dates.normalize_date o = Some o
               else Dates.is_yyyy_mm_dd o = false)
       /\ (Text.strip s = "" \/ Text.lower (Text.strip s) ∈ Dates.absent_words ->
           Dates.normalize_date s = None).
Proof.
  split; [by vm_compute|].
  intros P I s. split; [|apply normalize_date_absent].
  intros o Ho. destruct (normalize_date_writes s o Ho) as [dt ->].
  exists dt. split; [done|].
  destruct (Dates.full_year dt) eqn:Hfull.
  - split; [by apply is_yyyy_mm_dd_strftime | by apply normalize_date_strftime].
  - by apply is_yyyy_mm_dd_short.
Qed.

(** ** Importer *)

Section ImporterFacts.
Import Text Run Run.Notations Importer.
Context {S : Type} `{Session S}.
Local Abbreviation M := (Run.M S event exn).

Lemma send_run m path json (s : S) :
  send m path json s
  = (Ok (session_request m path json s).1, (session_request m path json s).2,
     [Sent m path json (session_request m path json s).1]).
Proof. unfold send. by destruct (session_request m path json s). Qed.

(** The two shapes of the log of a live [jira_post], with what it returns. *)
Lemma jira_post_live path json (s : S) :
  (exists code b s1,
      readable (Response code b) = true
      /\ jira_post path json false s
         = (Ok (code, b), s1, [Sent POST path (Some json) (Response code b)]))
  \/ (exists r1 r2 s1,
      readable r1 = false
      /\ log_of (jira_post path json false s)
         = [Sent POST path (Some json) r1; Sent POST path (Some json) r2]
      /\ state_of (jira_post path json false s) = s1
      /\ result_of (jira_post path json false s) = last_attempt r2).
Proof.
  unfold jira_post. change (seq 0 (MAX_RETRIES + 1)) with [0; 1]%nat.
  cbn [jira_post_attempts].
  change (0 <? MAX_RETRIES)%nat with true.
  change (1 <? MAX_RETRIES)%nat with false. cbv iota.
  rewrite bind_run, send_run.
  destruct (session_request POST path (Some json) s) as [r1 s1].
  cbn [fst snd].
  destruct r1 as [code [| |key]|].
  - right. rewrite bind_run, send_run.
    destruct (session_request POST path (Some json) s1) as [r2 s2].
    exists (Response code NotJson), r2, s2. cbn [fst snd].
    by destruct r2 as [code2 [| |key2]|].
  - left. by exists code, NotObject, s1.
  - left. by exists code, (Json key), s1.
  - right. rewrite bind_run, send_run.
    destruct (session_request POST path (Some json) s1) as [r2 s2].
    exists RequestException, r2, s2. cbn [fst snd].
    by destruct r2 as [code2 [| |key2]|].
Qed.

Lemma jira_post_dry path json (s : S) :
  jira_post path json true s
  = (Ok (200%Z, Json (Some "DRY-KEY")), s, [DryRunPost path json]).
Proof. reflexivity. Qed.

Lemma emits_jira_post path json dry :
  emits (fun ev => post_path ev = Some path) (jira_post path json dry : M _).
Proof.
  intros s. destruct dry.
  - rewrite jira_post_dry. by repeat constructor.
  - destruct (jira_post_live path json s)
      as [(c & k & s1 & _ & ->)|(r1 & r2 & s1 & _ & -> & _)];
      by repeat constructor.
Qed.

Lemma emits_create_issue fields dry :
  emits (fun ev => post_path ev = Some "/rest/api/3/issue")
        (create_issue fields dry : M _).
Proof.
  apply emits_bind; [apply emits_jira_post|].
  intros [code b]. destruct (created_status code); [|apply emits_ret].
  destruct b; first [apply emits_ret | apply emits_raise].
Qed.

Lemma emits_link_issue a b dry :
  emits (fun ev => post_path ev = Some "/rest/api/3/issueLink")
        (link_issue a b dry : M _).
Proof.
  apply emits_bind; [apply emits_jira_post|].
  intros [code key]. apply emits_ret.
Qed.

Lemma emits_getitem P row k : emits P (getitem row k : M _).
Proof. unfold getitem. destruct (row !! k); [apply emits_ret | apply emits_raise]. Qed.

Ltac emits_step :=
  first [ apply emits_ret | apply emits_raise | apply emits_getitem
        | apply emits_tell
        | apply emits_bind; [|intros ?] ].

Lemma emits_import_row a row v :
  emits (fun ev => post_path ev <> Some "/rest/api/3/issueLink")
        (import_row a row v : M _).
Proof.
  assert (Hc : forall f d,
    emits (fun ev => post_path ev <> Some "/rest/api/3/issueLink")
          (create_issue f d : M _)).
  { intros f d. eapply emits_weaken; [|apply emits_create_issue].
    intros ev ->. discriminate. }
  unfold import_row.
  repeat first
    [ apply Hc
    | emits_step
    | done
    | match goal with
      | |- emits _ (if ?b then _ else _) => destruct b
      | |- emits _ (match ?x with _ => _ end) => destruct x
      end ].
Qed.

Lemma emits_create_all a rows :
  emits (fun ev => post_path ev <> Some "/rest/api/3/issueLink")
        (create_all a rows : M _).
Proof. apply emits_for_each. intros. apply emits_import_row. Qed.

Lemma emits_link_all a links :
  emits (fun ev => post_path ev = Some "/rest/api/3/issueLink")
        (link_all a links : M _).
Proof.
  apply emits_for_each. intros [d t] []. apply emits_bind.
  - apply emits_link_issue.
  - intros _. apply emits_ret.
Qed.

End ImporterFacts.

(** C1 (as amended).  In the Importer every link is posted after the
    loop that creates the issues has gone through all the rows: the log
    of [main] is the log of the creation loop, in which nothing is posted
    to the link endpoint, followed by the log of the loop over the
    pending links that the creation loop has accumulated, in which
    every post goes to the link endpoint.  When the creation loop ends
    with an exception, no link is posted at all. *)
Theorem importer_links_after_creations {St : Type} `{Importer.Session St}
    (a : Importer.args) (rows : list Importer.row) (s : St) :
  exists l2,
    Run.log_of (Importer.main a rows s)
    = Run.log_of (Importer.create_all a rows s) ++ l2
    /\ Forall (fun ev => Importer.post_path ev <> Some "/rest/api/3/issueLink")
              (Run.log_of (Importer.create_all a rows s))
    /\ Forall (fun ev => Importer.post_path ev = Some "/rest/api/3/issueLink") l2
    /\ l2 = match Run.result_of (Importer.create_all a rows s) with
            | Run.Ok v =>
                Run.log_of
                  (Importer.link_all a (Importer.pending_links v)
                     (Run.state_of (Importer.create_all a rows s)))
            | Run.Raise _ => []
            end.
Proof.
  unfold Importer.main. rewrite bind_run.
  pose proof (emits_create_all a rows s) as H1.
  unfold Run.log_of, Run.result_of, Run.state_of in *.
  destruct (Importer.create_all a rows s) as [[[v|e] s1] l1]; cbn [fst snd] in *.
  - eexists. split; [reflexivity|]. split; [done|]. split; [|reflexivity].
    apply (emits_link_all a (Importer.pending_links v) s1).
  - exists []. rewrite app_nil_r. by repeat split.
Qed.


(** ** Importer: the parent of a sub-task *)

Section ParentFacts.
Import Text Run Run.Notations Importer.
Context {S : Type} `{Session S}.
Local Abbreviation M := (Run.M S event exn).


Lemma returned_key_last l ev : returned_key (l ++ [ev]) = key_of ev.
Proof.
  induction l as [|x l IH]; [done|].
  cbn [app]. destruct (l ++ [ev]) eqn:Hl.
  - by destruct l.
  - exact IH.
Qed.











End ParentFacts.


(** ** ColumnUpdater: resolution, update and links *)

Section UpdaterFacts.
Import Text Run Run.Notations ColumnUpdater.
Context `{Dates.Platform} `{Dates.IsoParser} {T : Type} `{Tracker T}.
Local Abbreviation M := (Run.M (jira T) event exn).


Lemma call_run r (j : jira T) :
  call r j
  = (match (answer r (remote j)).1 with
     | Unreachable => Raise ConnectionError
     | Status code b => if (code <? 400)%Z then Ok b else Raise (RuntimeError code)
     end,
     {| remote := (answer r (remote j)).2; user_cache := user_cache j;
        version_cache := version_cache j;
        component_cache := component_cache j |},
     [Called r (answer r (remote j)).1]).
Proof.
  unfold call. destruct (answer r (remote j)) as [[|code b] t]; cbn; [done|].
  by destruct (code <? 400)%Z.
Qed.

Lemma select_issue_empty summary : select_issue [] summary = None.
Proof. reflexivity. Qed.

Lemma select_issue_exact l1 it l2 summary :
  Forall (fun x => same_summary summary x = false) l1 ->
  same_summary summary it = true ->
  select_issue (l1 ++ it :: l2) summary = Some (hit_key it).
Proof.
  intros Hl1 Hit. unfold select_issue.
  assert (Hfind : List.find (same_summary summary) (l1 ++ it :: l2) = Some it).
  { induction Hl1 as [|x l1 Hx _ IH]; cbn.
    - by rewrite Hit.
    - by rewrite Hx. }
  by rewrite Hfind.
Qed.

Lemma select_issue_first it l summary :
  Forall (fun x => same_summary summary x = false) (it :: l) ->
  select_issue (it :: l) summary = Some (hit_key it).
Proof.
  intros Hno. unfold select_issue.
  assert (Hfind : List.find (same_summary summary) (it :: l) = None).
  { induction Hno as [|x l' Hx _ IH]; cbn; [done|]. by rewrite Hx. }
  by rewrite Hfind.
Qed.

Lemma requests_of_app l1 l2 :
  requests_of (l1 ++ l2) = requests_of l1 ++ requests_of l2.
Proof. unfold requests_of. apply flat_map_app. Qed.

(** *** The update and the links of one row *)

Lemma try_update_total a i key fields c : total (try_update a i key fields c : M _).
Proof.
  apply total_try_except. intros e.
  apply total_bind; [apply total_tell | intros; apply total_ret].
Qed.

Lemma try_link_total a i key dep c : total (try_link a i key dep c : M _).
Proof.
  apply total_try_except. intros e.
  apply total_bind; [apply total_tell | intros; apply total_ret].
Qed.

Lemma links_total a i key deps c :
  total (for_each (try_link a i key) deps c : M _).
Proof. apply total_for_each. intros. apply try_link_total. Qed.

Lemma try_update_live_requests a i key fields c (j : jira T) :
  dry_run a = false ->
  requests_of (log_of (try_update a i key fields c j)) = [UpdateIssue key fields].
Proof.
  intros Hd. unfold try_update, try_except, update_issue_fields. rewrite Hd.
  rewrite bind_run, bind_run, call_run.
  destruct (answer (UpdateIssue key fields) (remote j)) as [[|code b] t]; cbn;
    [done|].
  destruct (code <? 400)%Z; cbn; [|done].
  destruct b; cbn; try done;
    by destruct (_ =? 0)%Z.
Qed.

Lemma try_link_live_requests a i key dep c (j : jira T) :
  dry_run a = false ->
  requests_of (log_of (try_link a i key dep c j)) = [link_request a key dep].
Proof.
  intros Hd. unfold try_link, try_except, link_request,
    add_issue_link_is_blocked_by. rewrite Hd.
  destruct (dependencies_direction a).
  - rewrite bind_run, bind_run, call_run.
    destruct (answer (CreateLink key dep) (remote j)) as [[|code b] t]; cbn;
      [done|].
    destruct (code <? 400)%Z; cbn; [|done]. by destruct b.
  - rewrite bind_run, bind_run, call_run.
    destruct (answer (CreateLink dep key) (remote j)) as [[|code b] t]; cbn;
      [done|].
    destruct (code <? 400)%Z; cbn; [|done]. by destruct b.
Qed.

Lemma links_live_requests a i key deps c (j : jira T) :
  dry_run a = false ->
  requests_of (log_of (for_each (try_link a i key) deps c j))
  = List.map (link_request a key) deps.
Proof.
  intros Hd. revert c j. induction deps as [|dep deps IH]; intros c j; [done|].
  cbn [for_each List.map]. rewrite bind_run.
  pose proof (try_link_live_requests a i key dep c j Hd) as Hone.
  destruct (try_link_total a i key dep c j) as [c' Hc'].
  unfold log_of, result_of in *.
  destruct (try_link a i key dep c j) as [[r j1] l1]; cbn [fst snd] in Hone, Hc'.
  subst r. cbn [fst snd]. rewrite requests_of_app, Hone. cbn [app]. f_equal.
  apply IH.
Qed.

End UpdaterFacts.

Section RowFacts.
Import Text Run Run.Notations ColumnUpdater.
Context `{Dates.Platform} `{Dates.IsoParser} {T : Type} `{Tracker T}.
Local Abbreviation M := (Run.M (jira T) event exn).

Lemma try_update_counts a i key fields c (j j1 : jira T) c1 l1 :
  try_update a i key fields c j = (Ok c1, j1, l1) ->
  (updated c <= updated c1 <= updated c + 1)%Z.
Proof.
  unfold try_update, try_except. rewrite bind_run.
  destruct (update_issue_fields key fields (dry_run a) j) as [[[d|e] j'] l'];
    cbn.
  - destruct (_ =? 0)%Z; cbn; intros [= <- _ _]; cbn; lia.
  - intros [= <- _ _]. lia.
Qed.

Lemma try_link_counts a i key dep c (j j1 : jira T) c1 l1 :
  try_link a i key dep c j = (Ok c1, j1, l1) -> updated c1 = updated c.
Proof.
  unfold try_link, try_except. rewrite bind_run.
  destruct (match dependencies_direction a with
            | blocked_by => add_issue_link_is_blocked_by key dep (dry_run a)
            | blocks => add_issue_link_is_blocked_by dep key (dry_run a)
            end j) as [[[d|e] j'] l']; cbn; by intros [= <- _ _].
Qed.

Lemma links_counts a i key deps c (j j1 : jira T) c1 l1 :
  for_each (try_link a i key) deps c j = (Ok c1, j1, l1) ->
  updated c1 = updated c.
Proof.
  revert c j l1. induction deps as [|dep deps IH]; intros c j l1.
  - by intros [= <- _ _].
  - cbn [for_each]. intros Hrun.
    apply bind_ok_inv in Hrun as (c' & j' & la & lb & Hone & Hrest & _).
    apply try_link_counts in Hone. apply IH in Hrest. congruence.
Qed.

Lemma update_row_counts a project i row key c (j j1 : jira T) c1 l1 :
  update_row a project i row key c j = (Ok c1, j1, l1) ->
  (updated c <= updated c1 <= updated c + 1)%Z.
Proof.
  unfold update_row. intros Hrun.
  apply bind_ok_inv in Hrun as (fields & j' & la & lb & _ & Hrun & _).
  apply bind_ok_inv in Hrun as (c' & j'' & lc & ld & Hup & Hlinks & _).
  apply try_update_counts in Hup. apply links_counts in Hlinks. lia.
Qed.

Lemma process_row_counts a project i row c (j j1 : jira T) c1 l1 :
  process_row a project i row c j = (Ok c1, j1, l1) ->
  (updated c <= updated c1 <= updated c + 1)%Z.
Proof.
  unfold process_row.
  destruct (truthy (strip (default "" (row !! "IssueKey")))).
  { apply update_row_counts. }
  destruct (truthy (strip (default "" (row !! "Summary")))); cbn [negb].
  - intros Hrun.
    apply bind_ok_inv in Hrun as (found & j' & la & lb & _ & Hrun & _).
    destruct (nonempty found) as [k|].
    + by apply update_row_counts in Hrun.
    + apply bind_ok_inv in Hrun as (? & ? & ? & ? & _ & Hrun & _).
      injection Hrun as <- _ _. cbn. lia.
  - intros Hrun. apply bind_ok_inv in Hrun as (? & ? & ? & ? & _ & Hrun & _).
    injection Hrun as <- _ _. cbn. lia.
Qed.

Lemma rows_loop_capped a project rows i c (j : jira T) :
  cap_reached a c = true -> rows_loop a project rows i c j = (Ok c, j, []).
Proof. intros Hcap. destruct rows; [done|]. cbn. by rewrite Hcap. Qed.

Lemma rows_loop_bound a project rows i c (j j1 : jira T) c1 l1 n :
  max a = Some n -> (0 < n)%Z -> (updated c <= n)%Z ->
  rows_loop a project rows i c j = (Ok c1, j1, l1) ->
  (updated c1 <= n)%Z.
Proof.
  intros Hmax Hn. revert i c j l1.
  induction rows as [|row rows IH]; intros i c j l1 Hc.
  - by intros [= <- _ _].
  - cbn [rows_loop]. destruct (cap_reached a c) eqn:Hcap.
    + by intros [= <- _ _].
    + intros Hrun.
      apply bind_ok_inv in Hrun as (c' & j' & la & lb & Hrow & Hrest & _).
      apply process_row_counts in Hrow.
      eapply IH; [|exact Hrest].
      unfold cap_reached in Hcap. rewrite Hmax in Hcap.
      destruct (Z.eqb_spec n 0); [lia|]. cbn in Hcap.
      apply Z.leb_gt in Hcap. lia.
Qed.

End RowFacts.

(** C2.  When the tracker answers the search with a list of issues, the
    resolver returns: nothing for the empty list; the key of the first
    issue whose summary equals the one asked for, blanks at the ends and
    letter case apart, wherever it stands in the list; and the key of
    the first issue when no summary is equal.  The request made is the
    one search, which asks for 5 results at most. *)
Theorem search_selects_exact_match {T : Type} `{ColumnUpdater.Tracker T}
    (project_key summary : string) (j : ColumnUpdater.jira T)
    (code : Z) (issues : list ColumnUpdater.hit) (t : T) :
  ColumnUpdater.answer (ColumnUpdater.search_request project_key summary)
    (ColumnUpdater.remote j)
  = (ColumnUpdater.Status code (ColumnUpdater.Issues issues), t) ->
  (code < 400)%Z ->
  Run.result_of (ColumnUpdater.search_issue_by_summary project_key summary j)
  = Run.Ok (ColumnUpdater.select_issue issues summary)
  /\ ColumnUpdater.requests_of
       (Run.log_of (ColumnUpdater.search_issue_by_summary project_key summary j))
     = [ColumnUpdater.search_request project_key summary]
  /\ (exists jql fields,
        ColumnUpdater.search_request project_key summary
        = ColumnUpdater.SearchIssues jql 5 fields)
  /\ (issues = [] -> ColumnUpdater.select_issue issues summary = None)
  /\ (forall l1 it l2,
        issues = l1 ++ it :: l2 ->
        Forall (fun x => ColumnUpdater.same_summary summary x = false) l1 ->
        ColumnUpdater.same_summary summary it = true ->
        ColumnUpdater.select_issue issues summary
        = Some (ColumnUpdater.hit_key it))
  /\ (forall it l,
        issues = it :: l ->
        Forall (fun x => ColumnUpdater.same_summary summary x = false) issues ->
        ColumnUpdater.select_issue issues summary
        = Some (ColumnUpdater.hit_key it)).
Proof.
  intros Hans Hcode.
  assert (Hrun : ColumnUpdater.search_issue_by_summary project_key summary j
    = (Run.Ok (ColumnUpdater.select_issue issues summary),
       {| ColumnUpdater.remote := t;
          ColumnUpdater.user_cache := ColumnUpdater.user_cache j;
          ColumnUpdater.version_cache := ColumnUpdater.version_cache j;
          ColumnUpdater.component_cache := ColumnUpdater.component_cache j |},
       [ColumnUpdater.Called (ColumnUpdater.search_request project_key summary)
          (ColumnUpdater.Status code (ColumnUpdater.Issues issues))])).
  { unfold ColumnUpdater.search_issue_by_summary.
    rewrite bind_run, call_run, Hans. cbn.
    apply Z.ltb_lt in Hcode. by rewrite Hcode. }
  rewrite Hrun. repeat split.
  - by eexists _, _.
  - by intros ->.
  - intros l1 it l2 -> Hl1 Hit. by apply select_issue_exact.
  - intros it l -> Hno. by apply select_issue_first.
Qed.

Lemma search_selects_exact_match_witness :
  Run.result_of
    (@ColumnUpdater.search_issue_by_summary unit
       (Examples.stateless Examples.two_hits) "FS" "Build bridge"
       (ColumnUpdater.new_jira tt))
  = Run.Ok (Some "T-2").
Proof.
  refine (eq_trans (proj1 (@search_selects_exact_match unit
    (Examples.stateless Examples.two_hits) "FS" "Build bridge"
    (ColumnUpdater.new_jira tt) 200 _ tt eq_refl _)) _).
  - reflexivity.
  - vm_compute. reflexivity.
Defined.

(** C5 (as amended).  In a live run, once the fields of a row are
    built, the requests made for the row are the update and then one
    link for each of its dependencies, in order, whatever the tracker
    answers: a row whose update fails still goes on to its links, and
    neither the update nor a link ends the row with an exception. *)
Theorem links_follow_update_even_failed `{Dates.Platform} `{Dates.IsoParser}
    {T : Type} `{ColumnUpdater.Tracker T}
    (a : ColumnUpdater.args) (project : option string) (i : Z)
    (row : gmap string string) (key : string) (c : ColumnUpdater.counters)
    (j j1 : ColumnUpdater.jira T) (fields : gmap string jvalue)
    (lb : list ColumnUpdater.event) :
  ColumnUpdater.dry_run a = false ->
  ColumnUpdater.build_fields row (ColumnUpdater.startdate_field a)
    (ColumnUpdater.EPIC_LINK_FIELD a) project j = (Run.Ok fields, j1, lb) ->
  ColumnUpdater.requests_of
    (Run.log_of (ColumnUpdater.update_row a project i row key c j))
  = ColumnUpdater.requests_of lb
    ++ ColumnUpdater.UpdateIssue key fields
       :: List.map (ColumnUpdater.link_request a key)
            (ColumnUpdater.dependencies row)
  /\ exists c1, Run.result_of (ColumnUpdater.update_row a project i row key c j)
                = Run.Ok c1.
Proof.
  intros Hd Hb. unfold ColumnUpdater.update_row.
  rewrite bind_run, Hb, bind_run.
  pose proof (try_update_live_requests a i key fields c j1 Hd) as Hup.
  destruct (try_update_total a i key fields c j1) as [c' Hc'].
  unfold Run.log_of, Run.result_of, Run.state_of in *.
  destruct (ColumnUpdater.try_update a i key fields c j1) as [[r j2] l2];
    cbn [fst snd] in Hup, Hc'. subst r. cbn [fst snd].
  split.
  - rewrite !requests_of_app, Hup. cbn [app]. do 2 f_equal.
    apply (links_live_requests a i key (ColumnUpdater.dependencies row) c' j2 Hd).
  - apply (links_total a i key (ColumnUpdater.dependencies row) c' j2).
Qed.

(** C9 (as amended).  With [--max n], n positive, a run that ends
    normally has updated at most [n] issues; the test stands before
    each row: once [n] issues are updated the loop leaves at once,
    whatever rows remain, without request or message. *)
Theorem max_caps_updates `{Dates.Platform} `{Dates.IsoParser}
    {T : Type} `{ColumnUpdater.Tracker T}
    (a : ColumnUpdater.args) (rows : list (gmap string string))
    (j : ColumnUpdater.jira T) (n : Z) (c : ColumnUpdater.counters) :
  ColumnUpdater.max a = Some n ->
  (0 < n)%Z ->
  Run.result_of (ColumnUpdater.main a rows j) = Run.Ok c ->
  (ColumnUpdater.updated c <= n)%Z
  /\ forall project rest i c0 (j0 : ColumnUpdater.jira T),
       (n <= ColumnUpdater.updated c0)%Z ->
       ColumnUpdater.rows_loop a project rest i c0 j0 = (Run.Ok c0, j0, []).
Proof.
  intros Hmax Hn Hrun. split.
  - unfold Run.result_of in Hrun.
    destruct (ColumnUpdater.main a rows j) as [[r j1] l1] eqn:Hmain.
    cbn in Hrun. subst r. unfold ColumnUpdater.main in Hmain.
    apply bind_ok_inv in Hmain as (project & j' & la & lb & _ & Hmain & _).
    apply bind_ok_inv in Hmain as (c' & j'' & lc & ld & Hloop & Hend & _).
    apply bind_ok_inv in Hend as (? & ? & ? & ? & _ & Hend & _).
    apply bind_ok_inv in Hend as (? & ? & ? & ? & _ & Hend & _).
    injection Hend as <- _ _.
    eapply rows_loop_bound; [exact Hmax | exact Hn | | exact Hloop].
    cbn. lia.
  - intros project rest i c0 j0 Hc0. apply rows_loop_capped.
    unfold ColumnUpdater.cap_reached. rewrite Hmax.
    destruct (Z.eqb_spec n 0); [lia|]. cbn. by apply Z.leb_le.
Qed.

Section AbortFacts.
Import Text Run Run.Notations ColumnUpdater.
Context `{Dates.Platform} `{Dates.IsoParser} {T : Type} `{Tracker T}.
Local Abbreviation M := (Run.M (jira T) event exn).

(** A row ends with an exception only if building its fields does. *)
Lemma update_row_raises a project i row key c (j : jira T) e :
  result_of (update_row a project i row key c j) = Raise e ->
  result_of (build_fields row (startdate_field a) (EPIC_LINK_FIELD a) project j)
  = Raise e.
Proof.
  unfold update_row. intros Hrun.
  apply bind_raise_inv in Hrun as [Hb|(fields & j1 & l1 & _ & Hrun)]; [done|].
  apply bind_raise_inv in Hrun as [Hu|(c1 & j2 & l2 & _ & Hl)].
  - destruct (try_update_total a i key fields c j1) as [c' Hc']. congruence.
  - destruct (links_total a i key (dependencies row) c1 j2) as [c' Hc']. congruence.
Qed.

End AbortFacts.

(** ** ColumnUpdater: the dry run *)

Section SimFacts.
Import Run Run.Notations.
Context {S Ev E : Type}.
Local Abbreviation M := (Run.M S Ev E).




End SimFacts.

Section DryRunFacts.
Import Text Run Run.Notations ColumnUpdater.
Context `{Dates.Platform} `{Dates.IsoParser} {T : Type} `{Tracker T}.
Local Abbreviation M := (Run.M (jira T) event exn).

Lemma emits_call r : is_write r = false -> emits no_write (call r : M _).
Proof. intros Hr j. rewrite call_run. by repeat constructor. Qed.

Lemma emits_json P b : emits P (json b : M _).
Proof. destruct b; first [apply emits_ret | apply emits_raise]. Qed.

Ltac quiet :=
  repeat first
    [ apply emits_ret | apply emits_raise | apply emits_gets
    | apply emits_modify | apply emits_json
    | apply emits_tell; done
    | apply emits_call; done
    | apply emits_bind; [|intros ?]
    | match goal with
      | |- emits _ (if ?b then _ else _) => destruct b
      | |- emits _ (match ?x with _ => _ end) => destruct x
      end ].

Lemma emits_search pk summary :
  emits no_write (search_issue_by_summary pk summary : M _).
Proof. unfold search_issue_by_summary, search_request. quiet. Qed.

Lemma emits_resolve_user email :
  emits no_write (resolve_user_account_id email : M _).
Proof. unfold resolve_user_account_id, set_user_cache. quiet. Qed.

Lemma emits_get_or_create_version pid name :
  emits no_write (get_or_create_version pid name : M _).
Proof.
  unfold get_or_create_version, set_versions, as_entities, as_entity. quiet.
Qed.

Lemma emits_list_project_components pid :
  emits no_write (list_project_components pid : M _).
Proof. unfold list_project_components, set_components, as_entities. quiet. Qed.


Lemma emits_components_loop pid names ids :
  emits no_write (components_loop pid names ids : M _).
Proof.
  revert ids. induction names as [|name names IH]; intros ids; cbn [components_loop].
  - apply emits_ret.
  - apply emits_bind; [apply emits_gets|]. intros cache.
    destruct (_ !! lower name); [apply IH|].
    unfold set_components, as_entity.
    repeat first [ apply IH | apply emits_call; done | apply emits_json
                 | apply emits_modify | apply emits_ret | apply emits_raise
                 | apply emits_bind; [|intros ?]
                 | match goal with
                   | |- emits _ (match ?x with _ => _ end) => destruct x
                   end ].
Qed.

Lemma emits_versions_loop pid names ids :
  emits no_write (versions_loop pid names ids : M _).
Proof.
  revert ids. induction names as [|name names IH]; intros ids; cbn [versions_loop].
  - apply emits_ret.
  - apply emits_bind; [apply emits_get_or_create_version|]. intros v. apply IH.
Qed.

Lemma emits_build_fields row sf ef project :
  emits no_write (build_fields row sf ef project : M _).
Proof.
  unfold build_fields, project_id.
  repeat first
    [ apply emits_list_project_components | apply emits_components_loop
    | apply emits_versions_loop | apply emits_resolve_user
    | apply emits_ret | apply emits_raise
    | apply emits_bind; [|intros ?]
    | match goal with
      | |- emits _ (match ?x with _ => _ end) => destruct x
      end ].
Qed.

Lemma update_issue_fields_dry key fields (j : jira T) :
  update_issue_fields key fields true j = (Ok (DryRunUpdate key fields), j, []).
Proof. reflexivity. Qed.








(** *** A dry run and a live run whose writes are accepted end alike *)






End DryRunFacts.

(** ** ColumnUpdater: what a failure ends *)

Section SurvivalFacts.
Import Text Run Run.Notations ColumnUpdater.
Context `{Dates.Platform} `{Dates.IsoParser} {T : Type} `{Tracker T}.
Local Abbreviation M := (Run.M (jira T) event exn).

Lemma no_write_requests l :
  Forall no_write l -> existsb is_write (requests_of l) = false.
Proof.
  induction 1 as [|ev l Hev _ IH]; [done|].
  change (ev :: l) with ([ev] ++ l). rewrite requests_of_app, existsb_app, IH.
  destruct ev as [r a0|m]; cbn in *; [by rewrite Hev | done].
Qed.

Lemma try_update_caught a i key fields c (j : jira T) e :
  result_of (update_issue_fields key fields (dry_run a) j) = Raise e ->
  try_update a i key fields c j
  = (Ok c, state_of (update_issue_fields key fields (dry_run a) j),
     log_of (update_issue_fields key fields (dry_run a) j)
     ++ [Printed (ErrorUpdating i key e)]).
Proof.
  intros He. unfold try_update, try_except. rewrite bind_run.
  unfold result_of, state_of, log_of in *.
  destruct (update_issue_fields key fields (dry_run a) j) as [[[d|e'] j1] l1];
    cbn in *; [done|].
  by injection He as ->.
Qed.

Lemma try_link_caught a i key dep c (j : jira T) e :
  result_of (match dependencies_direction a with
             | blocked_by => add_issue_link_is_blocked_by key dep (dry_run a)
             | blocks => add_issue_link_is_blocked_by dep key (dry_run a)
             end j) = Raise e ->
  try_link a i key dep c j
  = (Ok c,
     state_of (match dependencies_direction a with
               | blocked_by => add_issue_link_is_blocked_by key dep (dry_run a)
               | blocks => add_issue_link_is_blocked_by dep key (dry_run a)
               end j),
     log_of (match dependencies_direction a with
             | blocked_by => add_issue_link_is_blocked_by key dep (dry_run a)
             | blocks => add_issue_link_is_blocked_by dep key (dry_run a)
             end j)
     ++ [Printed (ErrorLinking i key dep e)]).
Proof.
  intros He. unfold try_link, try_except. rewrite bind_run.
  unfold result_of, state_of, log_of in *.
  destruct (match dependencies_direction a with
            | blocked_by => add_issue_link_is_blocked_by key dep (dry_run a)
            | blocks => add_issue_link_is_blocked_by dep key (dry_run a)
            end j) as [[[d|e'] j1] l1]; cbn in *; [done|].
  by injection He as ->.
Qed.

(** A row that ends with an exception has sent no update and no link. *)
Lemma update_row_quiet a project i row key c (j : jira T) e :
  result_of (update_row a project i row key c j) = Raise e ->
  Forall no_write (log_of (update_row a project i row key c j)).
Proof.
  unfold update_row. rewrite bind_run.
  pose proof (emits_build_fields row (startdate_field a) (EPIC_LINK_FIELD a)
                project j) as Hq.
  unfold log_of, result_of in *.
  destruct (build_fields row (startdate_field a) (EPIC_LINK_FIELD a) project j)
    as [[[fields|e'] j1] l1]; cbn [fst snd] in *; [|done].
  intros Hr. exfalso.
  destruct (total_bind _ _ (try_update_total a i key fields c)
              (fun c1 => links_total a i key (dependencies row) c1) j1)
    as [c' Hc'].
  unfold result_of in Hc'. by rewrite Hc' in Hr.
Qed.

Lemma process_row_quiet a project i row c (j : jira T) e :
  result_of (process_row a project i row c j) = Raise e ->
  Forall no_write (log_of (process_row a project i row c j)).
Proof.
  unfold process_row.
  destruct (truthy (strip (default "" (row !! "IssueKey")))).
  { apply update_row_quiet. }
  destruct (truthy (strip (default "" (row !! "Summary")))); cbn [negb];
    [|done].
  rewrite bind_run.
  pose proof (emits_search (project_key a)
                (strip (default "" (row !! "Summary"))) j) as Hq.
  unfold log_of, result_of in *.
  destruct (search_issue_by_summary (project_key a)
              (strip (default "" (row !! "Summary"))) j)
    as [[[found|e'] j1] l1]; cbn [fst snd] in *; [|done].
  destruct (nonempty found) as [k|]; [|done].
  intros Hr. apply Forall_app. split; [done|].
  by apply (update_row_quiet a project i row k c j1 e).
Qed.

Lemma rows_loop_step a project row rest i c (j : jira T) c' :
  cap_reached a c = false ->
  result_of (process_row a project i row c j) = Ok c' ->
  rows_loop a project (row :: rest) i c j
  = (result_of (rows_loop a project rest (i + 1) c'
                  (state_of (process_row a project i row c j))),
     state_of (rows_loop a project rest (i + 1) c'
                 (state_of (process_row a project i row c j))),
     log_of (process_row a project i row c j)
     ++ log_of (rows_loop a project rest (i + 1) c'
                  (state_of (process_row a project i row c j)))).
Proof.
  intros Hcap Hrow. cbn [rows_loop]. rewrite Hcap, bind_run.
  unfold result_of, state_of, log_of in *.
  destruct (process_row a project i row c j) as [[r j1] l1]; cbn in *.
  by subst r.
Qed.

(** The row at which the loop ends with an exception, and the state in
    which that row was reached. *)
Lemma rows_loop_raises_at a project rows i c (j : jira T) e :
  result_of (rows_loop a project rows i c j) = Raise e ->
  exists pre row post c1,
    rows = pre ++ row :: post
    /\ result_of (rows_loop a project pre i c j) = Ok c1
    /\ result_of (process_row a project (i + Z.of_nat (length pre)) row c1
                    (state_of (rows_loop a project pre i c j))) = Raise e.
Proof.
  revert i c j. induction rows as [|row rows IH]; intros i c j; [done|].
  cbn [rows_loop]. destruct (cap_reached a c) eqn:Hcap; [done|].
  intros Hrun.
  apply bind_raise_inv in Hrun as [Hrow|(c1 & j1 & l1 & Hrow & Hrest)].
  - exists [], row, rows, c. cbn [app length rows_loop Z.of_nat].
    rewrite Z.add_0_r. by repeat split.
  - apply IH in Hrest as (pre & row' & post & c2 & -> & Hpre & Hat).
    exists (row :: pre), row', post, c2.
    assert (Hc1 : result_of (process_row a project i row c j) = Ok c1)
      by by rewrite Hrow.
    rewrite (rows_loop_step a project row pre i c j c1 Hcap Hc1).
    replace (i + Z.of_nat (length (row :: pre)))%Z
      with (i + 1 + Z.of_nat (length pre))%Z by (cbn [length]; lia).
    cbn [result_of state_of fst snd]. rewrite Hrow.
    cbn [state_of fst snd] in *. by repeat split.
Qed.

Lemma process_row_raises_at a project i row c (j : jira T) e :
  result_of (process_row a project i row c j) = Raise e ->
  result_of (search_issue_by_summary (project_key a)
               (strip (default "" (row !! "Summary"))) j) = Raise e
  \/ result_of (build_fields row (startdate_field a) (EPIC_LINK_FIELD a)
                  project j) = Raise e
  \/ result_of (build_fields row (startdate_field a) (EPIC_LINK_FIELD a)
                  project
                  (state_of (search_issue_by_summary (project_key a)
                               (strip (default "" (row !! "Summary"))) j)))
     = Raise e.
Proof.
  unfold process_row.
  destruct (truthy (strip (default "" (row !! "IssueKey")))).
  { intros Hrun. right. left. by apply update_row_raises in Hrun. }
  destruct (truthy (strip (default "" (row !! "Summary")))); cbn [negb].
  - intros Hrun.
    apply bind_raise_inv in Hrun as [Hs|(found & j1 & l1 & Hs & Hrun)]; [by left|].
    destruct (nonempty found) as [k|].
    + right. right. rewrite Hs. by apply update_row_raises in Hrun.
    + discriminate Hrun.
  - intros Hrun. discriminate Hrun.
Qed.

End SurvivalFacts.

(** C4 (as amended).  In the ColumnUpdater a failure of the update of a
    row, or of one of its links, is caught in the loop over the rows,
    reported and left out of the counters: (1) when the update raises,
    the [try] around it returns the counters as they were and prints
    the error; (2) so for each link; (3) the loop over the links of a
    row always returns.  (4) A row that has sent an update or a link,
    whatever the tracker answered, returns, and the loop goes on with
    the rows that follow it: the run of the loop from that row is the
    run of the row followed by the run of the loop over the remaining
    rows, from the state and the counters that the row left.  (5) An
    exception that ends the run is never that of an update or of a
    link: it is raised by the fetch of the project, or, at the first row
    that does not return, by the search by summary or by the building of
    the fields of that row, in the state in which the rows before it
    left the tracker and the caches. *)
Theorem update_and_link_failures_are_caught `{Dates.Platform}
    `{Dates.IsoParser} {T : Type} `{ColumnUpdater.Tracker T}
    (a : ColumnUpdater.args) (rows : list (gmap string string))
    (j : ColumnUpdater.jira T) :
  (forall i key fields c (j0 : ColumnUpdater.jira T) e,
     Run.result_of
       (ColumnUpdater.update_issue_fields key fields (ColumnUpdater.dry_run a) j0)
     = Run.Raise e ->
     ColumnUpdater.try_update a i key fields c j0
     = (Run.Ok c,
        Run.state_of
          (ColumnUpdater.update_issue_fields key fields
             (ColumnUpdater.dry_run a) j0),
        Run.log_of
          (ColumnUpdater.update_issue_fields key fields
             (ColumnUpdater.dry_run a) j0)
        ++ [ColumnUpdater.Printed (ColumnUpdater.ErrorUpdating i key e)]))
  /\ (forall i key dep c (j0 : ColumnUpdater.jira T) e,
     Run.result_of
       (match ColumnUpdater.dependencies_direction a with
        | ColumnUpdater.blocked_by =>
            ColumnUpdater.add_issue_link_is_blocked_by key dep
              (ColumnUpdater.dry_run a)
        | ColumnUpdater.blocks =>
            ColumnUpdater.add_issue_link_is_blocked_by dep key
              (ColumnUpdater.dry_run a)
        end j0) = Run.Raise e ->
     Run.result_of (ColumnUpdater.try_link a i key dep c j0) = Run.Ok c
     /\ ColumnUpdater.Printed (ColumnUpdater.ErrorLinking i key dep e)
        ∈ Run.log_of (ColumnUpdater.try_link a i key dep c j0))
  /\ (forall i key deps c (j0 : ColumnUpdater.jira T),
     exists c1, Run.result_of
                  (Run.for_each (ColumnUpdater.try_link a i key) deps c j0)
                = Run.Ok c1)
  /\ (forall project row rest i c (j0 : ColumnUpdater.jira T),
     ColumnUpdater.cap_reached a c = false ->
     existsb ColumnUpdater.is_write
       (ColumnUpdater.requests_of
          (Run.log_of (ColumnUpdater.process_row a project i row c j0))) = true ->
     exists c',
       Run.result_of (ColumnUpdater.process_row a project i row c j0) = Run.Ok c'
       /\ ColumnUpdater.rows_loop a project (row :: rest) i c j0
          = (Run.result_of
               (ColumnUpdater.rows_loop a project rest (i + 1) c'
                  (Run.state_of (ColumnUpdater.process_row a project i row c j0))),
             Run.state_of
               (ColumnUpdater.rows_loop a project rest (i + 1) c'
                  (Run.state_of (ColumnUpdater.process_row a project i row c j0))),
             Run.log_of (ColumnUpdater.process_row a project i row c j0)
             ++ Run.log_of
                  (ColumnUpdater.rows_loop a project rest (i + 1) c'
                     (Run.state_of
                        (ColumnUpdater.process_row a project i row c j0)))))
  /\ (forall e,
     Run.result_of (ColumnUpdater.main a rows j) = Run.Raise e ->
     Run.result_of
       (ColumnUpdater.get_project_meta (ColumnUpdater.project_key a) j)
     = Run.Raise e
     \/ exists project pre row post c1,
          rows = pre ++ row :: post
          /\ Run.result_of
               (ColumnUpdater.get_project_meta (ColumnUpdater.project_key a) j)
             = Run.Ok project
          /\ let j1 :=
               Run.state_of
                 (ColumnUpdater.get_project_meta (ColumnUpdater.project_key a) j) in
             Run.result_of
               (ColumnUpdater.rows_loop a project pre 1
                  ColumnUpdater.counters0 j1) = Run.Ok c1
             /\ let j2 :=
                  Run.state_of
                    (ColumnUpdater.rows_loop a project pre 1
                       ColumnUpdater.counters0 j1) in
                let summary := Text.strip (default "" (row !! "Summary")) in
                Run.result_of
                  (ColumnUpdater.search_issue_by_summary
                     (ColumnUpdater.project_key a) summary j2)
                = Run.Raise e
                \/ Run.result_of
                     (ColumnUpdater.build_fields row
                        (ColumnUpdater.startdate_field a)
                        (ColumnUpdater.EPIC_LINK_FIELD a) project j2)
                   = Run.Raise e
                \/ Run.result_of
                     (ColumnUpdater.build_fields row
                        (ColumnUpdater.startdate_field a)
                        (ColumnUpdater.EPIC_LINK_FIELD a) project
                        (Run.state_of
                           (ColumnUpdater.search_issue_by_summary
                              (ColumnUpdater.project_key a) summary j2)))
                   = Run.Raise e).
Proof.
  split; [|split; [|split; [|split]]].
  - intros. by apply try_update_caught.
  - intros i key dep c j0 e He.
    rewrite (try_link_caught a i key dep c j0 e He).
    split; [done|]. cbn [Run.log_of snd]. set_solver.
  - intros. apply links_total.
  - intros project row rest i c j0 Hcap Hsent.
    destruct (Run.result_of (ColumnUpdater.process_row a project i row c j0))
      as [c'|e] eqn:Hrow.
    + exists c'. split; [done|]. by apply rows_loop_step.
    + apply process_row_quiet, no_write_requests in Hrow. congruence.
  - intros e Hrun. unfold ColumnUpdater.main in Hrun.
    apply bind_raise_inv in Hrun as [Hp|(project & j1 & l1 & Hp & Hrun)];
      [by left|].
    right.
    apply bind_raise_inv in Hrun as [Hloop|(c1 & j2 & l2 & _ & Hend)].
    + apply rows_loop_raises_at in Hloop as (pre & row & post & c1 & -> & Hpre & Hat).
      apply process_row_raises_at in Hat.
      exists project, pre, row, post, c1. rewrite Hp.
      cbn [Run.result_of Run.state_of fst snd]. by repeat split.
    + exfalso. revert Hend. rewrite bind_run. cbn. rewrite bind_run. cbn.
      by destruct (ColumnUpdater.dry_run a).
Qed.


(** ** ColumnUpdater: components are created once *)

Section ComponentFacts.
Import Text Run Run.Notations ColumnUpdater.
Context `{Dates.Platform} `{Dates.IsoParser} {T : Type} `{Tracker T}.
Local Abbreviation M := (Run.M (jira T) event exn).

Lemma component_creations_app l1 l2 :
  component_creations (l1 ++ l2)
  = component_creations l1 ++ component_creations l2.
Proof.
  unfold component_creations. by rewrite requests_of_app, flat_map_app.
Qed.

Lemma aside_ret {A} (a : A) : aside (ret a : M A).
Proof. done. Qed.

Lemma aside_raise {A} e : aside (raise e : M A).
Proof. done. Qed.

Lemma aside_tell ev : component_creations [ev] = [] -> aside (tell ev : M _).
Proof. done. Qed.

Lemma aside_gets {A} (f : jira T -> A) : aside (gets f : M A).
Proof. done. Qed.

Lemma aside_bind {A B} (m : M A) (k : A -> M B) :
  aside m -> (forall a, aside (k a)) -> aside (bind m k).
Proof.
  intros Hm Hk j. rewrite bind_run. specialize (Hm j).
  unfold state_of, log_of in *.
  destruct (m j) as [[[a|e] j1] l1]; cbn [fst snd] in *; [|done].
  destruct Hm as [Hc Hl]. destruct (Hk a j1) as [Hc' Hl'].
  unfold state_of, log_of in *.
  split; [congruence|]. by rewrite component_creations_app, Hl, Hl'.
Qed.

Lemma aside_try_except {A} (m : M A) (h : exn -> M A) :
  aside m -> (forall e, aside (h e)) -> aside (try_except m h).
Proof.
  intros Hm Hh j. specialize (Hm j). unfold try_except, state_of, log_of in *.
  destruct (m j) as [[[a|e] j1] l1]; cbn [fst snd] in *; [done|].
  destruct Hm as [Hc Hl]. destruct (Hh e j1) as [Hc' Hl'].
  unfold state_of, log_of in *.
  destruct (h e j1) as [[r j2] l2]; cbn [fst snd] in *.
  split; [congruence|]. by rewrite component_creations_app, Hl, Hl'.
Qed.

Lemma aside_for_each {A B} (body : A -> B -> M B) xs acc :
  (forall x b, aside (body x b)) -> aside (for_each body xs acc).
Proof.
  intros Hb. revert acc. induction xs as [|x xs IH]; intros acc; cbn [for_each].
  - apply aside_ret.
  - apply aside_bind; [apply Hb | apply IH].
Qed.

Lemma aside_call r :
  (forall name pid, r <> CreateComponent name pid) -> aside (call r : M _).
Proof.
  intros Hr j. rewrite call_run. split; [done|].
  unfold log_of, component_creations. cbn.
  destruct r as [???|?|?|??|?|n p|?|??|??]; try done.
  by destruct (Hr n p).
Qed.

Lemma aside_json b : aside (json b : M _).
Proof. destruct b; first [apply aside_ret | apply aside_raise]. Qed.

Lemma aside_keeps {A} (m : M A) : aside m -> keeps m.
Proof.
  intros Hm h j [Hnd Hfiled]. destruct (Hm j) as [Hc Hl].
  assert (Hsame : component_creations (h ++ log_of (m j)) = component_creations h)
    by (by rewrite component_creations_app, Hl, app_nil_r).
  destruct (result_of (m j)); [|by rewrite Hsame].
  split; [by rewrite Hsame|]. rewrite Hsame. intros pk Hin.
  destruct (Hfiled pk Hin) as (m' & c & Hm' & Hc').
  exists m', c. by rewrite Hc.
Qed.

Lemma keeps_bind {A B} (m : M A) (k : A -> M B) :
  keeps m -> (forall a, keeps (k a)) -> keeps (bind m k).
Proof.
  intros Hm Hk h j Hin. rewrite bind_run. specialize (Hm h j Hin).
  unfold result_of, state_of, log_of in *.
  destruct (m j) as [[[a|e] j1] l1]; cbn [fst snd] in *; [|done].
  specialize (Hk a (h ++ l1) j1 Hm). unfold result_of, state_of, log_of in Hk.
  by rewrite app_assoc.
Qed.

Lemma keeps_ret {A} (a : A) : keeps (ret a : M A).
Proof. apply aside_keeps, aside_ret. Qed.

Lemma keeps_ret_bind {A B} (a : A) (k : A -> M B) :
  keeps (k a) -> keeps (bind (ret a) k).
Proof. intros Hk h j Hin. rewrite ret_bind. by apply Hk. Qed.

(** The outcomes of a [call], spelled out. *)
Lemma call_cases r (j : jira T) :
  exists ans t,
    let j1 := {| remote := t; user_cache := user_cache j;
                 version_cache := version_cache j;
                 component_cache := component_cache j |} in
    (exists e, call r j = (Raise e, j1, [Called r ans]))
    \/ (exists b, call r j = (Ok b, j1, [Called r ans])).
Proof.
  rewrite call_run. destruct (answer r (remote j)) as [[|code b] t].
  - exists Unreachable, t. left. by eexists.
  - exists (Status code b), t. cbn. destruct (code <? 400)%Z.
    + right. by eexists.
    + left. by eexists.
Qed.

Ltac aside_auto :=
  repeat first
    [ apply aside_ret | apply aside_raise | apply aside_gets | apply aside_json
    | apply aside_tell; done
    | apply aside_call; done
    | apply aside_bind; [|intros ?]
    | match goal with
      | |- aside (if ?b then _ else _) => destruct b
      | |- aside (match ?x with _ => _ end) => destruct x
      end ].

Lemma aside_set_user_cache email acct : aside (set_user_cache email acct : M _).
Proof. done. Qed.

Lemma aside_set_versions pid m : aside (set_versions pid m : M _).
Proof. done. Qed.

Lemma aside_search pk summary : aside (search_issue_by_summary pk summary : M _).
Proof. unfold search_issue_by_summary, search_request. aside_auto. Qed.

Lemma aside_resolve_user email : aside (resolve_user_account_id email : M _).
Proof.
  unfold resolve_user_account_id.
  repeat first [ apply aside_set_user_cache | progress aside_auto ].
Qed.

Lemma aside_get_or_create_version pid name :
  aside (get_or_create_version pid name : M _).
Proof.
  unfold get_or_create_version, as_entities, as_entity.
  repeat first [ apply aside_set_versions | progress aside_auto ].
Qed.

Lemma aside_versions_loop pid names ids :
  aside (versions_loop pid names ids : M _).
Proof.
  revert ids. induction names as [|name names IH]; intros ids; cbn [versions_loop].
  - apply aside_ret.
  - apply aside_bind; [apply aside_get_or_create_version|]. intros v. apply IH.
Qed.

Lemma aside_get_project_meta pk : aside (get_project_meta pk : M _).
Proof. unfold get_project_meta. aside_auto. Qed.

Lemma aside_try_update a i key fields c : aside (try_update a i key fields c : M _).
Proof.
  unfold try_update, update_issue_fields.
  apply aside_try_except; [|intros e]; aside_auto.
Qed.

Lemma aside_try_link a i key dep c : aside (try_link a i key dep c : M _).
Proof.
  unfold try_link, add_issue_link_is_blocked_by.
  apply aside_try_except; [|intros e]; aside_auto.
Qed.

(** Listing the components fills the cache of a project for which
    nothing is filed yet, so nothing was created for it either. *)
Lemma keeps_list_project_components pid :
  keeps (list_project_components pid : M _).
Proof.
  intros h j [Hnd Hfiled]. unfold list_project_components.
  rewrite bind_run. cbn [gets result_of state_of log_of fst snd app].
  destruct (component_cache j !! pid) as [comps|] eqn:Hcache.
  { cbn -[component_creations]. by rewrite app_nil_r. }
  rewrite bind_run.
  destruct (call_cases (ListComponents pid) j) as (ans & t & [[e ->]|[b ->]]);
    cbn [result_of state_of log_of fst snd].
  { by rewrite component_creations_app, app_nil_r. }
  assert (Hsame : component_creations (h ++ [Called (ListComponents pid) ans])
                  = component_creations h)
    by (by rewrite component_creations_app, app_nil_r).
  destruct b; cbn -[component_creations]; rewrite ?app_nil_r, ?Hsame; try done.
  split; [by rewrite Hsame|]. rewrite Hsame.
  intros pk Hin. destruct (Hfiled pk Hin) as (m & c & Hm & Hc).
  exists m, c. split; [|done]. cbn. rewrite lookup_insert_ne; [done|].
  intros Heq. rewrite <- Heq in Hm. congruence.
Qed.

(** The loop over the names asks for a component only when the cache of
    the project does not hold its name, and files what it created. *)
Lemma keeps_components_loop pid names ids :
  keeps (components_loop pid names ids : M _).
Proof.
  revert ids. induction names as [|name names IH]; intros ids;
    cbn [components_loop].
  { apply keeps_ret. }
  intros h j Hin. rewrite bind_run.
  cbn [gets result_of state_of log_of fst snd app].
  destruct (default ∅ (component_cache j !! pid) !! lower name) as [c|] eqn:Hc.
  { by apply IH. }
  destruct Hin as [Hnd Hfiled].
  assert (Hfresh : (pid, lower name) ∉ component_creations h).
  { intros Hin. destruct (Hfiled _ Hin) as (m & c & Hm & Hmc). cbn in Hm, Hmc.
    rewrite Hm in Hc. cbn in Hc. congruence. }
  assert (Hnew : forall ans,
    component_creations (h ++ [Called (CreateComponent name pid) ans])
    = component_creations h ++ [(pid, lower name)])
    by (intros; by rewrite component_creations_app).
  assert (Hnd' : forall ans,
    NoDup (component_creations (h ++ [Called (CreateComponent name pid) ans]))).
  { intros ans. rewrite Hnew.
    apply NoDup_app. repeat split; [done| |apply NoDup_singleton].
    intros pk Hpk ->%list_elem_of_singleton. done. }
  rewrite bind_run.
  destruct (call_cases (CreateComponent name pid) j)
    as (ans & t & [[e ->]|[b ->]]); cbn [result_of state_of log_of fst snd].
  { apply Hnd'. }
  destruct b as [| | | | |created| |];
    try (cbn -[component_creations]; rewrite ?app_nil_r; apply Hnd').
  rewrite bind_run. cbn [json ret result_of state_of log_of fst snd app].
  rewrite bind_run. cbn [as_entity ret result_of state_of log_of fst snd app].
  rewrite bind_run.
  cbn [set_components modify result_of state_of log_of fst snd app
       remote user_cache version_cache component_cache].
  match goal with
  | |- context [components_loop pid names ?ids' ?j'] =>
      specialize (IH ids' (h ++ [Called (CreateComponent name pid) ans]) j');
      destruct (components_loop pid names ids' j') as [[r j2] l2]
  end.
  cbn [result_of state_of log_of fst snd] in *.
  rewrite <- app_assoc in IH. cbn [app] in IH. apply IH.
  split; [apply Hnd'|].
  intros pk. rewrite Hnew.
  intros [Hold| ->%list_elem_of_singleton]%elem_of_app.
  - destruct (Hfiled pk Hold) as (m & c & Hm & Hmc).
    destruct (decide (pk.1 = pid)) as [Heq|Hne].
    + rewrite Heq in Hm. rewrite Hm. cbn [default].
      destruct (decide (pk.2 = lower name)) as [Hk|Hk].
      * eexists _, created. cbn. rewrite Heq, Hk.
        split; apply lookup_insert_eq.
      * eexists _, c. cbn. rewrite Heq.
        split; [apply lookup_insert_eq | by rewrite lookup_insert_ne].
    + exists m, c. cbn. split; [by rewrite lookup_insert_ne | done].
  - eexists _, created. cbn. split; apply lookup_insert_eq.
Qed.

Lemma keeps_build_fields row sf ef project :
  keeps (build_fields row sf ef project : M _).
Proof.
  unfold build_fields.
  apply keeps_bind.
  { destruct (present (row !! "Components")); [|apply keeps_ret].
    apply keeps_bind.
    { apply aside_keeps. unfold project_id. aside_auto. }
    intros pid. apply keeps_bind; [apply keeps_list_project_components|].
    intros _. apply keeps_bind; [apply keeps_components_loop|].
    intros ids. apply keeps_ret. }
  intros fields. apply aside_keeps.
  apply aside_bind.
  { destruct (present (row !! "FixVersions")); [|apply aside_ret].
    apply aside_bind; [unfold project_id; aside_auto|]. intros pid.
    apply aside_bind; [apply aside_versions_loop|]. intros ids. apply aside_ret. }
  intros fields'. apply aside_bind.
  { destruct (present (row !! "AssigneeEmail")); [|apply aside_ret].
    apply aside_bind; [apply aside_resolve_user|]. intros acct. aside_auto. }
  intros fields''. apply aside_ret.
Qed.

Lemma keeps_update_row a project i row key c :
  keeps (update_row a project i row key c : M _).
Proof.
  unfold update_row. apply keeps_bind; [apply keeps_build_fields|].
  intros fields. apply aside_keeps.
  apply aside_bind; [apply aside_try_update|]. intros c'.
  apply aside_for_each. intros. apply aside_try_link.
Qed.

Lemma keeps_process_row a project i row c :
  keeps (process_row a project i row c : M _).
Proof.
  unfold process_row.
  destruct (truthy _); [apply keeps_update_row|].
  destruct (negb _); [apply aside_keeps; aside_auto|].
  apply keeps_bind; [apply aside_keeps, aside_search|]. intros found.
  destruct (nonempty found); [apply keeps_update_row|].
  apply aside_keeps. aside_auto.
Qed.

Lemma keeps_rows_loop a project rows i c :
  keeps (rows_loop a project rows i c : M _).
Proof.
  revert i c. induction rows as [|row rows IH]; intros i c; cbn [rows_loop].
  - apply keeps_ret.
  - destruct (cap_reached a c); [apply keeps_ret|].
    apply keeps_bind; [apply keeps_process_row|]. intros c'. apply IH.
Qed.

Lemma keeps_main a rows : keeps (main a rows : M _).
Proof.
  unfold main. apply keeps_bind; [apply aside_keeps, aside_get_project_meta|].
  intros project. apply keeps_bind; [apply keeps_rows_loop|].
  intros c. apply aside_keeps. aside_auto.
Qed.

Lemma consistent_nil (j : jira T) : consistent [] j.
Proof. split; [constructor|]. intros pk Hpk. by apply elem_of_nil in Hpk. Qed.

(** A history that shows the one creation of a component that the cache
    holds. *)
Lemma consistent_filed (j : jira T) pid name :
  filed j (pid, lower name) ->
  consistent [Called (CreateComponent name pid) Unreachable] j.
Proof.
  intros Hf. split; [apply NoDup_singleton|].
  by intros pk ->%list_elem_of_singleton.
Qed.

(** What the cache holds is not created again, and stays in the cache. *)
Lemma never_again {A} (m : M A) (j : jira T) pid name :
  keeps m -> filed j (pid, lower name) ->
  (pid, lower name) ∉ component_creations (log_of (m j)).
Proof.
  intros Hk Hf.
  specialize (Hk _ j (consistent_filed j pid name Hf)).
  assert (Hnd : NoDup ((pid, lower name) :: component_creations (log_of (m j)))).
  { destruct (result_of (m j)); [apply Hk | exact Hk]. }
  by apply NoDup_cons in Hnd as [Hnot _].
Qed.

Lemma filed_kept {A} (m : M A) (j : jira T) pid name a :
  keeps m -> filed j (pid, lower name) -> result_of (m j) = Ok a ->
  filed (state_of (m j)) (pid, lower name).
Proof.
  intros Hk Hf Hok.
  specialize (Hk _ j (consistent_filed j pid name Hf)). rewrite Hok in Hk.
  destruct Hk as [_ Hfiled]. apply Hfiled. left.
Qed.

Lemma filed_lookup (j : jira T) pid key :
  filed j (pid, key) <-> is_Some (default ∅ (component_cache j !! pid) !! key).
Proof.
  unfold filed. cbn. split.
  - intros (m & c & -> & Hc). by exists c.
  - intros [c Hc]. destruct (component_cache j !! pid) as [m|]; [|done].
    by exists m, c.
Qed.

(** When the loop over the names returns, every name is in the cache,
    and every name that was not in it has been created. *)
Lemma components_loop_creates pid names ids (j j' : jira T) ids' l name :
  components_loop pid names ids j = (Ok ids', j', l) ->
  name ∈ names ->
  filed j' (pid, lower name)
  /\ (default ∅ (component_cache j !! pid) !! lower name = None ->
      (pid, lower name) ∈ component_creations l).
Proof.
  revert ids j l. induction names as [|name0 names IH]; intros ids j l Hrun Hin.
  { by apply elem_of_nil in Hin. }
  cbn [components_loop] in Hrun. rewrite bind_run in Hrun.
  cbn [gets result_of state_of log_of fst snd app] in Hrun.
  destruct (default ∅ (component_cache j !! pid) !! lower name0) as [c|] eqn:Hc.
  - destruct (components_loop pid names (ids ++ [ent_id c]) j)
      as [[r j2] l2] eqn:Hrest.
    cbn [result_of state_of log_of fst snd] in Hrun.
    injection Hrun as -> -> ->.
    apply elem_of_cons in Hin as [-> | Hin].
    + split; [|by rewrite Hc].
      assert (Hf : filed j (pid, lower name0))
        by (apply filed_lookup; by rewrite Hc).
      pose proof (filed_kept (components_loop pid names (ids ++ [ent_id c]))
                    j pid name0 ids' (keeps_components_loop pid names _) Hf) as Hk.
      rewrite Hrest in Hk. by apply Hk.
    + by apply (IH _ _ _ Hrest).
  - rewrite bind_run in Hrun.
    destruct (call_cases (CreateComponent name0 pid) j)
      as (ans & t & [[e Hcall]|[b Hcall]]); rewrite Hcall in Hrun;
      cbn [result_of state_of log_of fst snd] in Hrun; [done|].
    destruct b as [| | | | |created| |];
      try (cbn in Hrun; discriminate Hrun).
    rewrite bind_run in Hrun.
    cbn [json ret result_of state_of log_of fst snd app] in Hrun.
    rewrite bind_run in Hrun.
    cbn [as_entity ret result_of state_of log_of fst snd app] in Hrun.
    rewrite bind_run in Hrun.
    cbn [set_components modify result_of state_of log_of fst snd app
         remote user_cache version_cache component_cache] in Hrun.
    match type of Hrun with
    | context [components_loop pid names ?ids1 ?j1] =>
        pose proof (filed_kept (components_loop pid names ids1) j1 pid name0 ids'
                      (keeps_components_loop pid names _)) as Hk;
        pose proof (IH ids1 j1) as IH';
        destruct (components_loop pid names ids1 j1) as [[r j2] l2] eqn:Hrest
    end.
    cbn [result_of state_of log_of fst snd] in Hrun, Hk.
    injection Hrun as -> -> <-.
    specialize (IH' l2 eq_refl).
    assert (Hnew : filed j' (pid, lower name0)).
    { apply Hk; [|done]. eexists _, created. cbn.
      split; apply lookup_insert_eq. }
    change (Called (CreateComponent name0 pid) ans :: l2)
      with ([Called (CreateComponent name0 pid) ans] ++ l2).
    rewrite component_creations_app.
    destruct (decide (lower name = lower name0)) as [Heq|Hne].
    { rewrite Heq. split; [done|]. intros _. apply elem_of_app. left.
      cbn. left. }
    apply elem_of_cons in Hin as [-> | Hin]; [done|].
    destruct (IH' Hin) as [Hf Hcr]. clear IH'.
    split; [done|]. intros Hnone. apply elem_of_app. right. apply Hcr.
    cbn. rewrite lookup_insert_eq. cbn. by rewrite lookup_insert_ne.
Qed.

Lemma list_project_components_log pid (j : jira T) :
  component_creations (log_of (list_project_components pid j)) = [].
Proof.
  unfold list_project_components. rewrite bind_run.
  cbn [gets result_of state_of log_of fst snd app].
  destruct (component_cache j !! pid); [done|].
  rewrite bind_run.
  destruct (call_cases (ListComponents pid) j) as (ans & t & [[e ->]|[b ->]]);
    cbn [result_of state_of log_of fst snd]; [done|].
  by destruct b.
Qed.

(** The part of [build_fields] that follows the components leaves their
    cache alone. *)
Lemma build_fields_components row sf ef pid comps (j j' : jira T) fields l :
  present (row !! "Components") = Some comps ->
  build_fields row sf ef (Some pid) j = (Ok fields, j', l) ->
  exists ids j2 l2,
    components_loop pid (tokens comps) []
      (state_of (list_project_components pid j)) = (Ok ids, j2, l2)
    /\ component_cache j' = component_cache j2
    /\ component_creations l = component_creations l2.
Proof.
  intros Hp. unfold build_fields. rewrite Hp. intros Hrun.
  apply bind_ok_inv in Hrun as (f1 & j1 & la & lb & Hc & Hrest & ->).
  cbn [project_id] in Hc. rewrite ret_bind in Hc.
  apply bind_ok_inv in Hc as (m & j0 & l0 & l1 & Hlist & Hc & ->).
  apply bind_ok_inv in Hc as (ids & j2 & l2 & l3 & Hloop & Hret & ->).
  injection Hret as <- <- <-.
  exists ids, j2, l2. rewrite Hlist. cbn [state_of fst snd].
  split; [done|].
  match type of Hrest with
  | ?k j2 = _ => assert (Ha : aside k)
  end.
  { apply aside_bind.
    { destruct (present (row !! "FixVersions")); [|apply aside_ret].
      apply aside_bind; [unfold project_id; aside_auto|]. intros pid'.
      apply aside_bind; [apply aside_versions_loop|]. intros ids'.
      apply aside_ret. }
    intros fields'. apply aside_bind.
    { destruct (present (row !! "AssigneeEmail")); [|apply aside_ret].
      apply aside_bind; [apply aside_resolve_user|]. intros acct. aside_auto. }
    intros fields''. apply aside_ret. }
  destruct (Ha j2) as [Hcache Hlog]. rewrite Hrest in Hcache, Hlog.
  cbn [state_of log_of fst snd] in Hcache, Hlog.
  split; [done|].
  pose proof (list_project_components_log pid j) as Hl0. rewrite Hlist in Hl0.
  cbn [log_of snd] in Hl0.
  by rewrite !component_creations_app, Hl0, Hlog, !app_nil_r.
Qed.

End ComponentFacts.

(** C7.  (1) In the log of a run no component is created twice: the
    creation requests differ pairwise in the project or in the
    lower-cased name, whatever the rows, the tracker's answers and the
    caches at the start.  (2) A row that names components, and whose
    fields are built: no creation is asked for twice; every name of the
    row is then in the cache of the project, under its lower-cased
    form; a name that the components of the project lacked (the cache
    of the project, filled from the tracker's listing if it was empty)
    has been created, so exactly once; a name that they held has not.
    (3) What the cache holds, in lower case, is created by no later
    row, whatever the letter case in which the row writes it, and (4)
    it is still in the cache after every row that returns. *)
Theorem component_created_once `{Dates.Platform} `{Dates.IsoParser}
    {T : Type} `{ColumnUpdater.Tracker T}
    (a : ColumnUpdater.args) (rows : list (gmap string string))
    (j : ColumnUpdater.jira T) :
  NoDup (ColumnUpdater.component_creations
           (Run.log_of (ColumnUpdater.main a rows j)))
  /\ (forall row sf ef pid comps name fields (j0 : ColumnUpdater.jira T),
      ColumnUpdater.present (row !! "Components") = Some comps ->
      name ∈ Text.tokens comps ->
      Run.result_of (ColumnUpdater.build_fields row sf ef (Some pid) j0)
      = Run.Ok fields ->
      NoDup (ColumnUpdater.component_creations
               (Run.log_of (ColumnUpdater.build_fields row sf ef (Some pid) j0)))
      /\ ColumnUpdater.filed
           (Run.state_of (ColumnUpdater.build_fields row sf ef (Some pid) j0))
           (pid, Text.lower name)
      /\ ((pid, Text.lower name)
          ∈ ColumnUpdater.component_creations
              (Run.log_of (ColumnUpdater.build_fields row sf ef (Some pid) j0))
          <-> Views.known_components pid j0 !! Text.lower name = None))
  /\ (forall project rest i c pid name (j0 : ColumnUpdater.jira T),
      ColumnUpdater.filed j0 (pid, Text.lower name) ->
      (pid, Text.lower name)
      ∉ ColumnUpdater.component_creations
          (Run.log_of (ColumnUpdater.rows_loop a project rest i c j0)))
  /\ (forall project row i c c' pid name (j0 : ColumnUpdater.jira T),
      ColumnUpdater.filed j0 (pid, Text.lower name) ->
      Run.result_of (ColumnUpdater.process_row a project i row c j0) = Run.Ok c' ->
      ColumnUpdater.filed
        (Run.state_of (ColumnUpdater.process_row a project i row c j0))
        (pid, Text.lower name)).
Proof.
  split; [|split; [|split]].
  - pose proof (keeps_main a rows [] j (consistent_nil j)) as Hk.
    cbn [app] in Hk.
    destruct (Run.result_of (ColumnUpdater.main a rows j)); apply Hk.
  - intros row sf ef pid comps name fields j0 Hp Hin Hok.
    split.
    { pose proof (keeps_build_fields row sf ef (Some pid) [] j0
                    (consistent_nil j0)) as Hk.
      rewrite Hok in Hk. cbn [app] in Hk. apply Hk. }
    destruct (ColumnUpdater.build_fields row sf ef (Some pid) j0)
      as [[r j'] l] eqn:Hrun.
    cbn [Run.result_of Run.state_of Run.log_of fst snd] in *. subst r.
    destruct (build_fields_components row sf ef pid comps j0 j' fields l Hp Hrun)
      as (ids & j2 & l2 & Hloop & Hcache & Hlog).
    destruct (components_loop_creates pid (Text.tokens comps) [] _ j2 ids l2
                name Hloop Hin) as [Hf Hcr].
    split.
    { destruct Hf as (m & c & Hm & Hc). exists m, c. by rewrite Hcache. }
    rewrite Hlog. split; [|exact Hcr].
    intros Hcreated.
    destruct (Views.known_components pid j0 !! Text.lower name) as [c|] eqn:Hk;
      [|done].
    exfalso.
    eapply (never_again (ColumnUpdater.components_loop pid (Text.tokens comps) [])
              _ pid name (keeps_components_loop pid _ _)).
    + apply filed_lookup. unfold Views.known_components in Hk. by rewrite Hk.
    + by rewrite Hloop.
  - intros project rest i c pid name j0 Hf.
    by apply never_again; [apply keeps_rows_loop|].
  - intros project row i c c' pid name j0 Hf Hok.
    by eapply filed_kept; [apply keeps_process_row| |].
Qed.

(** ** Runs on concrete rows *)

(** C1, as stated, fails.  The ColumnUpdater asks for the link of the
    first row before the second row is updated; and in the Importer a
    dependency on a task that a later row creates is dropped: three
    issues are posted and no link. *)
Lemma link_sent_before_later_rows :
  Examples.requests
    (Run.log_of
       (@ColumnUpdater.main Dates.glibc Dates.no_iso unit
          (Examples.stateless Examples.agreeable)
          (Examples.settings false None)
          [Examples.keyed_with "A" "Dependencies" "B"; Examples.keyed "B"]
          (ColumnUpdater.new_jira tt)))
  = ["project FS"; "update A"; "link A B"; "update B"]
  /\ List.map fst
       (Examples.posts
          (Run.log_of
             (@Importer.main nat Examples.steady Examples.live_import
                [Examples.task "A"; Examples.subtask "Design" "B";
                 Examples.task "B"] 0)))
     = ["/rest/api/3/issue"; "/rest/api/3/issue"; "/rest/api/3/issue"].
Proof. split; vm_compute; reflexivity. Qed.


(** What the fields of a row ask of the tracker does not depend on the
    dry-run flag: a dry run over a row that names a component the
    project lacks asks for its creation. *)
Example dry_run_asks_for_components :
  Examples.requests
    (Run.log_of
       (@ColumnUpdater.main Dates.glibc Dates.no_iso unit
          (Examples.stateless Examples.agreeable)
          (Examples.settings true None)
          [Examples.keyed_with "A" "Components" "Deck";
           Examples.keyed_with "B" "Components" "deck"]
          (ColumnUpdater.new_jira tt)))
  = ["project FS"; "components of 10000"; "new component Deck"].
Proof. vm_compute. reflexivity. Qed.

(** C4, as stated, fails.  In the Importer a refused creation ends the
    run: the second task is never posted.  In the ColumnUpdater a search
    that cannot be reached ends the run: the second row is never
    updated. *)
Lemma row_failure_ends_run :
  (Run.result_of
     (@Importer.main nat Examples.refusing Examples.live_import
        [Examples.task "A"; Examples.task "B"] 0)
   = Run.Raise (Importer.SystemExit "Failed to create task 'A'")
   /\ Examples.posts
        (Run.log_of
           (@Importer.main nat Examples.refusing Examples.live_import
              [Examples.task "A"; Examples.task "B"] 0))
      = [("/rest/api/3/issue",
          Some (Importer.Response 400 (Importer.Json None)))])
  /\ (Run.result_of
        (@ColumnUpdater.main Dates.glibc Dates.no_iso unit
           (Examples.stateless Examples.no_search)
           (Examples.settings false None)
           [Examples.named "Build bridge"; Examples.keyed "B"]
           (ColumnUpdater.new_jira tt))
      = Run.Raise ColumnUpdater.ConnectionError
      /\ Examples.requests
           (Run.log_of
              (@ColumnUpdater.main Dates.glibc Dates.no_iso unit
                 (Examples.stateless Examples.no_search)
                 (Examples.settings false None)
                 [Examples.named "Build bridge"; Examples.keyed "B"]
                 (ColumnUpdater.new_jira tt)))
         = ["project FS"; "search"]).
Proof. repeat split; vm_compute; reflexivity. Qed.

(** C5, as stated, fails.  The update of the row is refused and
    reported, and the link of the row is asked for all the same, and
    counted. *)
Lemma link_created_after_failed_update :
  Examples.requests
    (Run.log_of
       (@ColumnUpdater.main Dates.glibc Dates.no_iso unit
          (Examples.stateless Examples.no_update)
          (Examples.settings false None)
          [Examples.keyed_with "A" "Dependencies" "B"]
          (ColumnUpdater.new_jira tt)))
  = ["project FS"; "update A"; "link A B"]
  /\ Examples.printed
       (Run.log_of
          (@ColumnUpdater.main Dates.glibc Dates.no_iso unit
             (Examples.stateless Examples.no_update)
             (Examples.settings false None)
             [Examples.keyed_with "A" "Dependencies" "B"]
             (ColumnUpdater.new_jira tt)))
     = [ColumnUpdater.ErrorUpdating 1 "A" (ColumnUpdater.RuntimeError 400);
        ColumnUpdater.Done 0 1 0 false].
Proof. split; vm_compute; reflexivity. Qed.



(** C9, as stated, fails.  With [--max 1] two rows are processed (both
    are skipped): rows that are skipped do not count towards the cap. *)
Lemma max_does_not_cap_rows :
  Examples.printed
    (Run.log_of
       (@ColumnUpdater.main Dates.glibc Dates.no_iso unit
          (Examples.stateless Examples.agreeable)
          (Examples.settings false (Some 1%Z))
          [Examples.named ""; Examples.named ""]
          (ColumnUpdater.new_jira tt)))
  = [ColumnUpdater.SkipNoKey 1; ColumnUpdater.SkipNoKey 2;
     ColumnUpdater.Done 0 0 2 false].
Proof. vm_compute. reflexivity. Qed.

(** *** The theorems at concrete inputs *)



Lemma update_and_link_failures_are_caught_witness :
  (exists c',
     Run.result_of (Cases.refused_row (Examples.keyed "A") 1 ColumnUpdater.counters0)
     = Run.Ok c'
     /\ Cases.refused_loop [Examples.keyed "A"; Examples.keyed "B"] 1
          ColumnUpdater.counters0 (ColumnUpdater.new_jira tt)
        = (Run.result_of
             (Cases.refused_loop [Examples.keyed "B"] (1 + 1) c'
                (Run.state_of
                   (Cases.refused_row (Examples.keyed "A") 1
                      ColumnUpdater.counters0))),
           Run.state_of
             (Cases.refused_loop [Examples.keyed "B"] (1 + 1) c'
                (Run.state_of
                   (Cases.refused_row (Examples.keyed "A") 1
                      ColumnUpdater.counters0))),
           Run.log_of
             (Cases.refused_row (Examples.keyed "A") 1 ColumnUpdater.counters0)
           ++ Run.log_of
                (Cases.refused_loop [Examples.keyed "B"] (1 + 1) c'
                   (Run.state_of
                      (Cases.refused_row (Examples.keyed "A") 1
                         ColumnUpdater.counters0)))))
  /\ Examples.requests
       (Run.log_of
          (Cases.refused_loop [Examples.keyed "A"; Examples.keyed "B"] 1
             ColumnUpdater.counters0 (ColumnUpdater.new_jira tt)))
     = ["update A"; "update B"]
  /\ Examples.printed
       (Run.log_of
          (Cases.refused_loop [Examples.keyed "A"; Examples.keyed "B"] 1
             ColumnUpdater.counters0 (ColumnUpdater.new_jira tt)))
     = [ColumnUpdater.ErrorUpdating 1 "A" (ColumnUpdater.RuntimeError 400);
        ColumnUpdater.ErrorUpdating 2 "B" (ColumnUpdater.RuntimeError 400)].
Proof.
  split; [|split; vm_compute; reflexivity].
  apply (proj1 (proj2 (proj2 (proj2
    (@update_and_link_failures_are_caught Dates.glibc Dates.no_iso unit
       (Examples.stateless Examples.no_update)
       (Examples.settings false None) [] (ColumnUpdater.new_jira tt)))))).
  - reflexivity.
  - vm_compute. reflexivity.
Defined.

Lemma component_created_once_witness :
  ("10000", "deck")
  ∈ ColumnUpdater.component_creations
      (Run.log_of
         (@ColumnUpdater.build_fields Dates.glibc Dates.no_iso unit
            (Examples.stateless Examples.agreeable)
            (Examples.keyed_with "A" "Components" "Deck") None None
            (Some "10000") (ColumnUpdater.new_jira tt)))
  /\ ColumnUpdater.component_creations
       (Run.log_of
          (@ColumnUpdater.main Dates.glibc Dates.no_iso unit
             (Examples.stateless Examples.agreeable)
             (Examples.settings false None)
             [Examples.keyed_with "A" "Components" "Deck";
              Examples.keyed_with "B" "Components" "deck, DECK"]
             (ColumnUpdater.new_jira tt)))
     = [("10000", "deck")].
Proof.
  split; [|vm_compute; reflexivity].
  change "deck" with (Text.lower "Deck").
  eapply (proj2 (proj2 (proj2 (proj1 (proj2
    (@component_created_once Dates.glibc Dates.no_iso unit
       (Examples.stateless Examples.agreeable)
       (Examples.settings false None) [] (ColumnUpdater.new_jira tt)))
    (Examples.keyed_with "A" "Components" "Deck") None None "10000" "Deck"
    "Deck" _ (ColumnUpdater.new_jira tt) _ _ _)))).
  vm_compute. reflexivity.
  Unshelve.
  - exact (<["components" := JRefs "id" ["id-Deck"]]> ∅).
  - vm_compute. reflexivity.
  - vm_compute. constructor.
  - vm_compute. reflexivity.
Defined.

Lemma links_follow_update_even_failed_witness :
  ColumnUpdater.requests_of
    (Run.log_of
       (@ColumnUpdater.update_row Dates.glibc Dates.no_iso unit
          (Examples.stateless Examples.no_update)
          (Examples.settings false None) (Some "10000") 1
          (Examples.keyed_with "A" "Dependencies" "B, C") "A"
          ColumnUpdater.counters0 (ColumnUpdater.new_jira tt)))
  = [ColumnUpdater.UpdateIssue "A" ∅;
     ColumnUpdater.CreateLink "A" "B"; ColumnUpdater.CreateLink "A" "C"].
Proof.
  refine (eq_trans (proj1
    (@links_follow_update_even_failed Dates.glibc Dates.no_iso unit
       (Examples.stateless Examples.no_update)
       (Examples.settings false None) (Some "10000") 1
       (Examples.keyed_with "A" "Dependencies" "B, C") "A"
       ColumnUpdater.counters0 (ColumnUpdater.new_jira tt)
       (ColumnUpdater.new_jira tt) ∅ [] eq_refl _)) _).
  - vm_compute. reflexivity.
  - vm_compute. reflexivity.
Defined.

Lemma max_caps_updates_witness :
  (ColumnUpdater.updated
     {| ColumnUpdater.updated := 1; ColumnUpdater.linked := 0;
        ColumnUpdater.skipped := 0 |} <= 1)%Z.
Proof.
  apply (proj1
    (@max_caps_updates Dates.glibc Dates.no_iso unit
       (Examples.stateless Examples.agreeable)
       (Examples.settings false (Some 1%Z))
       [Examples.keyed "A"; Examples.keyed "B"]
       (ColumnUpdater.new_jira tt) 1
       {| ColumnUpdater.updated := 1; ColumnUpdater.linked := 0;
          ColumnUpdater.skipped := 0 |}
       eq_refl eq_refl ltac:(vm_compute; reflexivity))).
Defined.


(** ** Strings: trimming and the comma-separated cells *)

Section TextFacts.
Import Text.

Lemma lstrip_head s :
  lstrip s = "" \/ exists c r, lstrip s = String c r /\ isspace c = false.
Proof.
  induction s as [|c r IH]; [by left|].
  cbn. destruct (isspace c) eqn:E; [exact IH|]. right. by exists c, r.
Qed.

Lemma rstrip_cons c r :
  rstrip (String c r)
  = match rstrip r with
    | EmptyString => if isspace c then EmptyString else String c EmptyString
    | r0 => String c r0
    end.
Proof. reflexivity. Qed.

Lemma rstrip_ends s : rstrip s = "" \/ ends_nonspace (rstrip s) = true.
Proof.
  induction s as [|c r IH]; [by left|].
  rewrite rstrip_cons. destruct (rstrip r) as [|c' r'] eqn:E.
  - destruct (isspace c) eqn:Ec; [by left|]. right. cbn. by rewrite Ec.
  - right. destruct IH as [IH|IH]; [done|]. exact IH.
Qed.

Lemma rstrip_idem s : rstrip (rstrip s) = rstrip s.
Proof.
  destruct (rstrip_ends s) as [-> | H]; [done|]. by apply rstrip_fixed.
Qed.

Lemma rstrip_nonspace c r :
  isspace c = false -> exists r', rstrip (String c r) = String c r'.
Proof.
  intros Hc. rewrite rstrip_cons. destruct (rstrip r); rewrite ?Hc; eauto.
Qed.

Lemma strip_head s :
  strip s = "" \/ exists c r, strip s = String c r /\ isspace c = false.
Proof.
  unfold strip. destruct (lstrip_head s) as [-> | (c & r & -> & Hc)]; [by left|].
  right. destruct (rstrip_nonspace c r Hc) as [r' ->]. by exists c, r'.
Qed.

Lemma strip_idem s : strip (strip s) = strip s.
Proof.
  destruct (strip_head s) as [-> | (c & r & E & Hc)]; [done|].
  unfold strip at 1. rewrite E. cbn [lstrip]. rewrite Hc, <- E.
  unfold strip. apply rstrip_idem.
Qed.

Lemma strip_fixed c r :
  isspace c = false -> ends_nonspace (String c r) = true ->
  strip (String c r) = String c r.
Proof.
  intros Hc He. unfold strip. cbn [lstrip]. rewrite Hc. by apply rstrip_fixed.
Qed.

(** The characters of a string. *)
Local Abbreviation chars := list_ascii_of_string.

Lemma lstrip_chars s x : In x (chars (lstrip s)) -> In x (chars s).
Proof.
  induction s as [|c r IH]; [done|]. cbn.
  destruct (isspace c); [by right; apply IH | done].
Qed.

Lemma rstrip_chars s x : In x (chars (rstrip s)) -> In x (chars s).
Proof.
  induction s as [|c r IH]; [done|]. rewrite rstrip_cons.
  destruct (rstrip r) as [|c' r'].
  - destruct (isspace c); cbn; [done | tauto].
  - cbn. intros [->|Hx]; [by left|]. right. apply IH. exact Hx.
Qed.

Lemma strip_chars s x : In x (chars (strip s)) -> In x (chars s).
Proof. intros Hx. by apply lstrip_chars, rstrip_chars. Qed.

Lemma split_comma_cons s : exists h t, split_comma s = h :: t.
Proof.
  induction s as [|c r (h & t & IH)]; [by eexists _, _|].
  cbn. destruct (c =? ",")%char; [by eexists _, _|]. rewrite IH. by eexists _, _.
Qed.

Lemma split_comma_app a b :
  split_comma (a +:+ "," +:+ b) = split_comma a ++ split_comma b.
Proof.
  induction a as [|c r IH]; [done|].
  rewrite append_cons. cbn [split_comma]. rewrite IH.
  destruct (c =? ",")%char; [done|].
  by destruct (split_comma_cons r) as (h & t & ->).
Qed.

Lemma split_comma_chars s p :
  In p (split_comma s) -> ~ In ","%char (chars p).
Proof.
  revert p. induction s as [|c r IH]; intros p.
  - cbn. intros [<-|[]]. cbn. tauto.
  - cbn [split_comma]. destruct (Ascii.eqb_spec c ",") as [->|Hc].
    + intros [<-|Hp]; [cbn; tauto | by apply IH].
    + destruct (split_comma_cons r) as (h & t & E). rewrite E.
      intros [<-|Hp].
      * cbn. intros [?|Hin]; [done|]. apply (IH h); [rewrite E; by left | done].
      * apply IH. rewrite E. by right.
Qed.

Lemma split_comma_plain s :
  ~ In ","%char (chars s) -> split_comma s = [s].
Proof.
  induction s as [|c r IH]; [done|]. cbn. intros Hn.
  destruct (Ascii.eqb_spec c ",") as [->|Hc]; [tauto|].
  rewrite IH by tauto. done.
Qed.

Lemma truthy_true s : truthy s = true <-> s <> "".
Proof.
  unfold truthy. destruct (String.eqb_spec s ""); split; cbn; congruence.
Qed.

Lemma tokens_word t :
  t <> "" -> strip t = t -> ~ In ","%char (chars t) -> tokens t = [t].
Proof.
  intros Hne Hs Hc. unfold tokens. rewrite split_comma_plain by done.
  cbn. rewrite Hs. by rewrite (proj2 (truthy_true t) Hne).
Qed.

Lemma tokens_elem s t :
  In t (tokens s) ->
  t <> "" /\ strip t = t /\ ~ In ","%char (chars t).
Proof.
  unfold tokens. rewrite filter_In, in_map_iff.
  intros [(p & <- & Hp) Ht]. split; [by apply truthy_true|].
  split; [apply strip_idem|].
  intros Hin. apply (split_comma_chars s p Hp). by apply strip_chars.
Qed.

Lemma tokens_app a b : tokens (a +:+ "," +:+ b) = tokens a ++ tokens b.
Proof.
  unfold tokens. by rewrite split_comma_app, List.map_app, List.filter_app.
Qed.

End TextFacts.

(** X1. The names read from a comma-separated cell (labels, components,
    versions, dependencies) are never empty, carry no white space at
    either end and no comma, and each of them is read back as itself. *)
Theorem tokens_are_trimmed_words (s : string) :
  Forall (fun t => t <> ""
                   /\ Text.strip t = t
                   /\ ~ In ","%char (list_ascii_of_string t)
                   /\ Text.tokens t = [t])
         (Text.tokens s).
Proof.
  apply List.Forall_forall. intros t Ht.
  destruct (tokens_elem s t Ht) as (Hne & Hs & Hc).
  repeat split; try done. by apply tokens_word.
Qed.

(** X2. A cell is cut at every comma: the names of [a,b] are those of
    [a] followed by those of [b]; a cell without a comma gives its
    trimmed text, or nothing when that is empty. *)
Theorem tokens_split_at_commas (a b : string) :
  Text.tokens (a +:+ "," +:+ b) = Text.tokens a ++ Text.tokens b
  /\ (~ In ","%char (list_ascii_of_string a) ->
      Text.tokens a
      = if Text.truthy (Text.strip a) then [Text.strip a] else []).
Proof.
  split; [apply tokens_app|].
  intros Hc. unfold Text.tokens. by rewrite split_comma_plain.
Qed.

(** ** Dates: what the Importer accepts *)

Section CleanDateFacts.
Import Text Dates Importer.
Local Open Scope N_scope.

Lemma is_digit_not_space c : is_digit c = true -> isspace c = false.
Proof.
  unfold is_digit, isspace. intros H.
  apply andb_prop in H as [H1 H2]. apply N.leb_le in H1, H2.
  repeat match goal with
         | |- context [?a <=? ?b] => destruct (N.leb_spec a b)
         | |- context [?a =? ?b] => destruct (N.eqb_spec a b)
         end; try reflexivity; lia.
Qed.

Lemma strip_yyyy_mm_dd s : is_yyyy_mm_dd s = true -> strip s = s.
Proof.
  intros H. unfold is_yyyy_mm_dd in H.
  repeat match type of H with
         | match ?x with _ => _ end = true =>
             destruct x as [|? ?]; try discriminate H
         end.
  repeat (apply andb_prop in H; destruct H as [H ?]).
  apply strip_fixed.
  - apply is_digit_not_space. unfold is_digit.
    by apply andb_true_intro.
  - cbn. by rewrite is_digit_not_space.
Qed.

Lemma truthy_yyyy_mm_dd s : is_yyyy_mm_dd s = true -> truthy s = true.
Proof. by destruct s. Qed.

Lemma clean_date_fixed o :
  clean_date (Some o) = Some o <-> is_yyyy_mm_dd o = true.
Proof.
  unfold clean_date. split.
  - destruct (truthy o); cbn [negb]; [|done].
    destruct (is_yyyy_mm_dd (strip o)) eqn:E; [|done].
    intros [= Ho]. by rewrite Ho in E.
  - intros H. rewrite (truthy_yyyy_mm_dd o H). cbn [negb].
    by rewrite (strip_yyyy_mm_dd o H), H.
Qed.

Lemma clean_date_shape v o : clean_date v = Some o -> is_yyyy_mm_dd o = true.
Proof.
  unfold clean_date. destruct v as [v|]; [|done].
  destruct (truthy v); cbn [negb]; [|done].
  destruct (is_yyyy_mm_dd (strip v)) eqn:E; [|done]. by intros [= <-].
Qed.

Lemma lstrip_length s : (String.length (lstrip s) <= String.length s)%nat.
Proof.
  induction s as [|c r IH]; [done|]. cbn. destruct (isspace c); cbn; lia.
Qed.

Lemma rstrip_length s : (String.length (rstrip s) <= String.length s)%nat.
Proof.
  induction s as [|c r IH]; [done|]. cbn [rstrip].
  destruct (rstrip r) as [|c' r'].
  - destruct (isspace c); cbn; lia.
  - cbn in *. lia.
Qed.

Lemma strip_length s : (String.length (strip s) <= String.length s)%nat.
Proof.
  unfold strip. pose proof (rstrip_length (lstrip s)).
  pose proof (lstrip_length s). lia.
Qed.

Lemma is_yyyy_mm_dd_length s :
  is_yyyy_mm_dd s = true -> String.length s = 10%nat.
Proof.
  intros H. unfold is_yyyy_mm_dd in H.
  repeat match type of H with
         | match ?x with _ => _ end = true =>
             destruct x as [|? ?]; try discriminate H
         end.
  reflexivity.
Qed.

Lemma strftime_short_length `{Platform} dt :
  full_year dt = false -> (String.length (strftime dt DATE_FMT) <= 9)%nat.
Proof.
  intros Hshort.
  pose proof (date_bounds dt) as (By & Bm & Bd).
  rewrite strftime_DATE_FMT.
  destruct (year_text_short dt Hshort) as (c & r & Hr & ->).
  destruct (pad2_digits (month dt)) as (e & f & ? & ? & ->); [lia|].
  destruct (pad2_digits (day dt)) as (g & h & ? & ? & ->); [lia|].
  destruct r as [|c1 [|c2 [|c3 r]]];
    rewrite ?append_cons, ?append_empty; cbn [String.length] in *; lia.
Qed.

End CleanDateFacts.

(** X3. [clean_date] checks the shape only: it gives back exactly the
    strings of four digits, a dash, two digits, a dash and two digits
    (a date of the calendar or not), trimmed, and nothing else; applied
    to its own result it changes nothing. *)
Theorem clean_date_keeps_shaped_strings (v : option string) (o : string) :
  Importer.clean_date (Importer.clean_date v) = Importer.clean_date v
  /\ (Importer.clean_date (Some o) = Some o <-> Dates.is_yyyy_mm_dd o = true)
  /\ match Importer.clean_date v with
     | Some d => Dates.is_yyyy_mm_dd d = true
                 /\ exists x, v = Some x /\ d = Text.strip x
     | None => True
     end.
Proof.
  split; [|split].
  - destruct (Importer.clean_date v) as [d|] eqn:E; [|done].
    apply clean_date_fixed. by apply (clean_date_shape v).
  - apply clean_date_fixed.
  - destruct (Importer.clean_date v) as [d|] eqn:E; [|done].
    split; [by apply (clean_date_shape v)|].
    unfold Importer.clean_date in E. destruct v as [x|]; [|done].
    exists x. split; [done|].
    destruct (Text.truthy x); cbn [negb] in E; [|done].
    destruct (Dates.is_yyyy_mm_dd (Text.strip x)); by simplify_eq.
Qed.

(** X4. What [normalize_date] of the ColumnUpdater returns is the text
    of a date, and [clean_date] of the Importer takes that text as it is
    exactly when the year is written in full, that is on four digits:
    always on a platform whose [strftime] zero-fills the year, from the
    year 1000 on elsewhere.  The text of an earlier year written
    unfilled is refused by [clean_date]. *)
Theorem clean_date_accepts_normalized `{Dates.Platform} `{Dates.IsoParser}
    (s : string) :
  match Dates.normalize_date s with
  | Some o =>
      exists dt, o = Dates.strftime dt Dates.DATE_FMT
        /\ Importer.clean_date (Some o)
           = if Dates.full_year dt then Some o else None
  | None => Importer.clean_date None = None
  end.
Proof.
  destruct (Dates.normalize_date s) as [o|] eqn:E; [|done].
  destruct (normalize_date_writes s o E) as [dt ->].
  exists dt. split; [done|].
  destruct (Dates.full_year dt) eqn:Hfull.
  - apply clean_date_fixed. by apply is_yyyy_mm_dd_strftime.
  - unfold Importer.clean_date.
    destruct (Text.truthy _); cbn [negb]; [|done].
    destruct (Dates.is_yyyy_mm_dd (Text.strip _)) eqn:Es; [|done].
    apply is_yyyy_mm_dd_length in Es.
    pose proof (strip_length (Dates.strftime dt Dates.DATE_FMT)).
    pose proof (strftime_short_length dt Hfull). lia.
Qed.

(** ** Dates: the order of day and month *)

Section DayFirstFacts.
Import Text Dates.
Local Open Scope N_scope.
Context `{Platform}.

Lemma append_nil_r s : s +:+ "" = s.
Proof. induction s as [|c r IH]; [done|]. by rewrite append_cons, IH. Qed.

(** A text that starts and ends with a digit and is no word for an
    absent value goes to the formats as it is. *)
Lemma normalize_date_digits `{IsoParser} c r :
  is_digit c = true -> ends_nonspace (String c r) = true ->
  normalize_date (String c r)
  = match first_some (strptime (String c r)) fmts with
    | Some dt => Some (strftime dt DATE_FMT)
    | None =>
        match fromisoformat (String c r) with
        | Some dt => Some (strftime dt DATE_FMT)
        | None => None
        end
    end.
Proof.
  intros Hc He. unfold normalize_date.
  rewrite (strip_fixed c r) by (by try apply is_digit_not_space).
  cbn [truthy String.eqb negb orb].
  rewrite bool_decide_eq_false_2; [done|].
  unfold absent_words. cbn [lower]. intros Hin. set_unfold in Hin.
  assert (lower_char c <> "n"%char) as Hn.
  { unfold lower_char, is_digit in *. intros E.
    apply andb_prop in Hc as [H1 H2]. apply N.leb_le in H1, H2.
    destruct (_ || _) eqn:Eb.
    - apply orb_prop in Eb as [Eb|Eb];
        repeat (apply andb_prop in Eb; destruct Eb as [Eb ?]);
        apply N.leb_le in Eb; lia.
    - subst c. vm_compute in H2. done. }
  destruct Hin as [Hin|[Hin|[Hin|Hin]]]; try done; by injection Hin.
Qed.

Lemma strptime_year_first_fails a b sep r fmt :
  is_digit sep = false ->
  strptime (String a (String b (String sep r))) (String "%" (String "Y" fmt)) = None.
Proof.
  intros Hs. unfold strptime. cbn [compile_format].
  change ("Y" =? "Y")%char with true. cbv iota.
  destruct (compile_format fmt) as [ps|]; [|done].
  cbn [re_match alts alts_Y]. destruct r; [done|].
  by rewrite Hs, !andb_false_r.
Qed.

Lemma strptime_day_first dt :
  exists dt',
    strptime (pad2 (day dt) +:+ String "/" (pad2 (month dt)
                +:+ String "/" (pad4 (year dt)))) "%d/%m/%Y"
    = Some dt'
    /\ strftime dt' DATE_FMT = strftime dt DATE_FMT.
Proof.
  destruct (make_date_valid dt) as (dt' & Hmk & Hy & Hm & Hd).
  pose proof (date_bounds dt) as (By & Bm & Bd).
  exists dt'. split.
  - unfold strptime.
    change (compile_format "%d/%m/%Y") with (Some [Pd; Lit "/"; Pm; Lit "/"; PY]).
    cbn [re_match alts].
    destruct (alts_d_pad2 (day dt)
                (String "/" (pad2 (month dt) +:+ String "/" (pad4 (year dt)))) Bd)
      as [tl ->].
    cbn [List.map first_some re_match alts]. rewrite Ascii.eqb_refl.
    cbn [first_some].
    destruct (alts_m_pad2 (month dt) (String "/" (pad4 (year dt))) Bm) as [tl' ->].
    cbn [List.map first_some re_match alts]. rewrite Ascii.eqb_refl.
    cbn [first_some].
    rewrite <- (append_nil_r (pad4 (year dt))), alts_Y_pad4 by lia.
    cbn [List.map first_some re_match fY fm fd]. exact Hmk.
  - rewrite !strftime_DATE_FMT. congruence.
Qed.

Lemma strptime_month_first dt :
  exists dt',
    strptime (pad2 (month dt) +:+ String "/" (pad2 (day dt)
                +:+ String "/" (pad4 (year dt)))) "%m/%d/%Y"
    = Some dt'
    /\ strftime dt' DATE_FMT = strftime dt DATE_FMT.
Proof.
  destruct (make_date_valid dt) as (dt' & Hmk & Hy & Hm & Hd).
  pose proof (date_bounds dt) as (By & Bm & Bd).
  exists dt'. split.
  - unfold strptime.
    change (compile_format "%m/%d/%Y") with (Some [Pm; Lit "/"; Pd; Lit "/"; PY]).
    cbn [re_match alts].
    destruct (alts_m_pad2 (month dt)
                (String "/" (pad2 (day dt) +:+ String "/" (pad4 (year dt)))) Bm)
      as [tl ->].
    cbn [List.map first_some re_match alts]. rewrite Ascii.eqb_refl.
    cbn [first_some].
    destruct (alts_d_pad2 (day dt) (String "/" (pad4 (year dt))) Bd) as [tl' ->].
    cbn [List.map first_some re_match alts]. rewrite Ascii.eqb_refl.
    cbn [first_some].
    rewrite <- (append_nil_r (pad4 (year dt))), alts_Y_pad4 by lia.
    cbn [List.map first_some re_match fY fm fd]. exact Hmk.
  - rewrite !strftime_DATE_FMT. congruence.
Qed.

Ltac enum_small m :=
  destruct m as [|m]; [lia|];
  repeat (destruct m as [m|m|]; try lia).

(** With a second number above 12 the text cannot be day/month, with
    either separator. *)
Lemma strptime_day_first_fails m d r :
  1 <= m <= 12 -> 13 <= d <= 31 ->
  strptime (pad2 m +:+ String "/" (pad2 d +:+ String "/" r)) "%d/%m/%Y" = None
  /\ strptime (pad2 m +:+ String "/" (pad2 d +:+ String "/" r)) "%d-%m-%Y" = None.
Proof.
  intros Hm Hd. enum_small m; enum_small d; vm_compute; done.
Qed.

End DayFirstFacts.

(** X5. A date written dd/mm/yyyy is read with the day first: for every
    date of the calendar, its text in that order is normalised to its
    text yyyy-mm-dd.  So 04/03/2025 is the fourth of March, never the
    third of April. *)
Theorem slashed_date_is_read_day_first `{Dates.Platform} `{Dates.IsoParser}
    (dt : Dates.date) :
  Dates.normalize_date
    (Dates.pad2 (Dates.day dt) +:+ String "/" (Dates.pad2 (Dates.month dt)
       +:+ String "/" (Dates.pad4 (Dates.year dt))))
  = Some (Dates.strftime dt Dates.DATE_FMT).
Proof.
  pose proof (date_bounds dt) as (By & Bm & Bd).
  destruct (strptime_day_first dt) as (dt' & Hp & Hf).
  destruct (pad2_digits (Dates.day dt)) as (a & b & Ha & Hb & Ed); [lia|].
  destruct (pad2_digits (Dates.month dt)) as (c & d & Hc & Hd & Em); [lia|].
  destruct (pad4_digits (Dates.year dt))
    as (e & f & g & h & He & Hf' & Hg & Hh & Ey); [lia|].
  rewrite Ed, Em, Ey in Hp |- *.
  rewrite !append_cons, !append_empty in Hp |- *.
  rewrite normalize_date_digits.
  2:{ by apply is_digit_digit_char. }
  2:{ cbn. by rewrite isspace_digit_char. }
  unfold Dates.fmts. cbn [Dates.first_some].
  rewrite strptime_year_first_fails by done.
  by rewrite Hp, Hf.
Qed.

(** X6. A date written mm/dd/yyyy is read with the month first only
    when it cannot be read with the day first: when its day is above
    12. *)
Theorem slashed_date_is_read_month_first `{Dates.Platform} `{Dates.IsoParser}
    (dt : Dates.date) :
  (12 < Dates.day dt)%N ->
  Dates.normalize_date
    (Dates.pad2 (Dates.month dt) +:+ String "/" (Dates.pad2 (Dates.day dt)
       +:+ String "/" (Dates.pad4 (Dates.year dt))))
  = Some (Dates.strftime dt Dates.DATE_FMT).
Proof.
  intros Hday.
  pose proof (date_bounds dt) as (By & Bm & Bd).
  destruct (strptime_month_first dt) as (dt' & Hp & Hf).
  destruct (strptime_day_first_fails (Dates.month dt) (Dates.day dt)
              (Dates.pad4 (Dates.year dt))) as [F1 F2]; [lia | lia |].
  destruct (pad2_digits (Dates.day dt)) as (a & b & Ha & Hb & Ed); [lia|].
  destruct (pad2_digits (Dates.month dt)) as (c & d & Hc & Hd & Em); [lia|].
  destruct (pad4_digits (Dates.year dt))
    as (e & f & g & h & He & Hf' & Hg & Hh & Ey); [lia|].
  rewrite Ed, Em, Ey in Hp, F1, F2 |- *.
  rewrite !append_cons, !append_empty in Hp, F1, F2 |- *.
  rewrite normalize_date_digits.
  2:{ by apply is_digit_digit_char. }
  2:{ cbn. by rewrite isspace_digit_char. }
  unfold Dates.fmts. cbn [Dates.first_some].
  rewrite strptime_year_first_fails by done.
  by rewrite F1, F2, Hp, Hf.
Qed.

Lemma slashed_date_is_read_month_first_witness :
  @Dates.normalize_date Dates.glibc Dates.no_iso
    (Dates.pad2 (Dates.month Cases.lady_day)
       +:+ String "/" (Dates.pad2 (Dates.day Cases.lady_day)
       +:+ String "/" (Dates.pad4 (Dates.year Cases.lady_day))))
  = Some (@Dates.strftime Dates.glibc Cases.lady_day Dates.DATE_FMT).
Proof.
  apply (@slashed_date_is_read_month_first Dates.glibc Dates.no_iso
           Cases.lady_day).
  by vm_compute.
Defined.

(** ** Importer: the wipe of the project *)

Section WipeFacts.
Import Text Run Run.Notations Wipe.
Context {S : Type} `{Site S}.
Local Abbreviation M := (Run.M S event exn).

Lemma jira_get_run r (s : S) :
  jira_get r s
  = match site_answer r s with
    | (RequestException, s') => (Raise RequestError, s', [Sent r RequestException])
    | (Response code b, s') =>
        (match b with
         | NotJson => Raise JSONDecodeError
         | _ => Ok (code, b)
         end, s',
         Sent r (Response code b)
         :: (if (400 <=? code)%Z then [Printed (GetError code)] else []))
    end.
Proof.
  unfold jira_get, send, bind. destruct (site_answer r s) as [[code b|] s'].
  - destruct (400 <=? code)%Z; destruct b; reflexivity.
  - reflexivity.
Qed.

Lemma jira_delete_run path (s : S) :
  jira_delete path false s
  = match site_answer (Delete path) s with
    | (RequestException, s') =>
        (Raise RequestError, s', [Sent (Delete path) RequestException])
    | (Response code b, s') =>
        (Ok code, s',
         Sent (Delete path) (Response code b)
         :: (if (400 <=? code)%Z then [Printed (DeleteError code)] else []))
    end.
Proof.
  unfold jira_delete, send, bind.
  destruct (site_answer (Delete path) s) as [[code b|] s'].
  - destruct (400 <=? code)%Z; reflexivity.
  - reflexivity.
Qed.

Lemma search_loop_step fuel jql fields max start issues (s : S) :
  search_loop (Datatypes.S fuel) jql fields max start issues s
  = bind (jira_get (SearchPage jql start max fields))
      (fun r =>
         let '(code, resp) := r in
         if negb (code =? 200)%Z then
           raise (SystemExit ("Failed to search issues with JQL: " +:+ jql))
         else
           match resp with
           | Json batch total =>
               match batch with
               | [] => ret issues
               | _ =>
                   if (total <=? Z.of_nat (start + length batch))%Z
                   then ret (issues ++ batch)
                   else search_loop fuel jql fields max
                          (start + length batch) (issues ++ batch)
               end
           | _ => raise AttributeError
           end) s.
Proof. reflexivity. Qed.

(** Against a site that serves the list [all] page by page, each page
    of a size of its own choice, the search returns [all]. *)
Lemma search_loop_honest jql fields max (all : list (option string)) :
  (forall start s, exists q s',
      (0 < q)%nat
      /\ site_answer (SearchPage jql start max fields) s
         = (Response 200 (Json (take q (drop start all))
                               (Z.of_nat (length all))), s')) ->
  forall fuel start (s : S),
    (start <= length all)%nat -> (length all - start < fuel)%nat ->
    result_of (search_loop fuel jql fields max start (take start all) s) = Ok all.
Proof.
  intros Hsite fuel. induction fuel as [|fuel IH]; intros start s Hle Hfuel; [lia|].
  rewrite search_loop_step, bind_run, jira_get_run.
  destruct (Hsite start s) as (q & s' & Hq & ->).
  cbn [negb Z.eqb Pos.eqb].
  destruct (take q (drop start all)) as [|x batch] eqn:Eb.
  - cbn. f_equal.
    assert (drop start all = []) as Hd.
    { destruct (drop start all); [done|]. destruct q; [lia|]. done. }
    apply (f_equal length) in Hd. rewrite length_drop in Hd.
    cbn in Hd. apply take_ge. lia.
  - rewrite <- Eb.
    assert (Hlen : (0 < length (take q (drop start all)))%nat)
      by (rewrite Eb; cbn; lia).
    assert (Happ : take start all ++ take q (drop start all)
                   = take (start + length (take q (drop start all))) all).
    { rewrite take_take_drop, length_take, length_drop.
      destruct (Nat.min_spec q (length all - start)) as [[? ->]|[? ->]]; [done|].
      rewrite !take_ge; [done| |]; lia. }
    assert (Hin : (start + length (take q (drop start all)) <= length all)%nat).
    { rewrite length_take, length_drop. lia. }
    destruct (Z.leb_spec (Z.of_nat (length all))
                (Z.of_nat (start + length (take q (drop start all))))) as [Hz|Hz].
    + cbn. f_equal. rewrite Eb. rewrite <- Eb, Happ. apply take_ge. lia.
    + rewrite Eb. rewrite <- Eb. rewrite Happ.
      cbn [result_of fst]. apply IH; lia.
Qed.

Lemma deletes_of_app l1 l2 : deletes_of (l1 ++ l2) = deletes_of l1 ++ deletes_of l2.
Proof. apply List.flat_map_app. Qed.

Lemma dry_run_deletes_app l1 l2 :
  dry_run_deletes (l1 ++ l2) = dry_run_deletes l1 ++ dry_run_deletes l2.
Proof. apply List.flat_map_app. Qed.

Lemma pages_of_app l1 l2 : pages_of (l1 ++ l2) = pages_of l1 ++ pages_of l2.
Proof. apply List.flat_map_app. Qed.

(** A search deletes nothing, and it returns only when every page was
    answered with status 200. *)
Lemma search_loop_log fuel jql fields max start issues (s : S) :
  deletes_of (log_of (search_loop fuel jql fields max start issues s)) = []
  /\ dry_run_deletes (log_of (search_loop fuel jql fields max start issues s)) = []
  /\ forall found,
       result_of (search_loop fuel jql fields max start issues s) = Ok found ->
       Forall (fun a => exists b, a = Response 200 b)
              (pages_of (log_of (search_loop fuel jql fields max start issues s))).
Proof.
  revert start issues s.
  induction fuel as [|fuel IH]; intros start issues s; [by repeat split|].
  rewrite search_loop_step, bind_run, jira_get_run.
  destruct (site_answer _ s) as [[code b|] s']; [|by repeat split].
  remember (if (400 <=? code)%Z then [Printed (GetError code)] else []) as pr.
  assert (deletes_of pr = [] /\ dry_run_deletes pr = [] /\ pages_of pr = [])
    as (Hd & Hy & Hp) by (subst pr; by destruct (400 <=? code)%Z).
  clear Heqpr.
  assert (Hlog : forall l,
            deletes_of ((Sent (SearchPage jql start max fields) (Response code b)
                         :: pr) ++ l) = deletes_of l
            /\ dry_run_deletes ((Sent (SearchPage jql start max fields)
                                   (Response code b) :: pr) ++ l)
               = dry_run_deletes l
            /\ pages_of ((Sent (SearchPage jql start max fields) (Response code b)
                          :: pr) ++ l) = Response code b :: pages_of l).
  { intros l. change ((?x :: pr) ++ l) with ([x] ++ pr ++ l).
    rewrite !deletes_of_app, !dry_run_deletes_app, !pages_of_app, Hd, Hy, Hp.
    done. }
  destruct b as [| |batch total].
  - cbn [result_of log_of state_of fst snd].
    rewrite <- (app_nil_r (_ :: pr)). destruct (Hlog []) as (-> & -> & _).
    by repeat split.
  - destruct (code =? 200)%Z; unfold raise;
      cbn [negb result_of log_of state_of fst snd];
      destruct (Hlog []) as (-> & -> & _); by repeat split.
  - destruct (Z.eqb_spec code 200) as [->|Hne]; cbn [negb].
    2:{ unfold raise; cbn [negb result_of log_of state_of fst snd].
        destruct (Hlog []) as (-> & -> & _). by repeat split. }
    destruct batch as [|x batch].
    { unfold ret; cbn [negb result_of log_of state_of fst snd].
      destruct (Hlog []) as (-> & -> & ->). repeat split; try done.
      intros _ _. cbn. repeat constructor. by eexists. }
    destruct (_ <=? _)%Z.
    { unfold ret; cbn [negb result_of log_of state_of fst snd].
      destruct (Hlog []) as (-> & -> & ->). repeat split; try done.
      intros _ _. cbn. repeat constructor. by eexists. }
    cbn [result_of log_of state_of fst snd].
    destruct (Hlog (log_of (search_loop fuel jql fields max
                              (start + length (x :: batch))
                              (issues ++ x :: batch) s'))) as (-> & -> & ->).
    destruct (IH (start + length (x :: batch))%nat (issues ++ x :: batch) s')
      as (IH1 & IH2 & IH3).
    repeat split; try done.
    intros found Hf. constructor; [by eexists | by apply (IH3 found)].
Qed.

Lemma delete_issue_live total k i (s : S) :
  exists pr,
    deletes_of pr = [] /\ pages_of pr = []
    /\ delete_issue false total (Some k) i s
       = match site_answer (Delete (delete_path k)) s with
         | (RequestException, s') =>
             (Raise RequestError, s', [Sent (Delete (delete_path k)) RequestException])
         | (Response code b, s') =>
             (Ok (Datatypes.S i), s',
              Sent (Delete (delete_path k)) (Response code b) :: pr)
         end.
Proof.
  unfold delete_issue. rewrite bind_run. unfold ret at 1.
  cbn [result_of log_of state_of fst snd]. rewrite bind_run, jira_delete_run.
  destruct (site_answer _ s) as [[code b|] s']; [|by exists []].
  destruct (400 <=? code)%Z;
    destruct ((i =? 1)%nat || (i mod 10 =? 0)%nat || (i =? total)%nat);
    eexists; (split; [|split; [|reflexivity]]); reflexivity.
Qed.

Lemma delete_issue_dry total k i (s : S) :
  exists pr,
    deletes_of pr = [] /\ pages_of pr = [] /\ dry_run_deletes pr = []
    /\ delete_issue true total (Some k) i s
       = (Ok (Datatypes.S i), s, DryRunDelete (delete_path k) :: pr).
Proof.
  unfold delete_issue, jira_delete, bind, ret, tell.
  destruct ((i =? 1)%nat || (i mod 10 =? 0)%nat || (i =? total)%nat);
    eexists; (split; [|split; [|split; [|reflexivity]]]); reflexivity.
Qed.

Lemma delete_issue_keyless dry total i (s : S) :
  delete_issue dry total None i s = (Raise (KeyError "key"), s, []).
Proof. reflexivity. Qed.

(** The live loop: the issues deleted are a first part of the list, and
    the whole list when the loop ends. *)
Lemma delete_loop_live total issues i (s : S) :
  exists keys rest,
    issues = List.map Some keys ++ rest
    /\ deletes_of (log_of (for_each (delete_issue false total) issues i s))
       = List.map delete_path keys
    /\ pages_of (log_of (for_each (delete_issue false total) issues i s)) = []
    /\ (forall n, result_of (for_each (delete_issue false total) issues i s) = Ok n ->
        rest = []).
Proof.
  revert i s. induction issues as [|issue issues IH]; intros i s.
  - by exists [], [].
  - cbn [for_each]. rewrite bind_run. destruct issue as [k|].
    2:{ rewrite delete_issue_keyless. exists [], (None :: issues).
        by repeat split. }
    destruct (delete_issue_live total k i s) as (pr & Hd & Hp & ->).
    destruct (site_answer _ s) as [[code b|] s'].
    + destruct (IH (Datatypes.S i) s') as (keys & rest & -> & Hdel & Hpg & Hrest).
      exists (k :: keys), rest. cbn [result_of log_of state_of fst snd].
      change ((?x :: pr) ++ ?l) with ([x] ++ pr ++ l).
      rewrite !deletes_of_app, !pages_of_app, Hd, Hp, Hdel, Hpg.
      by repeat split.
    + exists [k], issues. by repeat split.
Qed.

(** The live loop ends when every issue has a key and every DELETE is
    answered, with whatever status. *)
Lemma delete_loop_ends total issues i (s : S) :
  (forall path s', (site_answer (Delete path) s').1 <> RequestException) ->
  Forall is_Some issues ->
  exists n, result_of (for_each (delete_issue false total) issues i s) = Ok n.
Proof.
  intros Hsite Hkeys. revert i s.
  induction Hkeys as [|issue issues [k ->] _ IH]; intros i s; [by eexists|].
  cbn [for_each]. rewrite bind_run.
  destruct (delete_issue_live total k i s) as (pr & _ & _ & ->).
  pose proof (Hsite (delete_path k) s) as Hs.
  destruct (site_answer _ s) as [[code b|] s']; [|done].
  cbn [result_of fst]. apply IH.
Qed.

(** The dry loop sends nothing and prints one line for each issue. *)
Lemma delete_loop_dry total issues i (s : S) :
  deletes_of (log_of (for_each (delete_issue true total) issues i s)) = []
  /\ pages_of (log_of (for_each (delete_issue true total) issues i s)) = []
  /\ state_of (for_each (delete_issue true total) issues i s) = s
  /\ forall keys, issues = List.map Some keys ->
       dry_run_deletes (log_of (for_each (delete_issue true total) issues i s))
       = List.map delete_path keys
       /\ exists n, result_of (for_each (delete_issue true total) issues i s) = Ok n.
Proof.
  revert i. induction issues as [|issue issues IH]; intros i.
  - do 3 (split; [done|]). intros [|] ?; [|done]. split; [done | by eexists].
  - cbn [for_each]. rewrite bind_run. destruct issue as [k|].
    2:{ rewrite delete_issue_keyless. do 3 (split; [done|]). by intros [|]. }
    destruct (delete_issue_dry total k i s) as (pr & Hd & Hp & Hy & ->).
    destruct (IH (Datatypes.S i)) as (IH1 & IH2 & IH3 & IH4).
    cbn [result_of log_of state_of fst snd].
    change ((?x :: pr) ++ ?l) with ([x] ++ pr ++ l).
    rewrite !deletes_of_app, !pages_of_app, !dry_run_deletes_app, Hd, Hp, Hy, IH1, IH2.
    do 3 (split; [done|]).
    intros [|k' keys] [= -> ->]. destruct (IH4 keys eq_refl) as [-> Hn].
    split; [done | exact Hn].
Qed.

Lemma wipe_project_run fuel project_key dry (s : S) :
  wipe_project fuel project_key dry s
  = match search_issues fuel ("project = " +:+ project_key) "key" 100 s with
    | (Raise e, s1, l1) => (Raise e, s1, Printed (Searching project_key) :: l1)
    | (Ok [], s1, l1) =>
        (Ok tt, s1, Printed (Searching project_key) :: l1 ++ [Printed NoIssuesFound])
    | (Ok issues, s1, l1) =>
        let r := for_each (delete_issue dry (length issues)) issues 1%nat s1 in
        (match result_of r with Ok _ => Ok tt | Raise e => Raise e end,
         state_of r,
         Printed (Searching project_key)
         :: l1 ++ Printed (Deleting (length issues) project_key)
         :: log_of r ++ match result_of r with
                        | Ok _ => [Printed WipeComplete]
                        | Raise _ => []
                        end)
    end.
Proof.
  unfold wipe_project, bind, tell.
  destruct (search_issues _ _ _ _ s) as [[[issues|e] s1] l1]; [|done].
  destruct issues as [|x issues]; [done|].
  cbv zeta.
  destruct (for_each _ _ _ s1) as [[[n|e] s2] l2]; cbn; by rewrite ?app_nil_r.
Qed.

End WipeFacts.

(** X7. Against a site that holds the issues [all] and serves them page
    by page, each page as long as the site likes but not empty before
    the end, and states their number as the total, [search_issues]
    returns every issue, once and in order.  The loop runs on fuel:
    more fuel than there are issues is enough. *)
Theorem search_issues_lists_every_issue {St : Type} `{Wipe.Site St}
    (jql fields : string) (max_per_page : nat) (all : list (option string))
    (fuel : nat) (s : St) :
  (forall start s0, exists q s1,
      (0 < q)%nat
      /\ Wipe.site_answer (Wipe.SearchPage jql start max_per_page fields) s0
         = (Wipe.Response 200
              (Wipe.Json (take q (drop start all)) (Z.of_nat (length all))), s1)) ->
  (length all < fuel)%nat ->
  Run.result_of (Wipe.search_issues fuel jql fields max_per_page s) = Run.Ok all.
Proof.
  intros Hsite Hfuel. unfold Wipe.search_issues.
  change (@nil (option string)) with (take 0 all).
  apply search_loop_honest; [done | lia | lia].
Qed.

Lemma search_issues_lists_every_issue_witness :
  Run.result_of
    (@Wipe.search_issues unit (Cases.listing Cases.three_issues 2 204)
       4 "project = FS" "key" 100 tt)
  = Run.Ok Cases.three_issues.
Proof.
  apply (@search_issues_lists_every_issue unit (Cases.listing Cases.three_issues 2 204)).
  - intros start []. exists 2%nat, tt. split; [lia | reflexivity].
  - cbn. lia.
Defined.

(** X8. A live wipe asks for the deletion of the issues that the search
    found, each once and in the order found, and of nothing else; a
    wipe that an exception ends has asked for a first part of them.  A
    deletion that is refused, with whatever status, does not stop it:
    the wipe goes through the whole list whenever every issue has a key
    and every DELETE gets an answer. *)
Theorem wipe_deletes_every_issue_found {St : Type} `{Wipe.Site St}
    (fuel : nat) (project_key : string) (s s1 : St)
    (issues : list (option string)) (l1 : list Wipe.event) :
  Wipe.search_issues fuel ("project = " +:+ project_key) "key" 100 s
  = (Run.Ok issues, s1, l1) ->
  (exists keys rest,
      issues = List.map Some keys ++ rest
      /\ Wipe.deletes_of (Run.log_of (Wipe.wipe_project fuel project_key false s))
         = List.map Wipe.delete_path keys
      /\ (Run.result_of (Wipe.wipe_project fuel project_key false s) = Run.Ok tt ->
          rest = []))
  /\ ((forall path s', (Wipe.site_answer (Wipe.Delete path) s').1
                       <> Wipe.RequestException) ->
      Forall is_Some issues ->
      Run.result_of (Wipe.wipe_project fuel project_key false s) = Run.Ok tt).
Proof.
  intros Hsearch. rewrite wipe_project_run, Hsearch.
  pose proof (search_loop_log fuel ("project = " +:+ project_key) "key" 100 0 [] s)
    as (Hd & _ & _).
  fold (Wipe.search_issues fuel ("project = " +:+ project_key) "key" 100) in Hd.
  rewrite Hsearch in Hd. cbn [Run.log_of snd] in Hd.
  destruct issues as [|x issues].
  - split; [|done]. exists [], []. cbn [Run.result_of Run.log_of fst snd].
    change (?x :: l1 ++ ?l) with ([x] ++ l1 ++ l).
    rewrite !deletes_of_app, Hd. done.
  - cbv zeta. cbn [Run.result_of Run.log_of Run.state_of fst snd].
    split.
    + destruct (delete_loop_live (length (x :: issues)) (x :: issues) 1 s1)
        as (keys & rest & E & Hdel & _ & Hrest).
      exists keys, rest. split; [done|].
      change (?a :: l1 ++ ?b :: ?l ++ ?t) with ([a] ++ l1 ++ [b] ++ l ++ t).
      rewrite !deletes_of_app, Hd, Hdel.
      split.
      * by destruct (Run.result_of _); cbn; rewrite ?app_nil_r.
      * intros Hok. destruct (Run.result_of _) as [n|e] eqn:En; [|done].
        by apply (Hrest n).
    + intros Hsite Hkeys.
      destruct (delete_loop_ends (length (x :: issues)) (x :: issues) 1 s1 Hsite Hkeys)
        as [n ->]. done.
Qed.

Lemma wipe_deletes_every_issue_found_witness :
  Run.result_of
    (@Wipe.wipe_project unit (Cases.listing Cases.three_issues 2 403) 4 "FS" false tt)
  = Run.Ok tt.
Proof.
  refine (proj2 (@wipe_deletes_every_issue_found unit
                   (Cases.listing Cases.three_issues 2 403) 4 "FS" tt tt
                   Cases.three_issues _ _) _ _).
  - vm_compute. reflexivity.
  - intros path []. vm_compute. discriminate.
  - repeat constructor; by eexists.
Defined.

(** X9. A dry-run wipe sends no DELETE: it searches, and for each issue
    found it prints the deletion it would ask for and leaves the site
    as the search left it. *)
Theorem dry_run_wipe_deletes_nothing {St : Type} `{Wipe.Site St}
    (fuel : nat) (project_key : string) (s : St) :
  Wipe.deletes_of (Run.log_of (Wipe.wipe_project fuel project_key true s)) = []
  /\ Run.state_of (Wipe.wipe_project fuel project_key true s)
     = Run.state_of
         (Wipe.search_issues fuel ("project = " +:+ project_key) "key" 100 s)
  /\ forall keys,
       Run.result_of
         (Wipe.search_issues fuel ("project = " +:+ project_key) "key" 100 s)
       = Run.Ok (List.map Some keys) ->
       Wipe.dry_run_deletes
         (Run.log_of (Wipe.wipe_project fuel project_key true s))
       = List.map Wipe.delete_path keys
       /\ Run.result_of (Wipe.wipe_project fuel project_key true s) = Run.Ok tt.
Proof.
  rewrite wipe_project_run.
  pose proof (search_loop_log fuel ("project = " +:+ project_key) "key" 100 0 [] s)
    as (Hd & Hy & _).
  fold (Wipe.search_issues fuel ("project = " +:+ project_key) "key" 100) in Hd, Hy.
  destruct (Wipe.search_issues _ _ _ _ s) as [[[issues|e] s1] l1].
  2:{ cbn [Run.result_of Run.log_of Run.state_of fst snd] in *.
      change (?a :: l1) with ([a] ++ l1). rewrite deletes_of_app, Hd.
      by repeat split. }
  cbn [Run.result_of Run.log_of Run.state_of fst snd] in Hd, Hy.
  destruct issues as [|x issues].
  - cbn [Run.result_of Run.log_of Run.state_of fst snd].
    change (?x :: l1 ++ ?l) with ([x] ++ l1 ++ l).
    rewrite !deletes_of_app, !dry_run_deletes_app, Hd, Hy.
    do 2 (split; [done|]). by intros [|] [=].
  - cbv zeta. cbn [Run.result_of Run.log_of Run.state_of fst snd].
    destruct (delete_loop_dry (length (x :: issues)) (x :: issues) 1 s1)
      as (D1 & _ & D3 & D4).
    change (?a :: l1 ++ ?b :: ?l ++ ?t) with ([a] ++ l1 ++ [b] ++ l ++ t).
    rewrite !deletes_of_app, !dry_run_deletes_app, Hd, Hy, D1, D3.
    split; [by destruct (Run.result_of _)|]. split; [done|].
    intros keys [= E]. destruct (D4 keys E) as [-> [n ->]].
    by rewrite app_nil_r.
Qed.

(** X10. When a page of the search is answered with another status than
    200 the wipe ends with an exception and nothing is deleted, in a
    live run as in a dry run: not even the issues of the pages that
    were read before. *)
Theorem failed_search_deletes_nothing {St : Type} `{Wipe.Site St}
    (fuel : nat) (project_key : string) (dry_run : bool) (s : St) :
  Exists (fun a => forall b, a <> Wipe.Response 200 b)
         (Wipe.pages_of
            (Run.log_of (Wipe.wipe_project fuel project_key dry_run s))) ->
  Wipe.deletes_of (Run.log_of (Wipe.wipe_project fuel project_key dry_run s)) = []
  /\ Wipe.dry_run_deletes
       (Run.log_of (Wipe.wipe_project fuel project_key dry_run s)) = []
  /\ exists e, Run.result_of (Wipe.wipe_project fuel project_key dry_run s)
               = Run.Raise e.
Proof.
  rewrite wipe_project_run.
  pose proof (search_loop_log fuel ("project = " +:+ project_key) "key" 100 0 [] s)
    as (Hd & Hy & Hp).
  fold (Wipe.search_issues fuel ("project = " +:+ project_key) "key" 100)
    in Hd, Hy, Hp.
  destruct (Wipe.search_issues _ _ _ _ s) as [[[issues|e] s1] l1].
  2:{ intros _. cbn [Run.result_of Run.log_of Run.state_of fst snd] in *.
      change (?a :: l1) with ([a] ++ l1).
      rewrite deletes_of_app, dry_run_deletes_app, Hd, Hy.
      do 2 (split; [done|]). by eexists. }
  cbn [Run.result_of Run.log_of Run.state_of fst snd] in Hd, Hy, Hp.
  specialize (Hp issues eq_refl).
  intros Hbad. exfalso.
  assert (exists l, Wipe.pages_of l = []
            /\ Exists (fun a => forall b, a <> Wipe.Response 200 b)
                      (Wipe.pages_of l1 ++ Wipe.pages_of l)) as (l & Hl & Hex).
  { destruct issues as [|x issues].
    - exists [Wipe.Printed Wipe.NoIssuesFound]. split; [done|].
      cbn [Run.log_of snd] in Hbad.
      change (?a :: l1 ++ ?l) with ([a] ++ l1 ++ l) in Hbad.
      by rewrite !pages_of_app in Hbad.
    - cbv zeta in Hbad. cbn [Run.log_of snd] in Hbad.
      eexists (_ :: _ ++ _). split; [|
        change (?a :: l1 ++ ?l) with ([a] ++ l1 ++ l) in Hbad;
        rewrite !pages_of_app in Hbad; exact Hbad].
      change (?b :: ?l ++ ?t) with ([b] ++ l ++ t). rewrite !pages_of_app.
      destruct dry_run.
      + destruct (delete_loop_dry (length (x :: issues)) (x :: issues) 1 s1)
          as (_ & Hpg & _). rewrite Hpg. by destruct (Run.result_of _).
      + destruct (delete_loop_live (length (x :: issues)) (x :: issues) 1 s1)
          as (ks & rs & _ & _ & Hpg & _). rewrite Hpg. by destruct (Run.result_of _). }
  rewrite Hl, app_nil_r in Hex.
  apply List.Exists_exists in Hex as (a & Ha & Hne).
  rewrite List.Forall_forall in Hp. destruct (Hp a Ha) as [b ->]. by apply (Hne b).
Qed.

Lemma failed_search_deletes_nothing_witness :
  Wipe.deletes_of
    (Run.log_of (@Wipe.wipe_project unit Cases.broken_listing 4 "FS" false tt)) = []
  /\ Wipe.dry_run_deletes
       (Run.log_of (@Wipe.wipe_project unit Cases.broken_listing 4 "FS" false tt)) = []
  /\ exists e,
       Run.result_of (@Wipe.wipe_project unit Cases.broken_listing 4 "FS" false tt)
       = Run.Raise e.
Proof.
  apply (@failed_search_deletes_nothing unit Cases.broken_listing).
  vm_compute. apply List.Exists_cons_tl, List.Exists_cons_hd. intros b. discriminate.
Defined.

(** ** Importer: the dry run and the links *)

Section StillFacts.
Import Run Views.
Context {S Ev E : Type}.
Local Abbreviation M := (Run.M S Ev E).

Lemma still_ret {A} P (a : A) : still P (ret a : M A).
Proof. by intros s. Qed.

Lemma still_raise {A} P e : still P (raise e : M A).
Proof. by intros s. Qed.

Lemma still_tell (P : Ev -> Prop) ev : P ev -> still P (tell ev : M unit).
Proof. intros Hev s. split; [done|]. by repeat constructor. Qed.

Lemma still_bind {A B} P (m : M A) (k : A -> M B) :
  still P m -> (forall a, still P (k a)) -> still P (bind m k).
Proof.
  intros Hm Hk s. rewrite bind_run. destruct (Hm s) as [Hs Hl].
  destruct (m s) as [[[a|e] s1] l1]; cbn in *; [|done]. subst s1.
  destruct (Hk a s) as [Hs' Hl']. split; [done|]. by apply Forall_app.
Qed.

Lemma still_for_each {A B} P (body : A -> B -> M B) xs acc :
  (forall x b, still P (body x b)) -> still P (for_each body xs acc).
Proof.
  intros Hb. revert acc. induction xs as [|x xs IH]; intros acc.
  - apply still_ret.
  - cbn [for_each]. apply still_bind; [apply Hb | apply IH].
Qed.

End StillFacts.

Section ImportFacts.
Import Text Run Run.Notations Importer Views.
Context {S : Type} `{Session S}.
Local Abbreviation M := (Run.M S event exn).

Lemma still_getitem P row k : still P (getitem row k : M _).
Proof. unfold getitem. destruct (row !! k); [apply still_ret | apply still_raise]. Qed.

Lemma still_jira_post path json : still not_sent (jira_post path json true : M _).
Proof. intros s. rewrite jira_post_dry. split; [done|]. by repeat constructor. Qed.

Lemma still_import_row a row v :
  dry_run a = true -> still not_sent (import_row a row v : M _).
Proof.
  intros Hdry. unfold import_row, create_issue. rewrite Hdry.
  repeat first
    [ apply still_jira_post | apply still_getitem
    | apply still_ret | apply still_raise
    | apply still_tell; done
    | apply still_bind; [|intros ?]
    | match goal with
      | |- still _ (let '(_, _) := ?x in _) => destruct x
      | |- still _ (if ?b then _ else _) => destruct b
      | |- still _ (match ?x with _ => _ end) => destruct x
      end ].
Qed.

Lemma still_link_all a links :
  dry_run a = true -> still not_sent (link_all a links : M _).
Proof.
  intros Hdry. unfold link_all, link_issue. rewrite Hdry.
  apply still_for_each. intros [d t] [].
  repeat first
    [ apply still_jira_post | apply still_ret
    | apply still_bind; [|intros ?]
    | match goal with
      | |- still _ (let '(_, _) := ?x in _) => destruct x
      end ].
Qed.

Lemma answered_links_app l1 l2 :
  answered_links (l1 ++ l2) = answered_links l1 ++ answered_links l2.
Proof. apply List.flat_map_app. Qed.

Lemma unread_links_app l1 l2 :
  unread_links (l1 ++ l2) = unread_links l1 ++ unread_links l2.
Proof. apply List.flat_map_app. Qed.

(** A link that returns got one answer that was read, whatever its
    status, after at most one that was not. *)
Lemma link_issue_answered d k dry (s : S) :
  match result_of (link_issue d k dry s) with
  | Ok _ =>
      answered_links (log_of (link_issue d k dry s)) = [(d, k)]
      /\ (unread_links (log_of (link_issue d k dry s)) = []
          \/ unread_links (log_of (link_issue d k dry s)) = [(d, k)])
  | Raise _ => answered_links (log_of (link_issue d k dry s)) = []
  end.
Proof.
  unfold link_issue. rewrite bind_run. destruct dry.
  - rewrite jira_post_dry. cbn. by split; [|left].
  - destruct (jira_post_live "/rest/api/3/issueLink" (Link d k) s)
      as [(c & b & s1 & Hb & ->)|(r1 & r2 & s1 & Hr1 & Hl & Hs & Hr)].
    + cbn [result_of log_of fst snd ret app answered_links unread_links
           List.flat_map].
      rewrite Hb. by split; [|left].
    + destruct (jira_post _ _ false s) as [[res s2] l2].
      cbn [result_of state_of log_of fst snd] in *. subst l2 res.
      destruct r2 as [c2 [| |k2]|];
        cbn [last_attempt result_of log_of fst snd ret app answered_links
             unread_links List.flat_map]; rewrite ?Hr1; cbn; try done;
        by split; [|right].
Qed.

Lemma link_all_answered a links (s : S) :
  (exists u, result_of (link_all a links s) = Ok u) ->
  answered_links (log_of (link_all a links s)) = links
  /\ unread_links (log_of (link_all a links s)) `sublist_of` links.
Proof.
  unfold link_all. revert s. induction links as [|[d k] links IH]; intros s.
  { intros _. split; [done|]. cbn. constructor. }
  cbn [for_each]. rewrite bind_run, bind_run.
  pose proof (link_issue_answered d k (dry_run a) s) as Hone.
  destruct (link_issue d k (dry_run a) s) as [[[b|e] s1] l1];
    cbn [result_of state_of log_of fst snd] in *; [|by intros [? ?]].
  cbn [ret result_of state_of log_of fst snd].
  intros Hok. destruct Hone as [Hone Hun]. destruct (IH s1 Hok) as [IHa IHu].
  rewrite app_nil_r, answered_links_app, unread_links_app, Hone.
  split; [cbn [app]; by f_equal|].
  destruct Hun as [-> | ->]; cbn [app].
  - by apply sublist_cons.
  - by apply sublist_skip.
Qed.

End ImportFacts.

(** X11. A dry run of the Importer sends nothing: from the creation of
    the first issue to the last link the session is left as it was and
    the log holds no request, only the lines printed in their place. *)
Theorem dry_run_import_sends_nothing {St : Type} `{Importer.Session St}
    (a : Importer.args) (rows : list Importer.row) (s : St) :
  Importer.dry_run a = true ->
  Run.state_of (Importer.main a rows s) = s
  /\ Forall Views.not_sent (Run.log_of (Importer.main a rows s)).
Proof.
  intros Hdry. revert s.
  change (Views.still Views.not_sent (Importer.main a rows)).
  unfold Importer.main, Importer.create_all.
  apply still_bind.
  - apply still_for_each. intros row v. by apply still_import_row.
  - intros v. by apply still_link_all.
Qed.

Lemma dry_run_import_sends_nothing_witness :
  Run.state_of
    (@Importer.main nat Examples.refusing Cases.dry_import
       [Examples.task "Deck"; Examples.subtask "Design" "Deck"] 0%nat)
  = 0%nat
  /\ Forall Views.not_sent
       (Run.log_of
          (@Importer.main nat Examples.refusing Cases.dry_import
             [Examples.task "Deck"; Examples.subtask "Design" "Deck"] 0%nat)).
Proof.
  apply (@dry_run_import_sends_nothing nat Examples.refusing Cases.dry_import).
  reflexivity.
Defined.

(** X12. When the linking loop of the Importer returns, every pending
    pair has got exactly one answer that was read (a response with an
    empty or a JSON body, whatever its status; or one line in a dry
    run), in the order in which the pairs were recorded, the key of the
    dependency as the inward issue and the key of the sub-task that
    depends on it as the outward issue: an answer of refusal does not
    stop the loop.  Besides these, a pair was posted at most once more,
    before, without an answer that could be read (the request failed in
    transport, or the body was no JSON): those posts form a sublist of
    the pairs. *)
Theorem pending_links_are_posted_in_order {St : Type} `{Importer.Session St}
    (a : Importer.args) (links : list (string * string)) (s : St) :
  Run.result_of (Importer.link_all a links s) = Run.Ok tt ->
  Views.answered_links (Run.log_of (Importer.link_all a links s)) = links
  /\ Views.unread_links (Run.log_of (Importer.link_all a links s))
     `sublist_of` links.
Proof. intros Hok. apply link_all_answered. by eexists. Qed.

Lemma pending_links_are_posted_in_order_witness :
  Views.answered_links
    (Run.log_of
       (@Importer.link_all nat Cases.garbled_once Examples.live_import
          [("K-1", "K-2"); ("K-1", "K-3")] 0%nat))
  = [("K-1", "K-2"); ("K-1", "K-3")]
  /\ Views.unread_links
       (Run.log_of
          (@Importer.link_all nat Cases.garbled_once Examples.live_import
             [("K-1", "K-2"); ("K-1", "K-3")] 0%nat))
     `sublist_of` [("K-1", "K-2"); ("K-1", "K-3")].
Proof.
  apply (@pending_links_are_posted_in_order nat Cases.garbled_once
           Examples.live_import).
  vm_compute. reflexivity.
Defined.

(** ** ColumnUpdater: the caches of users and versions *)

Section CacheFacts.
Import Text Run Run.Notations ColumnUpdater.
Context {T : Type} `{Tracker T}.
Local Abbreviation M := (Run.M (jira T) event exn).

Lemma resolve_user_cached email acct (j : jira T) :
  user_cache j !! email = Some acct ->
  resolve_user_account_id email j = (Ok acct, j, []).
Proof.
  intros Hc. unfold resolve_user_account_id, bind, gets. by rewrite Hc.
Qed.

Lemma resolve_user_fresh email (j : jira T) :
  user_cache j !! email = None ->
  requests_of (log_of (resolve_user_account_id email j)) = [UserSearch email]
  /\ match result_of (resolve_user_account_id email j) with
     | Ok acct =>
         user_cache (state_of (resolve_user_account_id email j)) !! email
         = Some acct
     | Raise _ =>
         user_cache (state_of (resolve_user_account_id email j)) = user_cache j
     end.
Proof.
  intros Hc. unfold resolve_user_account_id, bind, gets. rewrite Hc.
  unfold call, json, set_user_cache, modify, ret, raise.
  destruct (answer _ (remote j)) as [[|code b] t]; [done|].
  destruct (code <? 400)%Z; [|done].
  destruct b; cbn; try done. by rewrite lookup_insert_eq.
Qed.

Lemma version_cached pid name v known (j : jira T) :
  version_cache j !! pid = Some known -> known !! name = Some v ->
  get_or_create_version pid name j = (Ok v, j, []).
Proof.
  intros Hc Hk. unfold get_or_create_version, bind, gets.
  rewrite Hc. cbn. rewrite Hc. cbn. by rewrite Hk.
Qed.

Lemma version_fresh pid name (j : jira T) :
  default ∅ (version_cache j !! pid) !! name = None ->
  (exists e, result_of (get_or_create_version pid name j) = Raise e)
  \/ (exists v known,
        result_of (get_or_create_version pid name j) = Ok v
        /\ version_cache (state_of (get_or_create_version pid name j)) !! pid
           = Some known
        /\ known !! name = Some v).
Proof.
  intros Hk. unfold get_or_create_version, bind, gets.
  set (j0 := (match version_cache j !! pid with
              | Some _ => ret tt
              | None => set_versions pid ∅
              end : M unit) j).
  assert (exists j1, j0 = (Ok tt, j1, [])
                /\ default ∅ (version_cache j1 !! pid) !! name = None
                /\ is_Some (version_cache j1 !! pid)) as (j1 & -> & Hk1 & Hs).
  { subst j0. destruct (version_cache j !! pid) as [known|] eqn:E.
    - exists j. cbn. by rewrite E.
    - eexists. split; [reflexivity|]. cbn. by rewrite lookup_insert_eq. }
  cbn. rewrite Hk1.
  unfold call, json, as_entities, as_entity, set_versions, modify, ret, raise.
  destruct (answer (ListVersions pid) (remote j1)) as [[|code b] t]; [left; by eexists|].
  destruct (code <? 400)%Z; [|left; by eexists].
  destruct b; cbn; try (left; by eexists).
  destruct (List.find _ l) as [v|].
  - right. cbn. eexists v, _. split; [done|].
    rewrite lookup_insert_eq. split; [done|]. by rewrite lookup_insert_eq.
  - cbn. destruct (answer (CreateVersion name pid) t) as [[|code' b'] t'];
      [left; by eexists|].
    destruct (code' <? 400)%Z; [|left; by eexists].
    destruct b'; cbn; try (left; by eexists).
    right. eexists e, _. split; [done|].
    rewrite lookup_insert_eq. split; [done|]. by rewrite lookup_insert_eq.
Qed.

End CacheFacts.

(** X13. In a live run of the ColumnUpdater, a link that the tracker
    accepts with an empty body is sent, then reported as an error of
    linking and not counted as linked: the answer is read as JSON
    without a look at the text. *)
Theorem accepted_link_without_body_is_not_counted {T : Type}
    `{ColumnUpdater.Tracker T}
    (a : ColumnUpdater.args) (i : Z) (key dep : string)
    (c : ColumnUpdater.counters) (j : ColumnUpdater.jira T) (code : Z) (t : T) :
  ColumnUpdater.dry_run a = false ->
  ColumnUpdater.answer (ColumnUpdater.link_request a key dep)
    (ColumnUpdater.remote j)
  = (ColumnUpdater.Status code ColumnUpdater.NoBody, t) ->
  (code < 400)%Z ->
  Run.log_of (ColumnUpdater.try_link a i key dep c j)
  = [ColumnUpdater.Called (ColumnUpdater.link_request a key dep)
       (ColumnUpdater.Status code ColumnUpdater.NoBody);
     ColumnUpdater.Printed
       (ColumnUpdater.ErrorLinking i key dep ColumnUpdater.JSONDecodeError)]
  /\ Run.result_of (ColumnUpdater.try_link a i key dep c j) = Run.Ok c.
Proof.
  intros Hdry Hans Hcode. apply Z.ltb_lt in Hcode.
  unfold ColumnUpdater.try_link, ColumnUpdater.link_request in *.
  unfold ColumnUpdater.add_issue_link_is_blocked_by. rewrite Hdry.
  unfold Run.try_except, Run.bind, ColumnUpdater.call.
  destruct (ColumnUpdater.dependencies_direction a);
    rewrite Hans, Hcode; done.
Qed.

Lemma accepted_link_without_body_is_not_counted_witness :
  Run.log_of
    (@ColumnUpdater.try_link unit (Examples.stateless Cases.silent_links)
       (Examples.settings false None) 1 "FS-1" "FS-2" ColumnUpdater.counters0
       (ColumnUpdater.new_jira tt))
  = [ColumnUpdater.Called (ColumnUpdater.CreateLink "FS-1" "FS-2")
       (ColumnUpdater.Status 201 ColumnUpdater.NoBody);
     ColumnUpdater.Printed
       (ColumnUpdater.ErrorLinking 1 "FS-1" "FS-2" ColumnUpdater.JSONDecodeError)]
  /\ Run.result_of
       (@ColumnUpdater.try_link unit (Examples.stateless Cases.silent_links)
          (Examples.settings false None) 1 "FS-1" "FS-2" ColumnUpdater.counters0
          (ColumnUpdater.new_jira tt))
     = Run.Ok ColumnUpdater.counters0.
Proof.
  apply (@accepted_link_without_body_is_not_counted unit
           (Examples.stateless Cases.silent_links)
           (Examples.settings false None) 1 "FS-1" "FS-2"
           ColumnUpdater.counters0 (ColumnUpdater.new_jira tt) 201 tt);
    [reflexivity | reflexivity | lia].
Defined.

(** X14. An address is looked up once: when [resolve_user_account_id]
    has returned, a second call for the same address returns the same
    account, or the same absence of one, without a request; a lookup
    that raised has left the cache as it was. *)
Theorem user_is_looked_up_once {T : Type} `{ColumnUpdater.Tracker T}
    (email : string) (j : ColumnUpdater.jira T) :
  match Run.result_of (ColumnUpdater.resolve_user_account_id email j) with
  | Run.Ok acct =>
      ColumnUpdater.resolve_user_account_id email
        (Run.state_of (ColumnUpdater.resolve_user_account_id email j))
      = (Run.Ok acct,
         Run.state_of (ColumnUpdater.resolve_user_account_id email j), [])
  | Run.Raise _ =>
      ColumnUpdater.user_cache
        (Run.state_of (ColumnUpdater.resolve_user_account_id email j))
      = ColumnUpdater.user_cache j
  end.
Proof.
  destruct (ColumnUpdater.user_cache j !! email) as [acct|] eqn:Hc.
  - rewrite (resolve_user_cached email acct j Hc). cbn.
    by apply resolve_user_cached.
  - destruct (resolve_user_fresh email j Hc) as [_ Hr].
    destruct (Run.result_of _) as [acct|e]; [|done].
    by apply resolve_user_cached.
Qed.

(** X15. A version is asked for once: when [get_or_create_version] has
    returned, a second call for the same project and name returns the
    same version without a request.  And it creates a version only
    after it has listed the versions of the project and found none of
    that name, letter case and outer blanks apart. *)
Theorem version_is_created_after_lookup {T : Type} `{ColumnUpdater.Tracker T}
    (project_id name : string) (j : ColumnUpdater.jira T) :
  match Run.result_of (ColumnUpdater.get_or_create_version project_id name j) with
  | Run.Ok v =>
      ColumnUpdater.get_or_create_version project_id name
        (Run.state_of (ColumnUpdater.get_or_create_version project_id name j))
      = (Run.Ok v,
         Run.state_of (ColumnUpdater.get_or_create_version project_id name j), [])
  | Run.Raise _ => True
  end
  /\ forall ans,
       In (ColumnUpdater.Called (ColumnUpdater.CreateVersion name project_id) ans)
          (Run.log_of (ColumnUpdater.get_or_create_version project_id name j)) ->
       exists code versions,
         Run.log_of (ColumnUpdater.get_or_create_version project_id name j)
         = [ColumnUpdater.Called (ColumnUpdater.ListVersions project_id)
              (ColumnUpdater.Status code (ColumnUpdater.Entities versions));
            ColumnUpdater.Called (ColumnUpdater.CreateVersion name project_id) ans]
         /\ List.find
              (fun v => (Text.lower (Text.strip (ColumnUpdater.ent_name v))
                         =? Text.lower (Text.strip name))%string) versions
            = None.
Proof.
  split.
  - destruct (default ∅ (ColumnUpdater.version_cache j !! project_id) !! name)
      as [v|] eqn:Hk.
    + destruct (ColumnUpdater.version_cache j !! project_id) as [known|] eqn:Hc;
        [|done].
      cbn in Hk. rewrite (version_cached project_id name v known j Hc Hk). cbn.
      by apply (version_cached project_id name v known).
    + destruct (version_fresh project_id name j Hk)
        as [[e ->] | (v & known & -> & Hc' & Hk')]; [done|].
      by apply (version_cached project_id name v known).
  - intros ans.
    unfold ColumnUpdater.get_or_create_version, Run.bind, Run.gets.
    set (j0 := (match ColumnUpdater.version_cache j !! project_id with
                | Some _ => Run.ret tt
                | None => ColumnUpdater.set_versions project_id ∅
                end : Run.M _ ColumnUpdater.event ColumnUpdater.exn unit) j).
    assert (exists j1, j0 = (Run.Ok tt, j1, [])) as (j1 & ->).
    { subst j0. destruct (ColumnUpdater.version_cache j !! project_id);
        by eexists. }
    cbn. destruct (_ !! name); [done|].
    unfold ColumnUpdater.call, ColumnUpdater.json, ColumnUpdater.as_entities,
      ColumnUpdater.as_entity, ColumnUpdater.set_versions, Run.modify, Run.ret,
      Run.raise.
    destruct (ColumnUpdater.answer (ColumnUpdater.ListVersions project_id) _)
      as [[|code b] t]; [by intros [|[]]|].
    destruct (code <? 400)%Z; [|by intros [|[]]].
    destruct b; cbn; try by intros [|[]].
    destruct (List.find _ l) as [v|] eqn:Hf; cbn; [by intros [|[]]|].
    destruct (ColumnUpdater.answer (ColumnUpdater.CreateVersion name project_id) t)
      as [[|code' b'] t'].
    + cbn. intros [|[[= <-]|[]]]; [done|]. by exists code, l.
    + destruct (code' <? 400)%Z.
      * destruct b'; cbn; intros [|[[= <-]|[]]]; try done; by exists code, l.
      * cbn. intros [|[[= <-]|[]]]; [done|]. by exists code, l.
Qed.

(** ** ColumnUpdater: the fields of an update *)

Section ReturnsFacts.
Import Run Views.
Context {S Ev E : Type}.
Local Abbreviation M := (Run.M S Ev E).

Lemma returns_ret {A} (Q : A -> Prop) (a : A) : Q a -> returns Q (ret a : M A).
Proof. by intros Ha s. Qed.

Lemma returns_raise {A} (Q : A -> Prop) e : returns Q (raise e : M A).
Proof. by intros s. Qed.

Lemma returns_bind {A B} (P : A -> Prop) (Q : B -> Prop) (m : M A) (k : A -> M B) :
  returns P m -> (forall a, P a -> returns Q (k a)) -> returns Q (bind m k).
Proof.
  intros Hm Hk s. rewrite bind_run. specialize (Hm s).
  destruct (m s) as [[[a|e] s1] l1]; cbn in *; [|done]. apply (Hk a Hm s1).
Qed.

Lemma returns_bind_any {A B} (Q : B -> Prop) (m : M A) (k : A -> M B) :
  (forall a, returns Q (k a)) -> returns Q (bind m k).
Proof.
  intros Hk. apply (returns_bind (fun _ => True)); [|by intros a _].
  intros s. by destruct (result_of (m s)).
Qed.

End ReturnsFacts.

Section FieldFacts.
Import Text Run Run.Notations ColumnUpdater Views.
Context `{Dates.Platform} `{Dates.IsoParser} {T : Type} `{Tracker T}.
Local Abbreviation M := (Run.M (jira T) event exn).

Lemma only_filled_empty row sf ef : only_filled row sf ef ∅.
Proof. intros k [v Hv]. by rewrite lookup_empty in Hv. Qed.

Lemma only_filled_insert row sf ef fields k v :
  filled row sf ef k -> only_filled row sf ef fields ->
  only_filled row sf ef (<[k := v]> fields).
Proof.
  intros Hk Hf k' Hs. destruct (decide (k = k')) as [<-|Hne]; [done|].
  rewrite lookup_insert_ne in Hs by done. by apply Hf.
Qed.

Lemma build_fields_only_filled row sf ef project :
  returns (only_filled row sf ef) (build_fields row sf ef project : M _).
Proof.
  unfold build_fields.
  set (f0 := (∅ : gmap string jvalue)).
  assert (H0' : only_filled row sf ef f0) by apply only_filled_empty.
  clearbody f0.
  set (f1 := match nonempty sf, nonempty (Dates.normalize_date (default "" (row !! "StartDate"))) with
             | Some f, Some d => <[f := JStr d]> f0
             | _, _ => f0
             end).
  assert (H1' : only_filled row sf ef f1).
  { subst f1. destruct (nonempty sf) as [f|] eqn:Ef; [|done].
    destruct (nonempty (Dates.normalize_date _)) as [d|] eqn:Ed; [|done].
    apply only_filled_insert; [|done]. left. split; [done|].
    destruct (Dates.normalize_date _); [by eexists | done]. }
  clearbody f1. clear H0' f0.
  set (f2 := match nonempty (Dates.normalize_date (default "" (row !! "DueDate"))) with
             | Some d => <["duedate" := JStr d]> f1
             | None => f1
             end).
  assert (H2' : only_filled row sf ef f2).
  { subst f2. destruct (nonempty (Dates.normalize_date _)) as [d|] eqn:Ed; [|done].
    apply only_filled_insert; [|done]. right; left. split; [done|].
    destruct (Dates.normalize_date _); [by eexists | done]. }
  clearbody f2. clear H1' f1.
  set (f3 := match present (row !! "Description") with
             | Some desc => <["description" := JStr desc]> f2
             | None => f2
             end).
  assert (H3' : only_filled row sf ef f3).
  { subst f3. destruct (present _) eqn:E; [|done].
    apply only_filled_insert; [|done]. do 2 right; left. by rewrite E. }
  clearbody f3. clear H2' f2.
  set (f4 := match present (row !! "Priority") with
             | Some prio => <["priority" := JRef "name" (strip prio)]> f3
             | None => f3
             end).
  assert (H4' : only_filled row sf ef f4).
  { subst f4. destruct (present _) eqn:E; [|done].
    apply only_filled_insert; [|done]. do 3 right; left. by rewrite E. }
  clearbody f4. clear H3' f3.
  set (f5 := match present (row !! "Labels") with
             | Some labels => <["labels" := JStrs (tokens labels)]> f4
             | None => f4
             end).
  assert (H5' : only_filled row sf ef f5).
  { subst f5. destruct (present _) eqn:E; [|done].
    apply only_filled_insert; [|done]. do 4 right; left. by rewrite E. }
  clearbody f5. clear H4' f4.
  apply (returns_bind (only_filled row sf ef)).
  { destruct (present (row !! "Components")) eqn:E; [|by apply returns_ret].
    do 3 (apply returns_bind_any; intros ?). apply returns_ret.
    apply only_filled_insert; [|done]. do 5 right; left. by rewrite E. }
  intros f6 H6'.
  apply (returns_bind (only_filled row sf ef)).
  { destruct (present (row !! "FixVersions")) eqn:E; [|by apply returns_ret].
    do 2 (apply returns_bind_any; intros ?). apply returns_ret.
    apply only_filled_insert; [|done]. do 6 right; left. by rewrite E. }
  intros f7 H7'.
  apply (returns_bind (only_filled row sf ef)).
  { destruct (present (row !! "AssigneeEmail")) eqn:E; [|by apply returns_ret].
    apply returns_bind_any; intros acct.
    destruct (nonempty acct); apply returns_ret; [|done].
    apply only_filled_insert; [|done]. do 7 right; left. by rewrite E. }
  intros f8 H8'. apply returns_ret.
  assert (H9' : only_filled row sf ef
                  match present (row !! "EpicKey") with
                  | Some epic_key =>
                      <[default "customfield_10014" ef := JStr (strip epic_key)]> f8
                  | None => f8
                  end).
  { destruct (present (row !! "EpicKey")) eqn:E; [|done].
    apply only_filled_insert; [|done]. do 8 right; left. by rewrite E. }
  destruct (present (row !! "ParentKey")) eqn:E; [|done].
  apply only_filled_insert; [|done]. do 9 right. by rewrite E.
Qed.

Lemma build_fields_plain row sf ef project (j : jira T) :
  present (row !! "Components") = None ->
  present (row !! "FixVersions") = None ->
  present (row !! "AssigneeEmail") = None ->
  exists fields, build_fields row sf ef project j = (Ok fields, j, []).
Proof.
  intros Hc Hv Ha. unfold build_fields. rewrite Hc, Hv, Ha. by eexists.
Qed.

End FieldFacts.

(** X16. [build_fields] puts a field into the update only when the row
    has a value for it: a date that can be normalised, or a cell with
    more than blanks in it.  A cell that is missing or blank leaves its
    field out of the update; it never clears the field. *)
Theorem build_fields_sets_only_filled_cells `{Dates.Platform} `{Dates.IsoParser}
    {T : Type} `{ColumnUpdater.Tracker T}
    (row : gmap string string) (startdate_field epic_link_field : option string)
    (project : option string) (j : ColumnUpdater.jira T) :
  match Run.result_of
          (ColumnUpdater.build_fields row startdate_field epic_link_field project j)
  with
  | Run.Ok fields =>
      forall k, is_Some (fields !! k) ->
                Views.filled row startdate_field epic_link_field k
  | Run.Raise _ => True
  end.
Proof. apply build_fields_only_filled. Qed.

(** X17. A row without components, versions and assignee needs no
    lookup: its fields are built without a request and without a
    change of the caches, and building them cannot fail, even when the
    project has no id. *)
Theorem build_fields_without_lookups `{Dates.Platform} `{Dates.IsoParser}
    {T : Type} `{ColumnUpdater.Tracker T}
    (row : gmap string string) (startdate_field epic_link_field : option string)
    (project : option string) (j : ColumnUpdater.jira T) :
  ColumnUpdater.present (row !! "Components") = None ->
  ColumnUpdater.present (row !! "FixVersions") = None ->
  ColumnUpdater.present (row !! "AssigneeEmail") = None ->
  exists fields,
    ColumnUpdater.build_fields row startdate_field epic_link_field project j
    = (Run.Ok fields, j, []).
Proof. apply build_fields_plain. Qed.

Lemma build_fields_without_lookups_witness :
  exists fields,
    @ColumnUpdater.build_fields Dates.glibc Dates.no_iso unit
      (Examples.stateless Examples.no_search)
      (Examples.keyed_with "FS-1" "DueDate" "04/03/2025") (Some "customfield_12345")
      None None (ColumnUpdater.new_jira tt)
    = (Run.Ok fields, ColumnUpdater.new_jira tt, []).
Proof.
  apply (@build_fields_without_lookups Dates.glibc Dates.no_iso unit
           (Examples.stateless Examples.no_search)); reflexivity.
Defined.


(** ** ColumnUpdater: what the counters count *)

Section CounterFacts.
Import Text Run Run.Notations ColumnUpdater.
Context `{Dates.Platform} `{Dates.IsoParser} {T : Type} `{Tracker T}.
Local Abbreviation M := (Run.M (jira T) event exn).

Lemma try_update_account a i key fields c (j j1 : jira T) c1 l1 :
  try_update a i key fields c j = (Ok c1, j1, l1) ->
  skipped c1 = skipped c /\ linked c1 = linked c
  /\ (updated c <= updated c1 <= updated c + 1)%Z
  /\ (dry_run a = true -> updated c1 = (updated c + 1)%Z).
Proof.
  unfold try_update, try_except. rewrite bind_run.
  destruct (dry_run a) eqn:Hdry.
  - rewrite update_issue_fields_dry. cbn.
    destruct (_ =? 0)%Z; cbn; intros [= <- _ _]; cbn; repeat split; lia.
  - destruct (update_issue_fields key fields false j) as [[[d|e] j'] l']; cbn.
    + destruct (_ =? 0)%Z; cbn; intros [= <- _ _]; cbn; repeat split; (done || lia).
    + intros [= <- _ _]. repeat split; (done || lia).
Qed.

Lemma try_link_account a i key dep c (j j1 : jira T) c1 l1 :
  try_link a i key dep c j = (Ok c1, j1, l1) ->
  skipped c1 = skipped c /\ updated c1 = updated c
  /\ (linked c <= linked c1 <= linked c + 1)%Z.
Proof.
  unfold try_link, try_except. rewrite bind_run.
  destruct (match dependencies_direction a with
            | blocked_by => add_issue_link_is_blocked_by key dep (dry_run a)
            | blocks => add_issue_link_is_blocked_by dep key (dry_run a)
            end j) as [[[d|e] j'] l']; cbn; intros [= <- _ _]; cbn;
    repeat split; lia.
Qed.

Lemma links_account a i key deps c (j j1 : jira T) c1 l1 :
  for_each (try_link a i key) deps c j = (Ok c1, j1, l1) ->
  skipped c1 = skipped c /\ updated c1 = updated c
  /\ (linked c <= linked c1 <= linked c + Z.of_nat (length deps))%Z.
Proof.
  revert c j l1. induction deps as [|dep deps IH]; intros c j l1.
  - intros [= <- _ _]. cbn. lia.
  - cbn [for_each]. intros Hrun.
    apply bind_ok_inv in Hrun as (c' & j' & la & lb & Hone & Hrest & _).
    apply try_link_account in Hone. apply IH in Hrest. cbn [length]. lia.
Qed.

Lemma update_row_account a project i row key c (j j1 : jira T) c1 l1 :
  update_row a project i row key c j = (Ok c1, j1, l1) ->
  skipped c1 = skipped c
  /\ (updated c <= updated c1 <= updated c + 1)%Z
  /\ (linked c <= linked c1
      <= linked c + Z.of_nat (length (dependencies row)))%Z
  /\ (dry_run a = true -> updated c1 = (updated c + 1)%Z).
Proof.
  unfold update_row. intros Hrun.
  apply bind_ok_inv in Hrun as (fields & j' & la & lb & _ & Hrun & _).
  apply bind_ok_inv in Hrun as (c' & j'' & lc & ld & Hup & Hlinks & _).
  apply try_update_account in Hup. apply links_account in Hlinks.
  repeat split; try lia. intros Hdry. destruct Hup as (_ & _ & _ & Hup).
  specialize (Hup Hdry). lia.
Qed.

(** A row adds one to [updated] or one to [skipped], or nothing when
    its update failed; in a dry run it always adds one. *)
Lemma process_row_account a project i row c (j j1 : jira T) c1 l1 :
  process_row a project i row c j = (Ok c1, j1, l1) ->
  (updated c <= updated c1)%Z /\ (skipped c <= skipped c1)%Z
  /\ (updated c1 + skipped c1 <= updated c + skipped c + 1)%Z
  /\ (linked c <= linked c1
      <= linked c + Z.of_nat (length (dependencies row)))%Z
  /\ (dry_run a = true ->
      (updated c1 + skipped c1 = updated c + skipped c + 1)%Z).
Proof.
  assert (Hskip : forall c1, c1 = skip c ->
    (updated c <= updated c1)%Z /\ (skipped c <= skipped c1)%Z
    /\ (updated c1 + skipped c1 <= updated c + skipped c + 1)%Z
    /\ (linked c <= linked c1
        <= linked c + Z.of_nat (length (dependencies row)))%Z
    /\ (dry_run a = true ->
        (updated c1 + skipped c1 = updated c + skipped c + 1)%Z)).
  { intros ? ->. cbn. repeat split; lia. }
  assert (Hupd : forall key j j1 l,
    update_row a project i row key c j = (Ok c1, j1, l) ->
    (updated c <= updated c1)%Z /\ (skipped c <= skipped c1)%Z
    /\ (updated c1 + skipped c1 <= updated c + skipped c + 1)%Z
    /\ (linked c <= linked c1
        <= linked c + Z.of_nat (length (dependencies row)))%Z
    /\ (dry_run a = true ->
        (updated c1 + skipped c1 = updated c + skipped c + 1)%Z)).
  { intros key j0 j2 l Hrun. apply update_row_account in Hrun.
    destruct Hrun as (? & ? & ? & Hd). repeat split; try lia.
    intros Hdry. specialize (Hd Hdry). lia. }
  unfold process_row.
  destruct (truthy (strip (default "" (row !! "IssueKey")))).
  { apply Hupd. }
  destruct (truthy (strip (default "" (row !! "Summary")))); cbn [negb].
  - intros Hrun.
    apply bind_ok_inv in Hrun as (found & j' & la & lb & _ & Hrun & Hl).
    destruct (nonempty found) as [k|].
    + by apply Hupd in Hrun.
    + apply bind_ok_inv in Hrun as (? & ? & ? & ? & _ & Hrun & _).
      injection Hrun as <- _ _. by apply Hskip.
  - intros Hrun. apply bind_ok_inv in Hrun as (? & ? & ? & ? & _ & Hrun & _).
    injection Hrun as <- _ _. by apply Hskip.
Qed.

Lemma rows_loop_account a project rows i c (j j1 : jira T) c1 l1 :
  rows_loop a project rows i c j = (Ok c1, j1, l1) ->
  (updated c <= updated c1)%Z /\ (skipped c <= skipped c1)%Z
  /\ (updated c1 + skipped c1
      <= updated c + skipped c + Z.of_nat (length rows))%Z
  /\ (linked c <= linked c1
      <= linked c + Z.of_nat (length (List.flat_map dependencies rows)))%Z
  /\ (dry_run a = true -> max a = None ->
      (updated c1 + skipped c1
       = updated c + skipped c + Z.of_nat (length rows))%Z).
Proof.
  revert i c j l1. induction rows as [|row rows IH]; intros i c j l1.
  - intros [= <- _ _]. cbn. repeat split; lia.
  - cbn [rows_loop]. destruct (cap_reached a c) eqn:Hcap.
    + intros [= <- _ _]. cbn [length List.flat_map]. repeat split; try lia.
      intros _ Hmax. unfold cap_reached in Hcap. by rewrite Hmax in Hcap.
    + intros Hrun.
      apply bind_ok_inv in Hrun as (c' & j' & la & lb & Hrow & Hrest & _).
      apply process_row_account in Hrow. apply IH in Hrest.
      cbn [length List.flat_map]. rewrite length_app.
      destruct Hrow as (? & ? & ? & ? & Hd1). destruct Hrest as (? & ? & ? & ? & Hd2).
      repeat split; try lia.
      intros Hdry Hmax. specialize (Hd1 Hdry). specialize (Hd2 Hdry Hmax). lia.
Qed.

End CounterFacts.

(** X18. When [main] of the ColumnUpdater ends, each row has been
    counted at most once, as updated or as skipped, and [linked] is at
    most the number of dependencies the rows name: a row whose update
    failed is counted as neither.  In a dry run without [--max] every
    row is counted: updated and skipped add up to the number of rows. *)
Theorem counters_account_for_rows `{Dates.Platform} `{Dates.IsoParser}
    {T : Type} `{ColumnUpdater.Tracker T}
    (a : ColumnUpdater.args) (rows : list (gmap string string))
    (j : ColumnUpdater.jira T) (c : ColumnUpdater.counters) :
  Run.result_of (ColumnUpdater.main a rows j) = Run.Ok c ->
  (0 <= ColumnUpdater.updated c)%Z /\ (0 <= ColumnUpdater.skipped c)%Z
  /\ (ColumnUpdater.updated c + ColumnUpdater.skipped c
      <= Z.of_nat (length rows))%Z
  /\ (0 <= ColumnUpdater.linked c
      <= Z.of_nat (length (List.flat_map ColumnUpdater.dependencies rows)))%Z
  /\ (ColumnUpdater.dry_run a = true -> ColumnUpdater.max a = None ->
      (ColumnUpdater.updated c + ColumnUpdater.skipped c
       = Z.of_nat (length rows))%Z).
Proof.
  unfold ColumnUpdater.main. rewrite bind_run.
  destruct (ColumnUpdater.get_project_meta _ j) as [[[project|e] j1] l1]; [|done].
  cbn [Run.result_of Run.state_of Run.log_of fst snd]. rewrite bind_run.
  pose proof (rows_loop_account a project rows 1 ColumnUpdater.counters0 j1) as Hrows.
  destruct (ColumnUpdater.rows_loop a project rows 1 ColumnUpdater.counters0 j1)
    as [[[c'|e] j2] l2]; [|done].
  specialize (Hrows j2 c' l2 eq_refl).
  cbn [Run.result_of Run.state_of Run.log_of fst snd].
  unfold Run.bind, Run.tell, Run.ret.
  destruct (ColumnUpdater.dry_run a); cbn; intros [= <-]; cbn in Hrows;
    destruct Hrows as (? & ? & ? & ? & Hd); repeat split; try lia;
    intros ? Hmax; specialize (Hd eq_refl Hmax) || done; lia.
Qed.

Lemma counters_account_for_rows_witness :
  (1 + 1 <= Z.of_nat (length [Examples.keyed "FS-1"; Examples.named "Deck"]))%Z
  /\ (0 <= 0
      <= Z.of_nat (length (List.flat_map ColumnUpdater.dependencies
                             [Examples.keyed "FS-1"; Examples.named "Deck"])))%Z.
Proof.
  pose proof (@counters_account_for_rows Dates.glibc Dates.no_iso unit
                (Examples.stateless Examples.agreeable)
                (Examples.settings true None)
                [Examples.keyed "FS-1"; Examples.named "Deck"]
                (ColumnUpdater.new_jira tt)
                {| ColumnUpdater.updated := 1; ColumnUpdater.linked := 0;
                   ColumnUpdater.skipped := 1 |}) as W.
  destruct W as (_ & _ & W3 & W4 & _); [by vm_compute|].
  split; [exact W3 | exact W4].
Defined.

(** ** ColumnUpdater: what is asked for once in a run *)

Section MarkFacts.
Import Text Run Run.Notations ColumnUpdater Views.
Context {T : Type} `{Tracker T} {K : Type}.
Context (marks : event -> list K) (held : jira T -> K -> Prop).
Local Abbreviation M := (Run.M (jira T) event exn).

(** The entries of the caches do not depend on the remote side. *)
Hypothesis held_remote : forall (j : jira T) t k,
  held j k ->
  held {| remote := t; user_cache := user_cache j;
          version_cache := version_cache j;
          component_cache := component_cache j |} k.

Lemma marks_of_app l1 l2 :
  marks_of marks (l1 ++ l2) = marks_of marks l1 ++ marks_of marks l2.
Proof. apply List.flat_map_app. Qed.

Lemma beside_ret {A} (a : A) : beside marks held (ret a : M A).
Proof. done. Qed.

Lemma beside_raise {A} e : beside marks held (raise e : M A).
Proof. done. Qed.

Lemma beside_gets {A} (f : jira T -> A) : beside marks held (gets f : M A).
Proof. done. Qed.

Lemma beside_tell ev : marks ev = [] -> beside marks held (tell ev : M _).
Proof. intros Hev j. split; [done|]. cbn. by rewrite Hev. Qed.

Lemma beside_modify (f : jira T -> jira T) :
  (forall j k, held j k -> held (f j) k) -> beside marks held (modify f : M _).
Proof. intros Hf j. split; [apply Hf | done]. Qed.

Lemma beside_bind {A B} (m : M A) (k : A -> M B) :
  beside marks held m -> (forall a, beside marks held (k a)) ->
  beside marks held (bind m k).
Proof.
  intros Hm Hk j. rewrite bind_run. specialize (Hm j).
  unfold state_of, log_of in *.
  destruct (m j) as [[[a|e] j1] l1]; cbn [fst snd] in *; [|done].
  destruct Hm as [Hc Hl]. destruct (Hk a j1) as [Hc' Hl'].
  unfold state_of, log_of in *.
  split; [by intros k0 Hk0; apply Hc', Hc|]. by rewrite marks_of_app, Hl, Hl'.
Qed.

Lemma beside_try_except {A} (m : M A) (h : exn -> M A) :
  beside marks held m -> (forall e, beside marks held (h e)) ->
  beside marks held (try_except m h).
Proof.
  intros Hm Hh j. specialize (Hm j). unfold try_except, state_of, log_of in *.
  destruct (m j) as [[[a|e] j1] l1]; cbn [fst snd] in *; [done|].
  destruct Hm as [Hc Hl]. destruct (Hh e j1) as [Hc' Hl'].
  unfold state_of, log_of in *.
  destruct (h e j1) as [[r j2] l2]; cbn [fst snd] in *.
  split; [by intros k0 Hk0; apply Hc', Hc|]. by rewrite marks_of_app, Hl, Hl'.
Qed.

Lemma beside_for_each {A B} (body : A -> B -> M B) xs acc :
  (forall x b, beside marks held (body x b)) ->
  beside marks held (for_each body xs acc).
Proof.
  intros Hb. revert acc. induction xs as [|x xs IH]; intros acc; cbn [for_each].
  - apply beside_ret.
  - apply beside_bind; [apply Hb | apply IH].
Qed.

Lemma beside_call r :
  (forall a, marks (Called r a) = []) -> beside marks held (call r : M _).
Proof.
  intros Hr j. rewrite call_run. split.
  - intros k Hk. by apply held_remote.
  - cbn. by rewrite Hr.
Qed.

Lemma beside_json b : beside marks held (json b : M _).
Proof. destruct b; first [apply beside_ret | apply beside_raise]. Qed.

Lemma beside_keeps {A} (m : M A) : beside marks held m -> keeps_step marks held m.
Proof.
  intros Hm h j [Hnd Hheld]. destruct (Hm j) as [Hc Hl].
  assert (Hsame : marks_of marks (h ++ log_of (m j)) = marks_of marks h)
    by (by rewrite marks_of_app, Hl, app_nil_r).
  destruct (result_of (m j)); [|by rewrite Hsame].
  split; [by rewrite Hsame|]. rewrite Hsame. intros k Hin. by apply Hc, Hheld.
Qed.

Lemma keeps_step_bind {A B} (m : M A) (k : A -> M B) :
  keeps_step marks held m -> (forall a, keeps_step marks held (k a)) ->
  keeps_step marks held (bind m k).
Proof.
  intros Hm Hk h j Hin. rewrite bind_run. specialize (Hm h j Hin).
  unfold result_of, state_of, log_of in *.
  destruct (m j) as [[[a|e] j1] l1]; cbn [fst snd] in *; [|done].
  specialize (Hk a (h ++ l1) j1 Hm). unfold result_of, state_of, log_of in Hk.
  by rewrite app_assoc.
Qed.

Lemma keeps_step_ret {A} (a : A) : keeps_step marks held (ret a : M A).
Proof. apply beside_keeps, beside_ret. Qed.

(** *** From the four lookups to the whole run *)

Context `{Dates.Platform} `{Dates.IsoParser}.

Hypothesis marks_printed : forall m, marks (Printed m) = [].
Hypothesis marks_search : forall jql n f a, marks (Called (SearchIssues jql n f) a) = [].
Hypothesis marks_project : forall pk a, marks (Called (GetProject pk) a) = [].
Hypothesis marks_update : forall k f a, marks (Called (UpdateIssue k f) a) = [].
Hypothesis marks_link : forall k d a, marks (Called (CreateLink k d) a) = [].

Hypothesis keeps_user : forall email,
  keeps_step marks held (resolve_user_account_id email : M _).
Hypothesis keeps_version : forall pid name,
  keeps_step marks held (get_or_create_version pid name : M _).
Hypothesis keeps_list : forall pid,
  keeps_step marks held (list_project_components pid : M _).
Hypothesis keeps_components : forall pid names ids,
  keeps_step marks held (components_loop pid names ids : M _).

Ltac beside_auto :=
  repeat first
    [ apply beside_ret | apply beside_raise | apply beside_gets | apply beside_json
    | apply beside_tell; apply marks_printed
    | apply beside_call;
        first [ intros ?; apply marks_search | intros ?; apply marks_project
              | intros ?; apply marks_update | intros ?; apply marks_link ]
    | apply beside_bind; [|intros ?]
    | match goal with
      | |- beside _ _ (if ?b then _ else _) => destruct b
      | |- beside _ _ (match ?x with _ => _ end) => destruct x
      end ].

Lemma keeps_step_versions_loop pid names ids :
  keeps_step marks held (versions_loop pid names ids : M _).
Proof.
  revert ids. induction names as [|name names IH]; intros ids; cbn [versions_loop].
  - apply keeps_step_ret.
  - apply keeps_step_bind; [apply keeps_version|]. intros v. apply IH.
Qed.

Lemma keeps_step_build_fields row sf ef project :
  keeps_step marks held (build_fields row sf ef project : M _).
Proof.
  unfold build_fields.
  apply keeps_step_bind.
  { destruct (present (row !! "Components")); [|apply keeps_step_ret].
    apply keeps_step_bind.
    { apply beside_keeps. unfold project_id. beside_auto. }
    intros pid. apply keeps_step_bind; [apply keeps_list|].
    intros _. apply keeps_step_bind; [apply keeps_components|].
    intros ids. apply keeps_step_ret. }
  intros fields. apply keeps_step_bind.
  { destruct (present (row !! "FixVersions")); [|apply keeps_step_ret].
    apply keeps_step_bind.
    { apply beside_keeps. unfold project_id. beside_auto. }
    intros pid. apply keeps_step_bind; [apply keeps_step_versions_loop|].
    intros ids. apply keeps_step_ret. }
  intros fields'. apply keeps_step_bind.
  { destruct (present (row !! "AssigneeEmail")); [|apply keeps_step_ret].
    apply keeps_step_bind; [apply keeps_user|]. intros acct.
    apply beside_keeps. beside_auto. }
  intros fields''. apply keeps_step_ret.
Qed.

Lemma beside_try_update a i key fields c :
  beside marks held (try_update a i key fields c : M _).
Proof.
  unfold try_update, update_issue_fields.
  apply beside_try_except; [|intros e]; beside_auto.
Qed.

Lemma beside_try_link a i key dep c :
  beside marks held (try_link a i key dep c : M _).
Proof.
  unfold try_link, add_issue_link_is_blocked_by.
  apply beside_try_except; [|intros e]; beside_auto.
Qed.

Lemma keeps_step_update_row a project i row key c :
  keeps_step marks held (update_row a project i row key c : M _).
Proof.
  unfold update_row. apply keeps_step_bind; [apply keeps_step_build_fields|].
  intros fields. apply beside_keeps.
  apply beside_bind; [apply beside_try_update|]. intros c'.
  apply beside_for_each. intros. apply beside_try_link.
Qed.

Lemma keeps_step_process_row a project i row c :
  keeps_step marks held (process_row a project i row c : M _).
Proof.
  unfold process_row.
  destruct (truthy _); [apply keeps_step_update_row|].
  destruct (negb _); [apply beside_keeps; beside_auto|].
  apply keeps_step_bind.
  { apply beside_keeps. unfold search_issue_by_summary, search_request.
    beside_auto. }
  intros found.
  destruct (nonempty found); [apply keeps_step_update_row|].
  apply beside_keeps. beside_auto.
Qed.

Lemma keeps_step_rows_loop a project rows i c :
  keeps_step marks held (rows_loop a project rows i c : M _).
Proof.
  revert i c. induction rows as [|row rows IH]; intros i c; cbn [rows_loop].
  - apply keeps_step_ret.
  - destruct (cap_reached a c); [apply keeps_step_ret|].
    apply keeps_step_bind; [apply keeps_step_process_row|]. intros c'. apply IH.
Qed.

Lemma keeps_step_main a rows : keeps_step marks held (main a rows : M _).
Proof.
  unfold main. apply keeps_step_bind.
  { apply beside_keeps. unfold get_project_meta. beside_auto. }
  intros project. apply keeps_step_bind; [apply keeps_step_rows_loop|].
  intros c. apply beside_keeps. beside_auto.
Qed.

(** In the log of a run that starts in step, nothing is asked for
    twice. *)
Lemma main_marks_once a rows (j : jira T) :
  NoDup (marks_of marks (log_of (main a rows j))).
Proof.
  pose proof (keeps_step_main a rows [] j) as Hk.
  assert (Hin : in_step marks held [] j).
  { split; [constructor|]. intros k Hk'. by apply elem_of_nil in Hk'. }
  specialize (Hk Hin). cbn [app] in Hk.
  destruct (result_of (main a rows j)); apply Hk.
Qed.

End MarkFacts.

Ltac beside_step held_remote :=
  repeat first
    [ apply beside_ret | apply beside_raise | apply beside_gets | apply beside_json
    | apply beside_tell; done
    | apply beside_call; [exact held_remote | done]
    | apply beside_modify; intros ? ? Hk; exact Hk
    | apply beside_bind; [|intros ?]
    | match goal with
      | |- Views.beside _ _ (if ?b then _ else _) => destruct b
      | |- Views.beside _ _ (match ?x with _ => _ end) => destruct x
      end ].

(** *** Addresses *)

Section UserOnce.
Import Text Run Run.Notations ColumnUpdater Views.
Context `{Dates.Platform} `{Dates.IsoParser} {T : Type} `{Tracker T}.
Local Abbreviation M := (Run.M (jira T) event exn).

Lemma user_held_remote (j : jira T) (t : T) k :
  user_held j k ->
  user_held {| remote := t; user_cache := user_cache j;
               version_cache := version_cache j;
               component_cache := component_cache j |} k.
Proof. done. Qed.

Lemma user_beside_version pid name :
  beside user_lookups (@user_held T) (get_or_create_version pid name : M _).
Proof.
  unfold get_or_create_version, as_entities, as_entity, set_versions.
  beside_step user_held_remote.
Qed.

Lemma user_beside_list pid :
  beside user_lookups (@user_held T) (list_project_components pid : M _).
Proof.
  unfold list_project_components, as_entities, set_components.
  beside_step user_held_remote.
Qed.

Lemma user_beside_components pid names ids :
  beside user_lookups (@user_held T) (components_loop pid names ids : M _).
Proof.
  revert ids. induction names as [|name names IH]; intros ids;
    cbn [components_loop].
  - apply beside_ret.
  - unfold as_entity, set_components.
    repeat first [ apply IH | progress beside_step user_held_remote ].
Qed.

(** An address is looked up only when the cache has no entry for it,
    and the answer is filed under it. *)
Lemma user_keeps_resolve email :
  keeps_step user_lookups (@user_held T) (resolve_user_account_id email : M _).
Proof.
  intros h j [Hnd Hheld]. unfold resolve_user_account_id.
  rewrite bind_run. cbn [gets result_of state_of log_of fst snd app].
  destruct (user_cache j !! email) as [acct|] eqn:Hc.
  { cbn. by rewrite app_nil_r. }
  assert (Hfresh : email ∉ marks_of user_lookups h).
  { intros Hin. destruct (Hheld _ Hin) as [x Hx]. congruence. }
  assert (Hnew : forall ans,
    marks_of user_lookups (h ++ [Called (UserSearch email) ans])
    = marks_of user_lookups h ++ [email])
    by (intros; by rewrite marks_of_app).
  assert (Hnd' : forall ans,
    NoDup (marks_of user_lookups (h ++ [Called (UserSearch email) ans]))).
  { intros ans. rewrite Hnew.
    apply NoDup_app. repeat split; [done| |apply NoDup_singleton].
    intros k Hk ->%list_elem_of_singleton. done. }
  rewrite bind_run.
  destruct (call_cases (UserSearch email) j)
    as (ans & t & [[e ->]|[b ->]]); cbn [result_of state_of log_of fst snd].
  { apply Hnd'. }
  unfold json, set_user_cache, modify, bind, ret, raise.
  destruct b as [| | |users| | | |];
    cbn [result_of state_of log_of fst snd app]; rewrite ?app_nil_r;
    try apply Hnd'.
  split; [apply Hnd'|].
  intros k. rewrite Hnew.
  intros [Hold| ->%list_elem_of_singleton]%elem_of_app.
  - unfold user_held. cbn. destruct (decide (k = email)) as [->|Hne].
    + rewrite lookup_insert_eq. by eexists.
    + rewrite lookup_insert_ne by done. by apply Hheld.
  - unfold user_held. cbn. rewrite lookup_insert_eq. by eexists.
Qed.

End UserOnce.

(** X19. In a run of the ColumnUpdater no address is looked up twice:
    the user searches of the log differ pairwise in their query,
    whatever the rows, the answers of the tracker and the caches at
    the start. *)
Theorem address_is_looked_up_once_in_a_run `{Dates.Platform} `{Dates.IsoParser}
    {T : Type} `{ColumnUpdater.Tracker T}
    (a : ColumnUpdater.args) (rows : list (gmap string string))
    (j : ColumnUpdater.jira T) :
  NoDup (Views.marks_of Views.user_lookups
           (Run.log_of (ColumnUpdater.main a rows j))).
Proof.
  apply (main_marks_once Views.user_lookups (@Views.user_held T)); try done.
  - intros email. apply user_keeps_resolve.
  - intros pid name. apply beside_keeps, user_beside_version.
  - intros pid. apply beside_keeps, user_beside_list.
  - intros pid names ids. apply beside_keeps, user_beside_components.
Qed.

(** *** Versions *)

Section VersionOnce.
Import Text Run Run.Notations ColumnUpdater Views.
Context `{Dates.Platform} `{Dates.IsoParser} {T : Type} `{Tracker T}.
Local Abbreviation M := (Run.M (jira T) event exn).

Lemma version_held_remote (j : jira T) (t : T) k :
  version_held j k ->
  version_held {| remote := t; user_cache := user_cache j;
                  version_cache := version_cache j;
                  component_cache := component_cache j |} k.
Proof. done. Qed.

Lemma version_beside_resolve email :
  beside version_creations (@version_held T) (resolve_user_account_id email : M _).
Proof.
  unfold resolve_user_account_id, set_user_cache.
  beside_step version_held_remote.
Qed.

Lemma version_beside_list pid :
  beside version_creations (@version_held T) (list_project_components pid : M _).
Proof.
  unfold list_project_components, as_entities, set_components.
  beside_step version_held_remote.
Qed.

Lemma version_beside_components pid names ids :
  beside version_creations (@version_held T) (components_loop pid names ids : M _).
Proof.
  revert ids. induction names as [|name names IH]; intros ids;
    cbn [components_loop].
  - apply beside_ret.
  - unfold as_entity, set_components.
    repeat first [ apply IH | progress beside_step version_held_remote ].
Qed.

(** A version is created only when the cache of the project has no
    entry under its name, and what was created is filed under it. *)
Lemma version_keeps_get_or_create pid name :
  keeps_step version_creations (@version_held T)
    (get_or_create_version pid name : M _).
Proof.
  intros h j [Hnd Hheld]. unfold get_or_create_version.
  rewrite bind_run. cbn [gets result_of state_of log_of fst snd app].
  rewrite bind_run.
  set (m0 := (match version_cache j !! pid with
              | Some _ => ret tt
              | None => set_versions pid ∅
              end : M unit)).
  assert (exists j0, m0 j = (Ok tt, j0, [])
            /\ (forall k, version_held j k -> version_held j0 k)
            /\ is_Some (version_cache j0 !! pid)) as (j0 & -> & Hmono & [known Hknown]).
  { subst m0. destruct (version_cache j !! pid) as [m|] eqn:E.
    - exists j. by repeat split.
    - eexists. split; [reflexivity|]. split.
      + intros k (m & v & Hm & Hv). exists m, v. split; [|done]. cbn.
        rewrite lookup_insert_ne; [done|]. intros Heq. rewrite <- Heq in Hm.
        congruence.
      + cbn. rewrite lookup_insert_eq. by eexists. }
  cbn [result_of state_of log_of fst snd app]. rewrite bind_run.
  cbn [gets result_of state_of log_of fst snd app]. rewrite Hknown. cbn [default from_option id].
  assert (Hheld0 : forall k, k ∈ marks_of version_creations h -> version_held j0 k)
    by (intros k Hk; by apply Hmono, Hheld).
  clear Hheld Hmono.
  destruct (known !! name) as [v|] eqn:Hname.
  { cbn. by rewrite app_nil_r. }
  assert (Hfresh : (pid, name) ∉ marks_of version_creations h).
  { intros Hin. destruct (Hheld0 _ Hin) as (m & v & Hm & Hv). cbn in Hm, Hv.
    congruence. }
  assert (Hlist : forall ans,
    marks_of version_creations (h ++ [Called (ListVersions pid) ans])
    = marks_of version_creations h)
    by (intros; by rewrite marks_of_app, app_nil_r).
  assert (Hnew : forall ans ans',
    marks_of version_creations
      (h ++ [Called (ListVersions pid) ans; Called (CreateVersion name pid) ans'])
    = marks_of version_creations h ++ [(pid, name)])
    by (intros; by rewrite marks_of_app).
  assert (Hnd' : forall ans ans',
    NoDup (marks_of version_creations
             (h ++ [Called (ListVersions pid) ans;
                    Called (CreateVersion name pid) ans']))).
  { intros ans ans'. rewrite Hnew.
    apply NoDup_app. repeat split; [done| |apply NoDup_singleton].
    intros k Hk ->%list_elem_of_singleton. done. }
  assert (Hfiled : forall (t : T) v k,
    version_held j0 k \/ k = (pid, name) ->
    @version_held T {| remote := t; user_cache := user_cache j0;
                    version_cache := <[pid := <[name := v]> known]> (version_cache j0);
                    component_cache := component_cache j0 |} k).
  { intros t v k [(m & w & Hm & Hw) | ->].
    - destruct (decide (k.1 = pid)) as [Heq|Hne].
      + rewrite Heq in Hm. assert (m = known) as -> by congruence.
        destruct (decide (k.2 = name)) as [Hk|Hk].
        * eexists _, v. cbn. rewrite Heq, Hk. split; apply lookup_insert_eq.
        * eexists _, w. cbn. rewrite Heq.
          split; [apply lookup_insert_eq | by rewrite lookup_insert_ne].
      + exists m, w. cbn. split; [by rewrite lookup_insert_ne | done].
    - eexists _, v. cbn. split; apply lookup_insert_eq. }
  rewrite bind_run.
  destruct (call_cases (ListVersions pid) j0)
    as (ans & t & [[e ->]|[b ->]]); cbn [result_of state_of log_of fst snd].
  { by rewrite Hlist. }
  unfold json, as_entities, as_entity, set_versions, modify, bind, ret, raise.
  destruct b as [| | | |versions| | |];
    cbn [result_of state_of log_of fst snd app]; rewrite ?app_nil_r, ?Hlist;
    try done.
  destruct (List.find _ versions) as [v|].
  { cbn [result_of state_of log_of fst snd app remote user_cache version_cache
         component_cache].
    rewrite ?app_nil_r. split; [by rewrite Hlist|]. rewrite Hlist.
    intros k Hk. apply Hfiled. left. by apply Hheld0. }
  unfold call.
  cbn [remote user_cache version_cache component_cache].
  destruct (answer (CreateVersion name pid) t) as [[|code b] t'].
  { cbn [result_of state_of log_of fst snd app]. apply Hnd'. }
  destruct (code <? 400)%Z;
    [|cbn [result_of state_of log_of fst snd app]; apply Hnd'].
  destruct b as [| | | | |created| |];
    cbn [result_of state_of log_of fst snd app remote user_cache version_cache
         component_cache];
    rewrite ?app_nil_r; try apply Hnd'.
  split; [apply Hnd'|]. intros k. rewrite Hnew.
  intros [Hold| ->%list_elem_of_singleton]%elem_of_app.
  - apply (Hfiled t' created k). left. by apply Hheld0.
  - apply (Hfiled t' created (pid, name)). by right.
Qed.

End VersionOnce.

(** X20. In a run of the ColumnUpdater no version is created twice:
    the requests that create a version differ pairwise in the project
    or in the name, whatever the rows, the answers of the tracker and
    the caches at the start. *)
Theorem version_is_created_once_in_a_run `{Dates.Platform} `{Dates.IsoParser}
    {T : Type} `{ColumnUpdater.Tracker T}
    (a : ColumnUpdater.args) (rows : list (gmap string string))
    (j : ColumnUpdater.jira T) :
  NoDup (Views.marks_of Views.version_creations
           (Run.log_of (ColumnUpdater.main a rows j))).
Proof.
  apply (main_marks_once Views.version_creations (@Views.version_held T));
    try done.
  - intros email. apply beside_keeps, version_beside_resolve.
  - intros pid name. apply version_keeps_get_or_create.
  - intros pid. apply beside_keeps, version_beside_list.
  - intros pid names ids. apply beside_keeps, version_beside_components.
Qed.


(** ** ColumnUpdater: searches, skipped rows and components that exist *)

Section SearchFacts.
Import Text Run Run.Notations ColumnUpdater Views.
Context `{Dates.Platform} `{Dates.IsoParser} {T : Type} `{Tracker T}.
Local Abbreviation M := (Run.M (jira T) event exn).

Lemma any_state_remote (j : jira T) (t : T) k :
  any_state j k ->
  any_state {| remote := t; user_cache := user_cache j;
               version_cache := version_cache j;
               component_cache := component_cache j |} k.
Proof. done. Qed.

Local Abbreviation quiet := (beside summary_searches (@any_state T)).

Lemma quiet_components_loop pid names ids :
  quiet (components_loop pid names ids : M _).
Proof.
  revert ids. induction names as [|name names IH]; intros ids;
    cbn [components_loop].
  - apply beside_ret.
  - unfold as_entity, set_components.
    repeat first [ apply IH | progress beside_step any_state_remote ].
Qed.

Lemma quiet_versions_loop pid names ids :
  quiet (versions_loop pid names ids : M _).
Proof.
  revert ids. induction names as [|name names IH]; intros ids;
    cbn [versions_loop].
  - apply beside_ret.
  - unfold get_or_create_version, as_entities, as_entity, set_versions.
    repeat first [ apply IH | progress beside_step any_state_remote ].
Qed.

Lemma quiet_build_fields row sf ef project :
  quiet (build_fields row sf ef project : M _).
Proof.
  unfold build_fields, project_id, list_project_components,
    resolve_user_account_id, as_entities, set_components, set_user_cache.
  repeat first
    [ apply quiet_components_loop | apply quiet_versions_loop
    | progress beside_step any_state_remote ].
Qed.

Lemma quiet_update_row a project i row key c :
  quiet (update_row a project i row key c : M _).
Proof.
  unfold update_row. apply beside_bind; [apply quiet_build_fields|].
  intros fields.
  unfold try_update, try_link, update_issue_fields, add_issue_link_is_blocked_by.
  repeat first
    [ apply beside_for_each; intros ? ?
    | apply beside_try_except; [|intros ?]
    | progress beside_step any_state_remote ].
Qed.

Lemma search_logs_one pk summary (j : jira T) :
  length (marks_of summary_searches (log_of (search_issue_by_summary pk summary j)))
  = 1%nat.
Proof.
  unfold search_issue_by_summary. rewrite bind_run.
  destruct (call_cases (search_request pk summary) j)
    as (ans & t & [[e ->]|[b ->]]); cbn [result_of state_of log_of fst snd];
    [done|].
  rewrite marks_of_app.
  assert (Hq : quiet (fun j => (j0 <- json b ;;
                      issues <- match j0 with
                                | Issues l => ret l
                                | Users _ | Entities _ => raise LookupError
                                | _ => ret []
                                end ;;
                      ret (select_issue issues summary)) j : _ * _ * _)).
  { beside_step any_state_remote. }
  destruct (Hq {| remote := t; user_cache := user_cache j;
                  version_cache := version_cache j;
                  component_cache := component_cache j |}) as [_ Hl].
  cbv beta in Hl. rewrite Hl. done.
Qed.

Lemma process_row_searches a project i row c (j : jira T) :
  (length (marks_of summary_searches (log_of (process_row a project i row c j)))
   <= if keyless row then 1 else 0)%nat.
Proof.
  unfold process_row, keyless.
  destruct (truthy (strip (default "" (row !! "IssueKey")))); cbn [negb].
  { destruct (quiet_update_row a project i row
                (strip (default "" (row !! "IssueKey"))) c j) as [_ ->]. done. }
  destruct (truthy (strip (default "" (row !! "Summary")))); cbn [negb].
  2:{ cbn. lia. }
  rewrite bind_run.
  pose proof (search_logs_one (project_key a)
                (strip (default "" (row !! "Summary"))) j) as Hone.
  destruct (search_issue_by_summary _ _ j) as [[[found|e] j1] l1];
    cbn [result_of state_of log_of fst snd] in *; [|lia].
  rewrite marks_of_app, length_app, Hone.
  destruct (nonempty found) as [k|].
  - destruct (quiet_update_row a project i row k c j1) as [_ ->]. done.
  - cbn. lia.
Qed.

Lemma rows_loop_searches a project rows i c (j : jira T) :
  (length (marks_of summary_searches (log_of (rows_loop a project rows i c j)))
   <= length (List.filter keyless rows))%nat.
Proof.
  revert i c j. induction rows as [|row rows IH]; intros i c j; [done|].
  cbn [rows_loop List.filter]. destruct (cap_reached a c); [cbn; lia|].
  rewrite bind_run. pose proof (process_row_searches a project i row c j) as Hrow.
  destruct (process_row a project i row c j) as [[[c'|e] j1] l1];
    cbn [result_of state_of log_of fst snd] in *.
  - rewrite marks_of_app, length_app. specialize (IH (i + 1)%Z c' j1).
    destruct (keyless row); cbn [length]; lia.
  - destruct (keyless row); cbn [length]; lia.
Qed.

End SearchFacts.

(** X21. A run of the ColumnUpdater searches by summary at most once
    for each row that names no issue key: the searches of the log are
    at most as many as the rows whose IssueKey is missing or blank, so
    a file in which every row has an IssueKey is never searched. *)
Theorem one_search_per_keyless_row `{Dates.Platform} `{Dates.IsoParser}
    {T : Type} `{ColumnUpdater.Tracker T}
    (a : ColumnUpdater.args) (rows : list (gmap string string))
    (j : ColumnUpdater.jira T) :
  (length (Views.marks_of Views.summary_searches
             (Run.log_of (ColumnUpdater.main a rows j)))
   <= length (List.filter Views.keyless rows))%nat.
Proof.
  unfold ColumnUpdater.main. rewrite bind_run.
  assert (Hmeta : Views.beside Views.summary_searches (@Views.any_state T)
                    (ColumnUpdater.get_project_meta (ColumnUpdater.project_key a))).
  { unfold ColumnUpdater.get_project_meta. beside_step (@any_state_remote T). }
  destruct (Hmeta j) as [_ Hl].
  destruct (ColumnUpdater.get_project_meta _ j) as [[[project|e] j1] l1];
    cbn [Run.result_of Run.state_of Run.log_of fst snd] in *.
  2:{ rewrite Hl. cbn. lia. }
  rewrite marks_of_app, Hl, bind_run. cbn [app].
  pose proof (rows_loop_searches a project rows 1 ColumnUpdater.counters0 j1) as Hrows.
  destruct (ColumnUpdater.rows_loop a project rows 1 ColumnUpdater.counters0 j1)
    as [[[c|e] j2] l2]; cbn [Run.result_of Run.state_of Run.log_of fst snd] in *;
    [|done].
  rewrite marks_of_app, length_app.
  assert (Hend : Views.beside Views.summary_searches (@Views.any_state T)
            (Run.bind
               (Run.tell (ColumnUpdater.Printed
                            (ColumnUpdater.Done (ColumnUpdater.updated c)
                               (ColumnUpdater.linked c) (ColumnUpdater.skipped c)
                               (ColumnUpdater.dry_run a))))
               (fun _ =>
                  Run.bind
                    (if ColumnUpdater.dry_run a
                     then Run.tell (ColumnUpdater.Printed ColumnUpdater.NoChangesMade)
                     else Run.ret tt)
                    (fun _ => Run.ret c)))).
  { beside_step (@any_state_remote T). }
  destruct (Hend j2) as [_ He]. rewrite He. cbn [length]. lia.
Qed.

(** ** ColumnUpdater: rows that are skipped *)

Section SkipFacts.
Import Text Run Run.Notations ColumnUpdater Views.
Context `{Dates.Platform} `{Dates.IsoParser} {T : Type} `{Tracker T}.
Local Abbreviation M := (Run.M (jira T) event exn).

(** A search sends its one request and touches no cache. *)
Lemma search_run pk summary (j : jira T) :
  requests_of (log_of (search_issue_by_summary pk summary j))
  = [search_request pk summary]
  /\ user_cache (state_of (search_issue_by_summary pk summary j)) = user_cache j
  /\ version_cache (state_of (search_issue_by_summary pk summary j))
     = version_cache j
  /\ component_cache (state_of (search_issue_by_summary pk summary j))
     = component_cache j.
Proof.
  unfold search_issue_by_summary, bind, call, json, ret, raise.
  destruct (answer _ (remote j)) as [[|code b] t]; [done|].
  destruct (code <? 400)%Z; [|done].
  by destruct b.
Qed.

Lemma skipped_row a project i row c (j j1 : jira T) c1 l1 :
  process_row a project i row c j = (Ok c1, j1, l1) ->
  skipped c1 = (skipped c + 1)%Z ->
  (requests_of l1 = []
   \/ requests_of l1
      = [search_request (project_key a) (strip (default "" (row !! "Summary")))])
  /\ user_cache j1 = user_cache j
  /\ version_cache j1 = version_cache j
  /\ component_cache j1 = component_cache j
  /\ updated c1 = updated c /\ linked c1 = linked c.
Proof.
  unfold process_row.
  destruct (truthy (strip (default "" (row !! "IssueKey")))).
  { intros Hrun Hs. apply update_row_account in Hrun. lia. }
  destruct (truthy (strip (default "" (row !! "Summary")))); cbn [negb].
  2:{ intros [= <- <- <-] _. by repeat split; try left. }
  intros Hrun Hs.
  apply bind_ok_inv in Hrun as (found & j' & la & lb & Hsearch & Hrun & ->).
  destruct (search_run (project_key a) (strip (default "" (row !! "Summary"))) j)
    as (Hreq & Hu & Hv & Hc).
  rewrite Hsearch in Hreq, Hu, Hv, Hc.
  cbn [result_of state_of log_of fst snd] in *.
  destruct (nonempty found) as [k|].
  { apply update_row_account in Hrun. lia. }
  injection Hrun as <- <- <-. rewrite requests_of_app, Hreq.
  by repeat split; try right.
Qed.

End SkipFacts.

(** X22. A row that the ColumnUpdater counts as skipped has changed
    nothing: it sent no request, or only the search by its summary; no
    component or version was created for it, the caches are as before
    and the other counters have not moved. *)
Theorem skipped_row_changes_nothing `{Dates.Platform} `{Dates.IsoParser}
    {T : Type} `{ColumnUpdater.Tracker T}
    (a : ColumnUpdater.args) (project : option string) (i : Z)
    (row : gmap string string) (c c1 : ColumnUpdater.counters)
    (j j1 : ColumnUpdater.jira T) (l1 : list ColumnUpdater.event) :
  ColumnUpdater.process_row a project i row c j = (Run.Ok c1, j1, l1) ->
  ColumnUpdater.skipped c1 = (ColumnUpdater.skipped c + 1)%Z ->
  (ColumnUpdater.requests_of l1 = []
   \/ ColumnUpdater.requests_of l1
      = [ColumnUpdater.search_request (ColumnUpdater.project_key a)
           (Text.strip (default "" (row !! "Summary")))])
  /\ ColumnUpdater.user_cache j1 = ColumnUpdater.user_cache j
  /\ ColumnUpdater.version_cache j1 = ColumnUpdater.version_cache j
  /\ ColumnUpdater.component_cache j1 = ColumnUpdater.component_cache j
  /\ ColumnUpdater.updated c1 = ColumnUpdater.updated c
  /\ ColumnUpdater.linked c1 = ColumnUpdater.linked c.
Proof. apply skipped_row. Qed.

Lemma skipped_row_changes_nothing_witness :
  ColumnUpdater.requests_of
    (Run.log_of
       (@ColumnUpdater.process_row Dates.glibc Dates.no_iso unit
          (Examples.stateless Examples.agreeable)
          (Examples.settings false None) None 1 (Examples.named "Deck")
          ColumnUpdater.counters0 (ColumnUpdater.new_jira tt))) = []
  \/ ColumnUpdater.requests_of
       (Run.log_of
          (@ColumnUpdater.process_row Dates.glibc Dates.no_iso unit
             (Examples.stateless Examples.agreeable)
             (Examples.settings false None) None 1 (Examples.named "Deck")
             ColumnUpdater.counters0 (ColumnUpdater.new_jira tt)))
     = [ColumnUpdater.search_request "FS"
          (Text.strip (default "" (Examples.named "Deck" !! "Summary")))].
Proof.
  apply (@skipped_row_changes_nothing Dates.glibc Dates.no_iso unit
           (Examples.stateless Examples.agreeable)
           (Examples.settings false None) None 1 (Examples.named "Deck")
           ColumnUpdater.counters0 (ColumnUpdater.skip ColumnUpdater.counters0)
           (ColumnUpdater.new_jira tt) (ColumnUpdater.new_jira tt)).
  - by vm_compute.
  - reflexivity.
Defined.

(** ** ColumnUpdater: components that exist *)

Section ReuseFacts.
Import Text Run Run.Notations ColumnUpdater Views.
Context {T : Type} `{Tracker T}.
Local Abbreviation M := (Run.M (jira T) event exn).

(** Every component of the listing is filed under its trimmed name in
    lower case. *)
Lemma listing_files_every_component (l : list entity) (m0 : gmap string entity) k :
  (exists c, In c l /\ lower (strip (ent_name c)) = k) \/ is_Some (m0 !! k) ->
  is_Some (List.fold_left (fun m c => <[lower (strip (ent_name c)) := c]> m) l m0
           !! k).
Proof.
  revert m0. induction l as [|c l IH]; intros m0.
  - intros [(c & [] & _)|Hm]. exact Hm.
  - cbn [List.fold_left]. intros [(c' & [<-|Hin] & Hk)|Hm]; apply IH.
    + right. rewrite Hk. rewrite lookup_insert_eq. by eexists.
    + left. by exists c'.
    + right. destruct (decide (lower (strip (ent_name c)) = k)) as [->|Hne].
      * rewrite lookup_insert_eq. by eexists.
      * by rewrite lookup_insert_ne.
Qed.

(** Names that the cache holds are taken from it: no request. *)
Lemma components_loop_held pid names ids comps (j : jira T) :
  component_cache j !! pid = Some comps ->
  Forall (fun name => is_Some (comps !! lower name)) names ->
  exists ids', components_loop pid names ids j = (Ok ids', j, []).
Proof.
  intros Hc Hn. revert ids. induction Hn as [|name names [c Hname] _ IH];
    intros ids; [by eexists|].
  cbn [components_loop]. unfold bind at 1, gets. rewrite Hc. cbn [default from_option id].
  rewrite Hname. destruct (IH (ids ++ [ent_id c])) as [ids' ->]. by eexists.
Qed.

End ReuseFacts.

(** X23. A component that the tracker lists is not created again: when
    every name of a row is, in lower case, the trimmed lower-case name
    of a listed component, the listing is the only request made for
    the components of the row, whatever the letter case of the names. *)
Theorem listed_components_are_reused {T : Type} `{ColumnUpdater.Tracker T}
    (project_id : string) (names ids : list string) (j : ColumnUpdater.jira T)
    (code : Z) (listed : list ColumnUpdater.entity) (t : T) :
  ColumnUpdater.component_cache j !! project_id = None ->
  ColumnUpdater.answer (ColumnUpdater.ListComponents project_id)
    (ColumnUpdater.remote j)
  = (ColumnUpdater.Status code (ColumnUpdater.Entities listed), t) ->
  (code < 400)%Z ->
  Forall (fun name =>
            exists c, In c listed
                      /\ Text.lower (Text.strip (ColumnUpdater.ent_name c))
                         = Text.lower name) names ->
  ColumnUpdater.requests_of
    (Run.log_of
       (Run.bind (ColumnUpdater.list_project_components project_id)
          (fun _ => ColumnUpdater.components_loop project_id names ids) j))
  = [ColumnUpdater.ListComponents project_id]
  /\ exists ids',
       Run.result_of
         (Run.bind (ColumnUpdater.list_project_components project_id)
            (fun _ => ColumnUpdater.components_loop project_id names ids) j)
       = Run.Ok ids'.
Proof.
  intros Hcache Hans Hcode Hnames. apply Z.ltb_lt in Hcode.
  rewrite bind_run.
  assert (Hlist : exists comps j1,
    ColumnUpdater.list_project_components project_id j
    = (Run.Ok comps, j1,
       [ColumnUpdater.Called (ColumnUpdater.ListComponents project_id)
          (ColumnUpdater.Status code (ColumnUpdater.Entities listed))])
    /\ ColumnUpdater.component_cache j1 !! project_id = Some comps
    /\ Forall (fun name => is_Some (comps !! Text.lower name)) names).
  { unfold ColumnUpdater.list_project_components, Run.bind, Run.gets.
    rewrite Hcache. unfold ColumnUpdater.call. rewrite Hans, Hcode.
    cbn. eexists _, _. split; [reflexivity|]. split.
    - cbn. apply lookup_insert_eq.
    - eapply Forall_impl; [exact Hnames|]. cbn. intros name Hin.
      apply listing_files_every_component. by left. }
  destruct Hlist as (comps & j1 & -> & Hc1 & Hheld).
  cbn [Run.result_of Run.state_of Run.log_of fst snd].
  destruct (components_loop_held project_id names ids comps j1 Hc1 Hheld)
    as [ids' ->].
  split; [done | by eexists].
Qed.

Lemma listed_components_are_reused_witness :
  ColumnUpdater.requests_of
    (Run.log_of
       (Run.bind
          (@ColumnUpdater.list_project_components unit
             (Examples.stateless Cases.with_chassis) "10000")
          (fun _ => @ColumnUpdater.components_loop unit
                      (Examples.stateless Cases.with_chassis)
                      "10000" ["chassis"; "CHASSIS"] [])
          (ColumnUpdater.new_jira tt)))
  = [ColumnUpdater.ListComponents "10000"]
  /\ exists ids',
       Run.result_of
         (Run.bind
            (@ColumnUpdater.list_project_components unit
               (Examples.stateless Cases.with_chassis) "10000")
            (fun _ => @ColumnUpdater.components_loop unit
                      (Examples.stateless Cases.with_chassis)
                      "10000" ["chassis"; "CHASSIS"] [])
            (ColumnUpdater.new_jira tt))
       = Run.Ok ids'.
Proof.
  apply (@listed_components_are_reused unit (Examples.stateless Cases.with_chassis)
           "10000" ["chassis"; "CHASSIS"] [] (ColumnUpdater.new_jira tt) 200
           [{| ColumnUpdater.ent_id := "10010";
               ColumnUpdater.ent_name := " Chassis" |}] tt).
  - reflexivity.
  - reflexivity.
  - lia.
  - repeat constructor; eexists; (split; [by left | by vm_compute]).
Defined.

(** ** DependencyUpdater *)

Section DependencyFacts.
Import Text Run Run.Notations DependencyUpdater.
Context {T : Type} `{Tracker T}.
Local Abbreviation M := (Run.M T event exn).

Lemma dep_requests_of_app l1 l2 :
  requests_of (l1 ++ l2) = requests_of l1 ++ requests_of l2.
Proof. apply List.flat_map_app. Qed.

(** A search logs its request and nothing else. *)
Lemma search_by_summary_run project_key summary (t : T) :
  exists a,
    log_of (search_by_summary project_key summary t)
    = [Called (search_request project_key summary) a]
    /\ (answer (search_request project_key summary) t).1 = a
    /\ state_of (search_by_summary project_key summary t)
       = (answer (search_request project_key summary) t).2
    /\ result_of (search_by_summary project_key summary t)
       = match a with
         | Status code (Json v) =>
             if (code <? 400)%Z then Ok v else Raise (RuntimeError code)
         | Status code _ =>
             if (code <? 400)%Z then Raise JSONDecodeError
             else Raise (RuntimeError code)
         | Unreachable => Raise ConnectionError
         end.
Proof.
  exists (answer (search_request project_key summary) t).1.
  unfold search_by_summary, post, bind.
  destruct (answer _ t) as [[|code b] t']; [done|].
  destruct (code <? 400)%Z eqn:E; destruct b; cbn; rewrite ?E; done.
Qed.

(** The reading of the two keys sends nothing. *)
Lemma dep_keys_run src_sum dep_sum (v1 v2 : value) (t : T) :
  let m : M (option (string * string)) :=
    try_except
      (src_key <- first_key v1 ;;
       dep_key <- first_key v2 ;;
       ret (Some (src_key, dep_key)))
      (fun e =>
         match e with
         | KeyError | IndexError =>
             tell (Printed (CouldNotFindKeys src_sum dep_sum)) ;;;
             ret None
         | _ => raise e
         end) in
  state_of (m t) = t /\ requests_of (log_of (m t)) = [].
Proof.
  cbv zeta. destruct v1 as [[|[k1|] l1]| |]; destruct v2 as [[|[k2|] l2]| |];
    by split.
Qed.

(** The link of a dry run sends nothing and is counted. *)
Lemma dep_try_link_dry src_key dep_key (c : counters) (t : T) :
  let m : M counters :=
    try_except
      (link_is_blocked_by src_key dep_key true ;;;
       let c' := {| processed := processed c; linked := linked c + 1;
                    link_counter := link_counter c + 1 |} in
       (if (link_counter c' mod 10 =? 0)%Z
        then tell (Printed (Progress (link_counter c') src_key dep_key))
        else ret tt) ;;;
       ret c')
      (fun e => tell (Printed (ErrorLinking src_key dep_key e)) ;;; ret c) in
  state_of (m t) = t /\ requests_of (log_of (m t)) = []
  /\ result_of (m t) = Ok {| processed := processed c; linked := linked c + 1;
                             link_counter := link_counter c + 1 |}.
Proof.
  cbv zeta. unfold link_is_blocked_by, try_except, bind, ret, tell.
  cbn [linked link_counter processed].
  by destruct (_ =? 0)%Z.
Qed.

(** The link, dry or live, never ends the row: it is counted or
    reported. *)
Lemma dep_try_link_counts src_key dep_key dry (c : counters) (t : T) :
  let m : M counters :=
    try_except
      (link_is_blocked_by src_key dep_key dry ;;;
       let c' := {| processed := processed c; linked := linked c + 1;
                    link_counter := link_counter c + 1 |} in
       (if (link_counter c' mod 10 =? 0)%Z
        then tell (Printed (Progress (link_counter c') src_key dep_key))
        else ret tt) ;;;
       ret c')
      (fun e => tell (Printed (ErrorLinking src_key dep_key e)) ;;; ret c) in
  result_of (m t) = Ok c
  \/ result_of (m t) = Ok {| processed := processed c; linked := linked c + 1;
                             link_counter := link_counter c + 1 |}.
Proof.
  cbv zeta. unfold link_is_blocked_by, post, try_except, bind, ret, tell.
  cbn [linked link_counter processed].
  destruct dry; [right; by destruct (_ =? 0)%Z|].
  destruct (answer _ t) as [[|code b] t']; [by left|].
  destruct (code <? 400)%Z; [|by left]. right.
  destruct (_ && _); [by destruct (_ =? 0)%Z|].
  destruct b; by destruct (_ =? 0)%Z.
Qed.

Lemma dep_process_row_skip a r c (t : T) :
  has_dependency r = false -> process_row a r c t = (Ok c, t, []).
Proof.
  unfold has_dependency, process_row.
  by destruct (nonempty (r !! "Depends on")), (nonempty (r !! "Summary")).
Qed.

Lemma dep_process_row_counts a r c (t : T) c1 :
  result_of (process_row a r c t) = Ok c1 ->
  processed c1 = (processed c + if has_dependency r then 1 else 0)%Z
  /\ (linked c <= linked c1 <= linked c + if has_dependency r then 1 else 0)%Z
  /\ (link_counter c1 - linked c1 = link_counter c - linked c)%Z.
Proof.
  destruct (has_dependency r) eqn:Hd.
  2:{ rewrite dep_process_row_skip by done. intros [= <-]. lia. }
  unfold has_dependency in Hd. unfold process_row.
  destruct (nonempty (r !! "Depends on")) as [dep|]; [|done].
  destruct (nonempty (r !! "Summary")) as [src|]; [|done].
  rewrite bind_run.
  destruct (search_by_summary (project_key a) src t) as [[[v1|e] t1] l1]; [|done].
  cbn [result_of state_of log_of fst snd]. rewrite bind_run.
  destruct (search_by_summary (project_key a) dep t1) as [[[v2|e] t2] l2]; [|done].
  cbn [result_of state_of log_of fst snd]. rewrite bind_run.
  match goal with
  | |- context [try_except ?m ?h t2] =>
      destruct (try_except m h t2) as [[[keys|e] t3] l3]; [|done]
  end.
  cbn [result_of state_of log_of fst snd].
  destruct keys as [[src_key dep_key]|].
  - match goal with
    | |- context [try_except ?m ?h t3] =>
        pose proof (dep_try_link_counts src_key dep_key (dry_run a)
                      {| processed := processed c + 1; linked := linked c;
                         link_counter := link_counter c |} t3) as Hl
    end.
    cbv zeta in Hl. intros Hr.
    destruct Hl as [Hl|Hl];
      match type of Hl with
      | _ = Ok ?c' => assert (Ok c' = Ok c1 :> outcome exn counters) as [= <-]
                        by (rewrite <- Hl; exact Hr)
      end; cbn; lia.
  - intros [= <-]. cbn. lia.
Qed.

Lemma dep_process_row_dry a r c (t : T) :
  dry_run a = true ->
  requests_of (log_of (process_row a r c t)) `prefix_of` searches_of (project_key a) r
  /\ ((exists c1, result_of (process_row a r c t) = Ok c1) ->
      requests_of (log_of (process_row a r c t)) = searches_of (project_key a) r).
Proof.
  intros Hdry. unfold process_row, searches_of. rewrite Hdry.
  destruct (nonempty (r !! "Depends on")) as [dep|];
    [|by split; [exists []|]].
  destruct (nonempty (r !! "Summary")) as [src|];
    [|by split; [exists []|]].
  rewrite bind_run.
  destruct (search_by_summary_run (project_key a) src t) as (a1 & Hl1 & _ & _ & _).
  destruct (search_by_summary (project_key a) src t) as [[[v1|e] t1] l1];
    cbn [result_of state_of log_of fst snd] in *; subst l1.
  2:{ split; [by eexists | by intros [? ?]]. }
  rewrite bind_run.
  destruct (search_by_summary_run (project_key a) dep t1) as (a2 & Hl2 & _ & _ & _).
  destruct (search_by_summary (project_key a) dep t1) as [[[v2|e] t2] l2];
    cbn [result_of state_of log_of fst snd] in *; subst l2.
  2:{ split; [by exists [] | done]. }
  rewrite bind_run.
  pose proof (dep_keys_run src dep v1 v2 t2) as Hk. cbv zeta in Hk.
  match goal with
  | |- context [try_except ?m ?h t2] =>
      destruct (try_except m h t2) as [[[keys|e] t3] l3]
  end; cbn [result_of state_of log_of fst snd] in *; destruct Hk as [-> Hk].
  2:{ rewrite !dep_requests_of_app, Hk. split; [by exists [] | done]. }
  destruct keys as [[src_key dep_key]|].
  - pose proof (dep_try_link_dry src_key dep_key
                  {| processed := processed c + 1; linked := linked c;
                     link_counter := link_counter c |} t2) as Hl.
    cbv zeta in Hl. destruct Hl as (_ & Hl & _).
    rewrite !dep_requests_of_app, Hk, Hl. split; [by exists [] | done].
  - cbn [ret log_of snd]. rewrite !dep_requests_of_app, Hk.
    split; [by exists [] | done].
Qed.

Lemma dep_rows_counts a rows c (t : T) c1 :
  result_of (for_each (process_row a) rows c t) = Ok c1 ->
  processed c1
  = (processed c + Z.of_nat (length (List.filter has_dependency rows)))%Z
  /\ (linked c <= linked c1
      <= linked c + Z.of_nat (length (List.filter has_dependency rows)))%Z
  /\ (link_counter c1 - linked c1 = link_counter c - linked c)%Z.
Proof.
  revert c t. induction rows as [|r rows IH]; intros c t.
  - intros [= <-]. cbn. lia.
  - cbn [for_each]. rewrite bind_run.
    pose proof (dep_process_row_counts a r c t) as Hrow.
    destruct (process_row a r c t) as [[[c'|e] t'] l']; [|done].
    cbn [result_of state_of log_of fst snd] in *.
    specialize (Hrow c' eq_refl). intros Hrest. apply IH in Hrest.
    cbn [List.filter]. destruct (has_dependency r); cbn [length]; lia.
Qed.

Lemma dep_rows_dry a rows c (t : T) :
  dry_run a = true ->
  requests_of (log_of (for_each (process_row a) rows c t))
    `prefix_of` List.flat_map (searches_of (project_key a)) rows
  /\ ((exists c1, result_of (for_each (process_row a) rows c t) = Ok c1) ->
      requests_of (log_of (for_each (process_row a) rows c t))
      = List.flat_map (searches_of (project_key a)) rows).
Proof.
  intros Hdry. revert c t. induction rows as [|r rows IH]; intros c t.
  - by split; [exists []|].
  - cbn [for_each List.flat_map]. rewrite bind_run.
    destruct (dep_process_row_dry a r c t Hdry) as [Hp He].
    destruct (process_row a r c t) as [[[c'|e] t'] l'];
      cbn [result_of state_of log_of fst snd] in *.
    + rewrite dep_requests_of_app, He by by eexists.
      destruct (IH c' t') as [IHp IHe]. split.
      * by apply prefix_app.
      * intros Hok. by rewrite IHe.
    + split; [by apply prefix_app_r | by intros [? ?]].
Qed.

(** A row raises only out of a search, or of the reading of its answer:
    the last request it sent is a search. *)
Lemma dep_process_row_raises a r c (t : T) e :
  result_of (process_row a r c t) = Raise e ->
  exists l s,
    requests_of (log_of (process_row a r c t))
    = l ++ [search_request (project_key a) s].
Proof.
  unfold process_row.
  destruct (nonempty (r !! "Depends on")) as [dep|]; [|done].
  destruct (nonempty (r !! "Summary")) as [src|]; [|done].
  rewrite bind_run.
  destruct (search_by_summary_run (project_key a) src t) as (a1 & Hl1 & _ & _ & _).
  destruct (search_by_summary (project_key a) src t) as [[[v1|e1] t1] l1];
    cbn [result_of state_of log_of fst snd] in *; subst l1.
  2:{ intros _. by exists [], src. }
  rewrite bind_run.
  destruct (search_by_summary_run (project_key a) dep t1) as (a2 & Hl2 & _ & _ & _).
  destruct (search_by_summary (project_key a) dep t1) as [[[v2|e2] t2] l2];
    cbn [result_of state_of log_of fst snd] in *; subst l2.
  2:{ intros _. by exists [search_request (project_key a) src], dep. }
  rewrite bind_run.
  pose proof (dep_keys_run src dep v1 v2 t2) as Hk. cbv zeta in Hk.
  match goal with
  | |- context [try_except ?m ?h t2] =>
      destruct (try_except m h t2) as [[[keys|e3] t3] l3]
  end; cbn [result_of state_of log_of fst snd] in *; destruct Hk as [-> Hk].
  2:{ intros _. rewrite !dep_requests_of_app, Hk.
      by exists [search_request (project_key a) src], dep. }
  destruct keys as [[src_key dep_key]|]; [|done].
  pose proof (dep_try_link_counts src_key dep_key (dry_run a)
                {| processed := processed c + 1; linked := linked c;
                   link_counter := link_counter c |} t2) as Hl.
  cbv zeta in Hl. intros Hr.
  destruct Hl as [Hl|Hl]; rewrite Hr in Hl; discriminate Hl.
Qed.

Lemma dep_rows_raise a rows c (t : T) e :
  result_of (for_each (process_row a) rows c t) = Raise e ->
  exists l s,
    requests_of (log_of (for_each (process_row a) rows c t))
    = l ++ [search_request (project_key a) s].
Proof.
  revert c t. induction rows as [|r rows IH]; intros c t; [done|].
  cbn [for_each]. rewrite bind_run.
  pose proof (dep_process_row_raises a r c t) as Hrow.
  destruct (process_row a r c t) as [[[c'|e'] t'] l'];
    cbn [result_of state_of log_of fst snd] in *.
  - intros Hr. destruct (IH c' t' Hr) as (l & s & Hl).
    exists (requests_of l' ++ l), s. by rewrite dep_requests_of_app, Hl, app_assoc.
  - intros _. by eapply Hrow.
Qed.

End DependencyFacts.

(** X24. When [main] of the DependencyUpdater ends, [processed] is the
    number of rows that have both a Summary and a Depends on, and
    [linked] is at most that number: a row without one of the two
    cells is passed over, and a row is linked at most once. *)
Theorem dependency_counters_account_for_rows {T : Type}
    `{DependencyUpdater.Tracker T}
    (a : DependencyUpdater.args) (rows : list (gmap string string)) (t : T)
    (c : DependencyUpdater.counters) :
  Run.result_of (DependencyUpdater.main a rows t) = Run.Ok c ->
  DependencyUpdater.processed c
  = Z.of_nat (length (List.filter DependencyUpdater.has_dependency rows))
  /\ (0 <= DependencyUpdater.linked c <= DependencyUpdater.processed c)%Z
  /\ DependencyUpdater.link_counter c = DependencyUpdater.linked c.
Proof.
  unfold DependencyUpdater.main. rewrite bind_run.
  pose proof (dep_rows_counts a rows DependencyUpdater.counters0 t) as Hrows.
  destruct (Run.for_each _ rows _ t) as [[[c'|e] t'] l']; [|done].
  cbn [Run.result_of Run.state_of Run.log_of fst snd] in *.
  specialize (Hrows c' eq_refl). intros [= <-]. cbn in Hrows. lia.
Qed.

Lemma dependency_counters_account_for_rows_witness :
  DependencyUpdater.processed
    {| DependencyUpdater.processed := 1; DependencyUpdater.linked := 1;
       DependencyUpdater.link_counter := 1 |}
  = Z.of_nat (length (List.filter DependencyUpdater.has_dependency
                        [Cases.depends "Design" "Plan"; Cases.depends "Plan" ""]))
  /\ (0 <= 1 <= 1)%Z
  /\ 1%Z = 1%Z.
Proof.
  apply (@dependency_counters_account_for_rows nat Cases.two_found
           (Cases.run_of false)
           [Cases.depends "Design" "Plan"; Cases.depends "Plan" ""] 0%nat).
  vm_compute. reflexivity.
Defined.

(** X25. In a dry run the DependencyUpdater asks for no link: it makes
    the two searches of each row that has a dependency, by Summary and
    then by Depends on, in the order of the rows, and nothing else; a
    run that is ended by an exception has made a first part of them. *)
Theorem dependency_dry_run_only_searches {T : Type}
    `{DependencyUpdater.Tracker T}
    (a : DependencyUpdater.args) (rows : list (gmap string string)) (t : T) :
  DependencyUpdater.dry_run a = true ->
  DependencyUpdater.requests_of (Run.log_of (DependencyUpdater.main a rows t))
    `prefix_of` List.flat_map
                  (DependencyUpdater.searches_of (DependencyUpdater.project_key a))
                  rows
  /\ ((exists c, Run.result_of (DependencyUpdater.main a rows t) = Run.Ok c) ->
      DependencyUpdater.requests_of (Run.log_of (DependencyUpdater.main a rows t))
      = List.flat_map
          (DependencyUpdater.searches_of (DependencyUpdater.project_key a)) rows).
Proof.
  intros Hdry. unfold DependencyUpdater.main. rewrite bind_run.
  destruct (dep_rows_dry a rows DependencyUpdater.counters0 t Hdry) as [Hp He].
  destruct (Run.for_each _ rows _ t) as [[[c'|e] t'] l'];
    cbn [Run.result_of Run.state_of Run.log_of fst snd] in *.
  - rewrite dep_requests_of_app, app_nil_r. split; [done|].
    intros _. apply He. by eexists.
  - split; [done | by intros [? ?]].
Qed.

Lemma dependency_dry_run_only_searches_witness :
  DependencyUpdater.requests_of
    (Run.log_of
       (@DependencyUpdater.main nat Cases.two_found (Cases.run_of true)
          [Cases.depends "Design" "Plan"; Cases.depends "Plan" ""] 0%nat))
  = [DependencyUpdater.search_request "FS" "Design";
     DependencyUpdater.search_request "FS" "Plan"].
Proof.
  apply (proj2 (@dependency_dry_run_only_searches nat Cases.two_found
                  (Cases.run_of true)
                  [Cases.depends "Design" "Plan"; Cases.depends "Plan" ""] 0%nat
                  eq_refl)).
  eexists. vm_compute. reflexivity.
Defined.

(** X26. For a row whose two searches each find something, a live run of
    the DependencyUpdater links the first issue found for the Summary
    (inward) to the first issue found for the Depends on (outward),
    without comparing summaries, and counts the row as linked as soon
    as the tracker answers the link with a status below 400, whatever
    the body, an empty one included. *)
Theorem dependency_links_first_hits {T : Type} `{DependencyUpdater.Tracker T}
    (a : DependencyUpdater.args) (r : gmap string string)
    (c : DependencyUpdater.counters) (t t1 t2 t3 : T)
    (src dep k1 k2 : string) (more1 more2 : list (option string))
    (code1 code2 code3 : Z) (b : DependencyUpdater.body) :
  DependencyUpdater.dry_run a = false ->
  Text.nonempty (r !! "Summary") = Some src ->
  Text.nonempty (r !! "Depends on") = Some dep ->
  DependencyUpdater.answer
    (DependencyUpdater.search_request (DependencyUpdater.project_key a) src) t
  = (DependencyUpdater.Status code1
       (DependencyUpdater.Json (DependencyUpdater.Issues (Some k1 :: more1))), t1) ->
  DependencyUpdater.answer
    (DependencyUpdater.search_request (DependencyUpdater.project_key a) dep) t1
  = (DependencyUpdater.Status code2
       (DependencyUpdater.Json (DependencyUpdater.Issues (Some k2 :: more2))), t2) ->
  DependencyUpdater.answer (DependencyUpdater.CreateLink k1 k2) t2
  = (DependencyUpdater.Status code3 b, t3) ->
  (code1 < 400)%Z -> (code2 < 400)%Z -> (code3 < 400)%Z ->
  DependencyUpdater.requests_of
    (Run.log_of (DependencyUpdater.process_row a r c t))
  = [DependencyUpdater.search_request (DependencyUpdater.project_key a) src;
     DependencyUpdater.search_request (DependencyUpdater.project_key a) dep;
     DependencyUpdater.CreateLink k1 k2]
  /\ Run.result_of (DependencyUpdater.process_row a r c t)
     = Run.Ok {| DependencyUpdater.processed := DependencyUpdater.processed c + 1;
                 DependencyUpdater.linked := DependencyUpdater.linked c + 1;
                 DependencyUpdater.link_counter
                 := DependencyUpdater.link_counter c + 1 |}
  /\ Run.state_of (DependencyUpdater.process_row a r c t) = t3.
Proof.
  intros Hdry Hsrc Hdep A1 A2 A3 C1 C2 C3.
  apply Z.ltb_lt in C1, C2, C3.
  unfold DependencyUpdater.process_row. rewrite Hsrc, Hdep, Hdry.
  unfold DependencyUpdater.search_by_summary, DependencyUpdater.link_is_blocked_by,
    DependencyUpdater.post, Run.bind, Run.try_except, Run.ret, Run.tell.
  rewrite A1, C1. cbn [snd DependencyUpdater.json Run.ret].
  unfold Run.ret. rewrite A2, C2. cbn [snd DependencyUpdater.json Run.ret].
  unfold Run.ret. cbn [DependencyUpdater.first_key Run.ret].
  unfold Run.ret. rewrite A3, C3.
  cbn [DependencyUpdater.processed DependencyUpdater.linked
       DependencyUpdater.link_counter].
  destruct (_ && _); [by destruct (_ =? 0)%Z|].
  destruct b; by destruct (_ =? 0)%Z.
Qed.

Lemma dependency_links_first_hits_witness :
  DependencyUpdater.requests_of
    (Run.log_of
       (@DependencyUpdater.process_row nat Cases.two_found (Cases.run_of false)
          (Cases.depends "Design" "Plan") DependencyUpdater.counters0 0%nat))
  = [DependencyUpdater.search_request "FS" "Design";
     DependencyUpdater.search_request "FS" "Plan";
     DependencyUpdater.CreateLink "FS-00" "FS-01"]
  /\ Run.result_of
       (@DependencyUpdater.process_row nat Cases.two_found (Cases.run_of false)
          (Cases.depends "Design" "Plan") DependencyUpdater.counters0 0%nat)
     = Run.Ok {| DependencyUpdater.processed := 0 + 1;
                 DependencyUpdater.linked := 0 + 1;
                 DependencyUpdater.link_counter := 0 + 1 |}
  /\ Run.state_of
       (@DependencyUpdater.process_row nat Cases.two_found (Cases.run_of false)
          (Cases.depends "Design" "Plan") DependencyUpdater.counters0 0%nat)
     = 3%nat.
Proof.
  apply (@dependency_links_first_hits nat Cases.two_found (Cases.run_of false)
           (Cases.depends "Design" "Plan") DependencyUpdater.counters0
           0%nat 1%nat 2%nat 3%nat "Design" "Plan" "FS-00" "FS-01"
           [Some "FS-99"] [Some "FS-99"]
           200 200 201 DependencyUpdater.Empty);
    try reflexivity; try lia; by vm_compute.
Defined.

(** X27. A run of the DependencyUpdater is never ended by a link: the
    failure of a link is caught and reported.  When the run ends with
    an exception, the last request it sent is a search by summary: the
    searches stand outside every [try]. *)
Theorem dependency_run_ends_only_on_a_search {T : Type}
    `{DependencyUpdater.Tracker T}
    (a : DependencyUpdater.args) (rows : list (gmap string string)) (t : T)
    (e : DependencyUpdater.exn) :
  Run.result_of (DependencyUpdater.main a rows t) = Run.Raise e ->
  exists l s,
    DependencyUpdater.requests_of (Run.log_of (DependencyUpdater.main a rows t))
    = l ++ [DependencyUpdater.search_request (DependencyUpdater.project_key a) s].
Proof.
  unfold DependencyUpdater.main. rewrite bind_run.
  pose proof (dep_rows_raise a rows DependencyUpdater.counters0 t) as Hrows.
  destruct (Run.for_each _ rows _ t) as [[[c'|e'] t'] l'];
    cbn [Run.result_of Run.state_of Run.log_of fst snd] in *; [done|].
  intros _. by eapply Hrows.
Qed.

Lemma dependency_run_ends_only_on_a_search_witness :
  exists l s,
    DependencyUpdater.requests_of
      (Run.log_of
         (@DependencyUpdater.main unit Cases.no_searching (Cases.run_of false)
            [Cases.depends "Design" "Plan"] tt))
    = l ++ [DependencyUpdater.search_request
              (DependencyUpdater.project_key (Cases.run_of false)) s].
Proof.
  apply (@dependency_run_ends_only_on_a_search unit Cases.no_searching
           (Cases.run_of false) [Cases.depends "Design" "Plan"] tt
           (DependencyUpdater.RuntimeError 503)).
  by vm_compute.
Defined.

(** ** Runner *)

Ltac flags :=
  repeat apply List.Forall_cons; try apply List.Forall_nil;
  match goal with
  | |- context [if ?b then _ else _] =>
      destruct b; vm_compute; intuition congruence
  end.

(** X28. The runner starts Importer.py, ColumnUpdater.py and
    DependencyUpdater.py in that order, each one only when the one
    before has returned 0, and ends with exit code 1 at the first that
    returns another code.  Every script gets [--dry-run] exactly when
    the runner got it, and none gets [--no-wipe]. *)
Theorem runner_stops_at_first_failure {St : Type} `{Runner.Shell St}
    (executable : string) (dry_run : bool) (s : St) :
  List.map (fun x => x.1.1) (Runner.ran (Run.log_of (Runner.main executable dry_run s)))
    `prefix_of` ["Importer.py"; "ColumnUpdater.py"; "DependencyUpdater.py"]
  /\ Forall (fun x => (In "--dry-run" x.1.2 <-> dry_run = true)
                      /\ ~ In "--no-wipe" x.1.2)
            (Runner.ran (Run.log_of (Runner.main executable dry_run s)))
  /\ match Run.result_of (Runner.main executable dry_run s) with
     | Run.Ok _ =>
         List.map snd (Runner.ran (Run.log_of (Runner.main executable dry_run s)))
         = [0; 0; 0]%Z
     | Run.Raise e =>
         e = Runner.SystemExit 1
         /\ exists codes code,
              List.map snd
                (Runner.ran (Run.log_of (Runner.main executable dry_run s)))
              = codes ++ [code]
              /\ Forall (fun c => c = 0%Z) codes /\ code <> 0%Z
     end.
Proof.
  unfold Runner.main, Runner.run_script, Run.bind, Run.tell.
  destruct (Runner.subprocess_run _ s) as [c1 s1].
  destruct (Z.eqb_spec c1 0) as [->|N1].
  2:{ cbn. split; [by eexists|]. split.
      - cbn [Runner.ran List.flat_map app]; flags.
      - split; [done|]. exists [], c1. by repeat split. }
  destruct (Runner.subprocess_run _ s1) as [c2 s2].
  destruct (Z.eqb_spec c2 0) as [->|N2].
  2:{ cbn. split; [by eexists|]. split.
      - cbn [Runner.ran List.flat_map app]; flags.
      - split; [done|]. exists [0%Z], c2. by repeat split; repeat constructor. }
  destruct (Runner.subprocess_run _ s2) as [c3 s3].
  destruct (Z.eqb_spec c3 0) as [->|N3].
  2:{ cbn. split; [by eexists|]. split.
      - cbn [Runner.ran List.flat_map app]; flags.
      - split; [done|]. exists [0%Z; 0%Z], c3. by repeat split; repeat constructor. }
  cbn. split; [by exists []|]. split; [|done].
  cbn [Runner.ran List.flat_map app]; flags.
Qed.
